(** * Content-Automation-Agent: the data collector, its consumers and the
    engagement estimator, embedded in Rocq.

  The development follows the Python sources:
  - [services/data_collector.py]    ([CollectedData], [DataCollector]),
  - [crews/smart_script_crew.py]    ([SmartScriptCrew.run]),
  - [api/routes/agent_routes.py]    ([handle_crew_error]),
  - [tools/engagement_analyzer.py]  ([EngagementAnalyzerTool]).

  Python [int] is [Z]; Python [float] is IEEE binary64, taken from the
  standard library's [SpecFloat] at precision 53; [str] is [string] (one
  character of the model per Python character, which is exact on ASCII
  text); a parsed JSON document is the inductive [json]. *)

From Stdlib Require Import ZArith List String Ascii Bool Lia.
From Stdlib Require Import Floats.SpecFloat.
From Stdlib Require Import DecimalString DecimalZ DecimalPos.
From stdpp Require Import base strings list gmap.

Local Open Scope Z_scope.

(** ** Binary64 arithmetic, as Python's [float] uses it *)

Module B64.

Definition prec : Z := 53.
Definition emax : Z := 1024.

Abbreviation float := spec_float.

Definition valid (x : float) : bool := valid_binary prec emax x.

Definition mul : float -> float -> float := SFmul prec emax.
Definition div : float -> float -> float := SFdiv prec emax.
Definition sub : float -> float -> float := SFsub prec emax.
Definition ltb : float -> float -> bool := SFltb.
Definition leb : float -> float -> bool := SFleb.

(** [float(z)] for an integer, correctly rounded. *)
Definition of_Z (z : Z) : float := binary_normalize prec emax z 0 false.

(** The decimal literal [n / 10^k] of the source text.  Python reads a
    literal to the nearest binary64; [n] and [10^k] are exact here and the
    division is correctly rounded, so the quotient is that same number. *)
Definition lit (n : Z) (k : nat) : float :=
  div (of_Z n) (of_Z (10 ^ Z.of_nat k)).

(** Python compares an [int] with a [float] by their exact values. *)
Definition Zcompare (c : Z) (x : float) : option comparison :=
  match x with
  | S754_nan => None
  | S754_infinity s => Some (if s then Gt else Lt)
  | S754_zero _ => Some (c ?= 0)
  | S754_finite s m e =>
      let v := cond_Zopp s (Zpos m) in
      Some match e with
           | Z0 => c ?= v
           | Zpos _ => c ?= v * 2 ^ e
           | Zneg p => c * 2 ^ Zpos p ?= v
           end
  end.

(** [c > x] and [c < x] for an [int] [c] and a [float] [x]. *)
Definition int_gt (c : Z) (x : float) : bool :=
  match Zcompare c x with Some Gt => true | _ => false end.

Definition int_lt (c : Z) (x : float) : bool :=
  match Zcompare c x with Some Lt => true | _ => false end.

Definition int_eq (c : Z) (x : float) : bool :=
  match Zcompare c x with Some Eq => true | _ => false end.

(** The builtins [min(a, b)] and [max(a, b)]: the first argument is kept
    unless the second compares strictly below (above) it. *)
Definition py_min (a b : float) : float := if ltb b a then b else a.
Definition py_max (a b : float) : float := if ltb a b then b else a.

(** [int(x)]: truncation toward zero; [None] where Python raises
    ([nan], infinities). *)
Definition trunc (x : float) : option Z :=
  match x with
  | S754_nan | S754_infinity _ => None
  | S754_zero _ => Some 0
  | S754_finite s m e =>
      Some (cond_Zopp s match e with
                        | Zneg p => Zpos m / 2 ^ Zpos p
                        | _ => Zpos m * 2 ^ e
                        end)
  end.

(** Nearest integer to [n / d], ties to the even one. *)
Definition rne_div (n d : Z) : Z :=
  let q := n / d in
  match 2 * (n mod d) ?= d with
  | Lt => q
  | Gt => q + 1
  | Eq => if Z.even q then q else q + 1
  end.

(** Nearest integer to [m * 2^e * 10^k], ties to even: the correctly
    rounded decimal conversion behind [format(x, '.kf')] and
    [round(x, k)]. *)
Definition round_scaled (k : nat) (m : positive) (e : Z) : Z :=
  match e with
  | Zneg p => rne_div (Zpos m * 10 ^ Z.of_nat k) (2 ^ Zpos p)
  | _ => Zpos m * 10 ^ Z.of_nat k * 2 ^ e
  end.

Definition set_sign (s : bool) (x : float) : float :=
  if s then SFopp x else x.

(** [round(x, 1)]: the digits are rounded correctly in decimal, then read
    back as the nearest binary64; [nan] and infinities round to
    themselves, a result of zero keeps the sign. *)
Definition py_round1 (x : float) : float :=
  match x with
  | S754_finite s m e =>
      let t := round_scaled 1 m e in
      if t =? 0 then S754_zero s else set_sign s (div (of_Z t) (of_Z 10))
  | _ => x
  end.

(** For the proofs about rounding: [mrs] is [m0] after [k] right shifts,
    with the quotient and the record of whether anything was shifted out. *)
Definition shifted (m0 k : Z) (mrs : shr_record) : Prop :=
  shr_m mrs = m0 / 2 ^ k /\
  orb (shr_r mrs) (shr_s mrs) = negb (m0 mod 2 ^ k =? 0).

(** Values are compared on a common fixed-point scale of [2^-bias]. *)
Definition bias : Z := 1200.

End B64.

(** ** Python values and builtins used by the sources *)

Module Py.

Definition nl : string := String "010"%char EmptyString.
Definition dq : string := String "034"%char EmptyString.

(** [str.lower()] on ASCII letters. *)
Definition lower_ascii (c : ascii) : ascii :=
  let n := nat_of_ascii c in
  if ((65 <=? n) && (n <=? 90))%nat then ascii_of_nat (n + 32) else c.

Fixpoint lower (s : string) : string :=
  match s with
  | EmptyString => EmptyString
  | String c s' => String (lower_ascii c) (lower s')
  end.

(** [needle in hay] for two strings. *)
Fixpoint contains (needle hay : string) : bool :=
  String.prefix needle hay
  || match hay with
     | EmptyString => false
     | String _ hay' => contains needle hay'
     end.

(** [sep.join(l)]. *)
Fixpoint join (sep : string) (l : list string) : string :=
  match l with
  | [] => EmptyString
  | [x] => x
  | x :: l' => x +:+ sep +:+ join sep l'
  end.

(** [s[:n]]. *)
Fixpoint str_take (n : nat) (s : string) : string :=
  match n, s with
  | S n', String c s' => String c (str_take n' s')
  | _, _ => EmptyString
  end.

Definition chars (s : string) : list string :=
  map (fun c => String c EmptyString) (String.list_ascii_of_string s).

Definition str_eqb (a b : string) : bool := bool_decide (a = b).

(** [str(z)] for an [int]. *)
Definition dec (z : Z) : string := NilZero.string_of_int (Z.to_int z).

(** Reading back a decimal numeral. *)
Definition int_of_dec (s : string) : option Z :=
  option_map Z.of_int (NilZero.int_of_string s).

(** Grouping by thousands, on the digits in reverse order. *)
Fixpoint group3 (l : list ascii) : list ascii :=
  match l with
  | a :: b :: c :: rest =>
      match rest with
      | [] => l
      | _ :: _ => a :: b :: c :: ","%char :: group3 rest
      end
  | _ => l
  end.

Definition group_thousands (digits : string) : string :=
  String.string_of_list_ascii
    (rev (group3 (rev (String.list_ascii_of_string digits)))).

(** [format(z, ',')]. *)
Definition fmt_comma (z : Z) : string :=
  (if z <? 0 then "-" else EmptyString) +:+ group_thousands (dec (Z.abs z)).



(** [format(x, '.0f')]. *)
Definition fmt_f0 (x : B64.float) : string :=
  match x with
  | S754_nan => "nan"
  | S754_infinity s => if s then "-inf" else "inf"
  | S754_zero s => if s then "-0" else "0"
  | S754_finite s m e =>
      (if s then "-" else EmptyString) +:+ dec (B64.round_scaled 0 m e)
  end.

(** Exceptions.  [External] is what a library outside the repository
    raised (the HTTP client, the JSON decoder, pytrends, the crew). *)
Inductive exn :=
| KeyError (k : string)
| TypeError
| AttributeError
| ValueError
| OverflowError
| External (msg : string).

(** Computations that may raise. *)
Definition res : Type -> Type := sum exn.

#[global] Instance res_ret : MRet res := fun _ x => inr x.
#[global] Instance res_bind : MBind res :=
  fun _ _ f m => match m with inl e => inl e | inr x => f x end.

Definition raise {A} (e : exn) : res A := inl e.

(** A parsed JSON document: what [resp.json()] returns. *)
#[warnings="-register-all"]
Inductive json :=
| JNull
| JBool (b : bool)
| JInt (z : Z)
| JFloat (x : B64.float)
| JStr (s : string)
| JArr (l : list json)
| JObj (kv : list (string * json)).

Fixpoint assoc (k : string) (kv : list (string * json)) : option json :=
  match kv with
  | [] => None
  | (k', v) :: kv' => if str_eqb k k' then Some v else assoc k kv'
  end.

(** Truth value of a JSON value ([not x] is its negation). *)
Definition truthy (j : json) : bool :=
  match j with
  | JNull => false
  | JBool b => b
  | JInt z => negb (z =? 0)
  | JFloat (S754_zero _) => false
  | JFloat _ => true
  | JStr s => negb (str_eqb s EmptyString)
  | JArr l => match l with [] => false | _ => true end
  | JObj kv => match kv with [] => false | _ => true end
  end.

Definition is_str (k : string) (j : json) : bool :=
  match j with JStr s => str_eqb k s | _ => false end.

(** [k in j] for a string [k]. *)
Definition py_in (k : string) (j : json) : res bool :=
  match j with
  | JObj kv => mret (bool_decide (is_Some (assoc k kv)))
  | JArr l => mret (existsb (is_str k) l)
  | JStr s => mret (contains k s)
  | _ => raise TypeError
  end.

(** [j.get(k, default)]. *)
Definition py_get (j : json) (k : string) (default : json) : res json :=
  match j with
  | JObj kv => mret (from_option id default (assoc k kv))
  | _ => raise AttributeError
  end.

(** [j[k]] for a string [k]. *)
Definition py_index (j : json) (k : string) : res json :=
  match j with
  | JObj kv =>
      match assoc k kv with
      | Some v => mret v
      | None => raise (KeyError k)
      end
  | _ => raise TypeError
  end.

(** The elements [for x in j] runs through. *)
Definition py_iter (j : json) : res (list json) :=
  match j with
  | JArr l => mret l
  | JObj kv => mret (map (fun p => JStr (fst p)) kv)
  | JStr s => mret (map JStr (chars s))
  | _ => raise TypeError
  end.

(** [len(j)]. *)
Definition py_len (j : json) : res Z :=
  match j with
  | JArr l => mret (Z.of_nat (length l))
  | JObj kv => mret (Z.of_nat (length kv))
  | JStr s => mret (Z.of_nat (String.length s))
  | _ => raise TypeError
  end.

(** [j[:10]]. *)
Definition py_slice10 (j : json) : res json :=
  match j with
  | JStr s => mret (JStr (str_take 10 s))
  | JArr l => mret (JArr (take 10 l))
  | _ => raise TypeError
  end.

(** Builtins of the interpreter that the sources call and the model takes
    as given: [str(e)] for an exception, [int(s)] for a string, [str(v)]
    for a JSON value that is not a string, [str(x)] for a float. *)
Class Builtins := {
  exn_str : exn -> string;
  int_of_str : string -> option Z;
  value_str : json -> string;
  float_str : B64.float -> string;
}.

Section WithBuiltins.
Context `{!Builtins}.

(** The text an f-string shows for a value. *)
Definition py_str (j : json) : string :=
  match j with
  | JStr s => s
  | _ => value_str j
  end.

(** [int(j)]. *)
Definition py_int (j : json) : res Z :=
  match j with
  | JInt z => mret z
  | JBool b => mret (if b then 1 else 0)
  | JFloat S754_nan => raise ValueError
  | JFloat x => from_option mret (raise OverflowError) (B64.trunc x)
  | JStr s => from_option mret (raise ValueError) (int_of_str s)
  | _ => raise TypeError
  end.

End WithBuiltins.

End Py.

(** ** [services/data_collector.py] *)

Module DataCollector.
Import Py.

Record YouTubeVideo := {
  title : string;
  video_id : string;
  channel_name : string;
  view_count : Z;
  like_count : Z;
  publish_date : string;
  url : string;
}.

Record TrendData := {
  keyword : string;
  current_interest : Z;
  average_interest : B64.float;
  trend_direction : string;
  rising_queries : list string;
}.

Record CollectedData := {
  topic : string;
  platform : string;
  collected_at : string;
  youtube_videos : list YouTubeVideo;
  trends : list TrendData;
  serp_questions : list string;
  errors : list string;
}.

(** *** [CollectedData.has_data] *)

(** The three lists [or] chooses among. *)
Inductive records :=
| Videos (l : list YouTubeVideo)
| Trends (l : list TrendData)
| Questions (l : list string).

Definition nonempty {A} (l : list A) : bool :=
  match l with [] => false | _ :: _ => true end.

(** [bool(x)] for a list. *)
Definition bool_of (r : records) : bool :=
  match r with
  | Videos l => nonempty l
  | Trends l => nonempty l
  | Questions l => nonempty l
  end.

(** [a or b]: [a] when it is true, else [b]. *)
Definition py_or (a b : records) : records := if bool_of a then a else b.

Definition has_data (self : CollectedData) : bool :=
  bool_of (py_or (py_or (Videos (youtube_videos self)) (Trends (trends self)))
                 (Questions (serp_questions self))).

(** *** [CollectedData.to_prompt_context] *)

(** The f-string appended for the video at position [i]. *)
Definition video_entry (i : Z) (v : YouTubeVideo) : string :=
  nl +:+ dec i +:+ ". " +:+ dq +:+ title v +:+ dq +:+ nl +:+
  "   Channel: " +:+ channel_name v +:+ nl +:+
  "   Views: " +:+ fmt_comma (view_count v) +:+
  " | Likes: " +:+ fmt_comma (like_count v) +:+ nl +:+
  "   Published: " +:+ publish_date v +:+ nl +:+
  "   URL: " +:+ url v +:+ nl.

(** The f-string appended for one trend. *)
Definition trend_entry (t : TrendData) : string :=
  nl +:+ "Keyword: " +:+ dq +:+ keyword t +:+ dq +:+ nl +:+
  "- Interest: " +:+ dec (current_interest t) +:+
  "/100 (avg: " +:+ fmt_f0 (average_interest t) +:+ ")" +:+ nl +:+
  "- Direction: " +:+ trend_direction t +:+ nl +:+
  "- Rising queries: " +:+
  (if nonempty (rising_queries t)
   then join ", " (take 5 (rising_queries t))
   else "None") +:+ nl.

Definition bullet (s : string) : string := "- " +:+ s +:+ nl.

Definition header (self : CollectedData) : string :=
  nl +:+ "=== REAL DATA COLLECTED ===" +:+ nl +:+
  "Topic: " +:+ topic self +:+ nl +:+
  "Platform: " +:+ platform self +:+ nl +:+
  "Collected: " +:+ collected_at self +:+ nl +:+ nl.

(** [for i, v in enumerate(videos, 1): ctx += ...] *)
Definition add_videos (ctx : string) (videos : list YouTubeVideo) : string :=
  snd (fold_left (fun '(i, ctx) v => (i + 1, ctx +:+ video_entry i v))
                 videos (1, ctx)).

(** [for x in l: ctx += f(x)] *)
Definition add_each {A} (f : A -> string) (ctx : string) (l : list A) : string :=
  fold_left (fun ctx x => ctx +:+ f x) l ctx.

Definition to_prompt_context (self : CollectedData) : string :=
  let ctx := header self in
  let ctx :=
    if nonempty (youtube_videos self)
    then add_videos (ctx +:+ "### TOP YOUTUBE VIDEOS (REAL):" +:+ nl)
                    (take 10 (youtube_videos self))
    else ctx +:+ "### YOUTUBE: No data (API issue)" +:+ nl in
  let ctx :=
    if nonempty (trends self)
    then add_each trend_entry
           (ctx +:+ nl +:+ "### GOOGLE TRENDS (REAL):" +:+ nl) (trends self)
    else ctx +:+ nl +:+ "### GOOGLE TRENDS: No data" +:+ nl in
  let ctx :=
    if nonempty (serp_questions self)
    then add_each bullet
           (ctx +:+ nl +:+ "### PEOPLE ALSO ASK (REAL):" +:+ nl)
           (take 10 (serp_questions self))
    else ctx +:+ nl +:+ "### SERP QUESTIONS: No data" +:+ nl in
  let ctx :=
    if nonempty (errors self)
    then add_each bullet
           (ctx +:+ nl +:+ "### DATA COLLECTION ISSUES:" +:+ nl) (errors self)
    else ctx in
  ctx.

(** *** The outside world of one collection *)

(** What pytrends answers for a topic: building the request, the topic's
    column of [interest_over_time()] (no rows for an empty frame), and
    [related_queries()], which holds the topic's rising queries or not, the
    inner result being that of reading them out as a list. *)
Record pytrends_reply := {
  payload : res unit;
  interest_over_time : res (list Z);
  related_queries : res (option (res (list string)));
}.

Record World := {
  getenv : string -> option string;
  (** [client.get(url, params=params)] followed by [resp.json()] *)
  http_get : string -> list (string * string) -> res json;
  PYTRENDS_AVAILABLE : bool;
  pytrends : string -> pytrends_reply;
  (** [datetime.now().strftime("%Y-%m-%d %H:%M:%S")] *)
  now : string;
}.

(** [DataCollector.__init__] *)
Record DataCollector := {
  youtube_key : option string;
  serp_key : option string;
}.

Definition init (w : World) : DataCollector :=
  {| youtube_key := getenv w "YOUTUBE_API_KEY";
     serp_key := getenv w "SERP_API_KEY" |}.

(** [not key] for the result of [os.getenv]. *)
Definition key_set (k : option string) : option string :=
  match k with
  | Some s => if str_eqb s EmptyString then None else Some s
  | None => None
  end.

Section Fetch.
Context `{!Builtins}.

(** *** [_fetch_youtube] *)

(** [[item["id"]["videoId"] for item in items
      if "videoId" in item.get("id", {})]] *)
Fixpoint video_ids_of (items : list json) : res (list json) :=
  match items with
  | [] => mret []
  | item :: items' =>
      idv ← py_get item "id" (JObj []);
      b ← py_in "videoId" idv;
      if b : bool then
        i ← py_index item "id";
        v ← py_index i "videoId";
        vs ← video_ids_of items';
        mret (v :: vs)
      else video_ids_of items'
  end.

(** [",".join(video_ids)]: every element has to be a [str]. *)
Fixpoint strs_of (l : list json) : res (list string) :=
  match l with
  | [] => mret []
  | JStr s :: l' => ss ← strs_of l'; mret (s :: ss)
  | _ :: _ => raise TypeError
  end.

(** [{v["id"]: v["statistics"] for v in ...}].  Later entries replace
    earlier ones.  The map is only ever asked for [str] identifiers, so an
    entry under a key that is not a [str] is left out; a key that cannot be
    hashed raises. *)
Fixpoint stats_map_of (vs : list json) (m : gmap string json)
  : res (gmap string json) :=
  match vs with
  | [] => mret m
  | v :: vs' =>
      k ← py_index v "id";
      st ← py_index v "statistics";
      match k with
      | JStr s => stats_map_of vs' (<[s := st]> m)
      | JArr _ | JObj _ => raise TypeError
      | _ => stats_map_of vs' m
      end
  end.

(** [stats_map.get(vid, {})] *)
Definition stats_get (m : gmap string json) (vid : json) : res json :=
  match vid with
  | JStr s => mret (default (JObj []) (m !! s))
  | JArr _ | JObj _ => raise TypeError
  | _ => mret (JObj [])
  end.

(** One turn of [for item in items], [None] for [continue]. *)
Definition video_of (stats_map : gmap string json) (item : json)
  : res (option YouTubeVideo) :=
  idv ← py_get item "id" (JObj []);
  vid ← py_get idv "videoId" JNull;
  if negb (truthy vid) then mret None
  else
    snippet ← py_index item "snippet";
    stats ← stats_get stats_map vid;
    t ← py_get snippet "title" (JStr EmptyString);
    ch ← py_get snippet "channelTitle" (JStr EmptyString);
    vc ← py_get stats "viewCount" (JInt 0);
    views ← py_int vc;
    lc ← py_get stats "likeCount" (JInt 0);
    likes ← py_int lc;
    pa ← py_get snippet "publishedAt" (JStr EmptyString);
    pd ← py_slice10 pa;
    mret (Some {| title := py_str t;
                  video_id := py_str vid;
                  channel_name := py_str ch;
                  view_count := views;
                  like_count := likes;
                  publish_date := py_str pd;
                  url := "https://youtube.com/watch?v=" +:+ py_str vid |}).

Fixpoint videos_of (stats_map : gmap string json) (items : list json)
  : res (list YouTubeVideo) :=
  match items with
  | [] => mret []
  | item :: items' =>
      o ← video_of stats_map item;
      vs ← videos_of stats_map items';
      mret (from_option (fun v => v :: vs) vs o)
  end.

Definition search_url : string := "https://www.googleapis.com/youtube/v3/search".
Definition stats_url : string := "https://www.googleapis.com/youtube/v3/videos".

(** Lines 161-198, "Get video stats": the second request and the merge. *)
Definition youtube_stats (w : World) (key : string) (items : list json)
  (errors : list string) : res (list YouTubeVideo * list string) :=
  video_ids ← video_ids_of items;
  if negb (nonempty video_ids) then mret ([], errors)
  else
    ids ← strs_of video_ids;
    stats_data ← http_get w stats_url
      [("part", "statistics"); ("id", join "," ids); ("key", key)];
    stats_items ← py_get stats_data "items" (JArr []);
    stats_l ← py_iter stats_items;
    stats_map ← stats_map_of stats_l ∅;
    videos ← videos_of stats_map items;
    mret (videos, errors).

(** The body of the [try] block: the videos and the error list on return,
    or the exception raised. *)
Definition youtube_try (w : World) (key query : string) (errors : list string)
  : res (list YouTubeVideo * list string) :=
  search_data ← http_get w search_url
    [("part", "snippet"); ("q", query); ("type", "video");
     ("order", "viewCount"); ("maxResults", "10"); ("key", key)];
  has_error ← py_in "error" search_data;
  if has_error : bool then
    err ← py_index search_data "error";
    msg ← py_get err "message" (JStr "Unknown error");
    mret ([], errors ++ ["YouTube API: " +:+ py_str msg])
  else
    items ← py_get search_data "items" (JArr []);
    if negb (truthy items) then
      mret ([], errors ++ ["No YouTube videos found for: " +:+ query])
    else
      items_l ← py_iter items;
      youtube_stats w key items_l errors.

Definition _fetch_youtube (self : DataCollector) (w : World)
  (query : string) (errors : list string) : list YouTubeVideo * list string :=
  match key_set (youtube_key self) with
  | None => ([], errors ++ ["YOUTUBE_API_KEY not set"])
  | Some key =>
      match youtube_try w key query errors with
      | inr r => r
      | inl e => ([], errors ++ ["YouTube fetch failed: " +:+ exn_str e])
      end
  end.

(** *** [_fetch_trends] *)

Definition RISING : string := "📈 RISING".
Definition DECLINING : string := "📉 DECLINING".
Definition STABLE : string := "➡️ STABLE".

(** The literals [1.1] and [0.9]. *)
Definition f1_1 : B64.float := Eval vm_compute in B64.lit 11 1.
Definition f0_9 : B64.float := Eval vm_compute in B64.lit 9 1.

(** Lines 228-233: the direction from the current and the average
    interest. *)
Definition direction_of (current : Z) (avg : B64.float) : string :=
  if B64.int_gt current (B64.mul avg f1_1) then RISING
  else if B64.int_lt current (B64.mul avg f0_9) then DECLINING
  else STABLE.

Definition sumZ (l : list Z) : Z := fold_right Z.add 0 l.

(** [column.mean()] of an integer column, as pandas computes it: the sum
    and the count in binary64 (exact while they stay below [2^53]), then one
    division. *)
Definition mean (column : list Z) : B64.float :=
  B64.div (B64.of_Z (sumZ column)) (B64.of_Z (Z.of_nat (length column))).

(** [column.iloc[-1]] *)
Definition iloc_last (column : list Z) : res Z :=
  from_option mret (raise (External "single positional indexer is out-of-bounds"))
              (last column).

Definition trends_try (w : World) (topic : string) (errors : list string)
  : res (list TrendData * list string) :=
  let reply := pytrends w topic in
  _ ← payload reply;
  column ← interest_over_time reply;
  related ← related_queries reply;
  if negb (nonempty column) then
    mret ([], errors ++ ["No Google Trends data for: " +:+ topic])
  else
    rising ← match related with
             | Some queries => qs ← queries; mret (take 10 qs)
             | None => mret []
             end;
    current ← iloc_last column;
    let avg := mean column in
    mret ([{| keyword := topic;
              current_interest := current;
              average_interest := avg;
              trend_direction := direction_of current avg;
              rising_queries := rising |}], errors).

Definition _fetch_trends (w : World) (topic : string) (errors : list string)
  : list TrendData * list string :=
  if negb (PYTRENDS_AVAILABLE w) then
    ([], errors ++ ["pytrends not installed (pip install pytrends)"])
  else
    match trends_try w topic errors with
    | inr r => r
    | inl e => ([], errors ++ ["Google Trends failed: " +:+ exn_str e])
    end.

(** *** [_fetch_serp] *)

Definition serp_url : string := "https://serpapi.com/search".

(** [for item in ...: if "question" in item: questions.append(...)] *)
Fixpoint questions_of (items : list json) : res (list string) :=
  match items with
  | [] => mret []
  | item :: items' =>
      b ← py_in "question" item;
      if b : bool then
        q ← py_index item "question";
        qs ← questions_of items';
        mret (py_str q :: qs)
      else questions_of items'
  end.

Definition serp_try (w : World) (key query : string) (errors : list string)
  : res (list string * list string) :=
  data ← http_get w serp_url
    [("q", query); ("api_key", key); ("engine", "google")];
  has_error ← py_in "error" data;
  if has_error : bool then
    err ← py_index data "error";
    mret ([], errors ++ ["SERP API: " +:+ py_str err])
  else
    related ← py_get data "related_questions" (JArr []);
    items ← py_iter related;
    questions ← questions_of items;
    mret (questions, errors).

Definition _fetch_serp (self : DataCollector) (w : World)
  (query : string) (errors : list string) : list string * list string :=
  match key_set (serp_key self) with
  | None => ([], errors ++ ["SERP_API_KEY not set"])
  | Some key =>
      match serp_try w key query errors with
      | inr r => r
      | inl e => ([], errors ++ ["SERP fetch failed: " +:+ exn_str e])
      end
  end.

(** *** [collect_all] *)

Definition collect_all (self : DataCollector) (w : World)
  (topic platform : string) : CollectedData :=
  let errors := [] in
  let '(videos, errors) := _fetch_youtube self w topic errors in
  let '(trends, errors) := _fetch_trends w topic errors in
  let '(questions, errors) := _fetch_serp self w topic errors in
  {| topic := topic;
     platform := platform;
     collected_at := now w;
     youtube_videos := videos;
     trends := trends;
     serp_questions := questions;
     errors := errors |}.

End Fetch.

End DataCollector.

(** ** [crews/smart_script_crew.py] *)

Module SmartScriptCrew.
Import Py DataCollector.

(** The two tasks handed to the crew.  A constructor stands for the fixed
    instruction text of its task; its arguments are the values the f-strings
    put into that text. *)
Inductive Task :=
| AnalysisTask (context : string)
| WritingTask (platform spec real_metrics_context : string)
              (top_views trend_interest : string) (videos : Z)
              (duration : string).

(** What [run] does besides returning, in order. *)
Inductive step :=
| Built (t : Task)
| KickedOff (tasks : list Task).

(** The dictionary [run] returns, or the exception that leaves it. *)
Inductive outcome :=
| Failed (error : string) (errors : list string) (message : string)
| Succeeded (youtube_videos trends serp_questions : Z)
            (errors : list string) (raw_data result : string)
| Raised (e : exn).

Definition _create_analysis_task (collected_data : CollectedData) : Task :=
  AnalysisTask (to_prompt_context collected_data).

(** Lines 124-135. *)
Definition real_metrics (collected_data : CollectedData) : string :=
  let top_video := head (youtube_videos collected_data) in
  let trend_info := head (trends collected_data) in
  let ctx := EmptyString in
  let ctx :=
    match top_video with
    | Some v =>
        ctx +:+ nl +:+ "REAL METRICS TO USE IN HOOK:" +:+ nl +:+
        "- Top video " +:+ dq +:+ title v +:+ dq +:+ " has " +:+
        fmt_comma (view_count v) +:+ " views" +:+ nl +:+
        "- Channel: " +:+ channel_name v +:+ nl
    | None => ctx
    end in
  match trend_info with
  | Some t =>
      ctx +:+ nl +:+ "- Google Trends interest: " +:+
      dec (current_interest t) +:+ "/100 (" +:+ trend_direction t +:+ ")" +:+ nl +:+
      "- Rising queries: " +:+
      (if nonempty (rising_queries t)
       then join ", " (take 3 (rising_queries t))
       else "None") +:+ nl
  | None => ctx
  end.

(** [platform_specs.get(platform.lower(), platform_specs["youtube"])], by
    the key of the text chosen. *)
Definition spec_of (platform : string) : string :=
  let p := lower platform in
  if existsb (str_eqb p) ["youtube"; "instagram"; "tiktok"; "newsletter"]
  then p else "youtube".

Definition duration_of (platform : string) : string :=
  if str_eqb platform "youtube" then "12-20 minute"
  else if str_eqb platform "instagram" then "30-60 second"
  else "appropriate".

(** The texts of [platform_specs] are all built before one is chosen, and
    three of them read [top_video.view_count]: without a video that is an
    [AttributeError] on [None]. *)
Definition _create_writing_task (platform : string)
  (collected_data : CollectedData) : res Task :=
  let trend_info := head (trends collected_data) in
  match head (youtube_videos collected_data) with
  | None => raise AttributeError
  | Some top_video =>
      mret (WritingTask platform (spec_of platform)
              (real_metrics collected_data)
              (fmt_comma (view_count top_video))
              (from_option (fun t => dec (current_interest t)) "X" trend_info)
              (Z.of_nat (length (youtube_videos collected_data)))
              (duration_of platform))
  end.

Section Run.
Context `{!Builtins}.
(** [crew.kickoff(...)] for the tasks given: the text of the result. *)
Variable kickoff : list Task -> res string.

Definition run (self : DataCollector) (w : World) (topic platform : string)
  : outcome * list step :=
  let collected_data := collect_all self w topic platform in
  if negb (has_data collected_data) then
    (Failed "Could not collect real data" (errors collected_data)
            "API data collection failed. Check your API keys.", [])
  else
    let analysis_task := _create_analysis_task collected_data in
    match _create_writing_task platform collected_data with
    | inl e => (Raised e, [Built analysis_task])
    | inr writing_task =>
        let tasks := [analysis_task; writing_task] in
        let steps := [Built analysis_task; Built writing_task; KickedOff tasks] in
        match kickoff tasks with
        | inl e => (Raised e, steps)
        | inr result =>
            (Succeeded (Z.of_nat (length (youtube_videos collected_data)))
                       (Z.of_nat (length (trends collected_data)))
                       (Z.of_nat (length (serp_questions collected_data)))
                       (errors collected_data)
                       (str_take 500 (to_prompt_context collected_data) +:+ "...")
                       result, steps)
        end
    end.

End Run.

End SmartScriptCrew.

(** ** [api/routes/agent_routes.py] *)

Module AgentRoutes.
Import Py.

Record HTTPException := {
  status_code : Z;
  detail : string;
}.

Definition auth_failed : HTTPException :=
  {| status_code := 503;
     detail := "LLM service authentication failed. Please check ANTHROPIC_API_KEY configuration." |}.

Definition key_missing : HTTPException :=
  {| status_code := 503;
     detail := "LLM API key not configured. Please set ANTHROPIC_API_KEY environment variable." |}.

Definition generic_error : HTTPException :=
  {| status_code := 500;
     detail := "An error occurred while processing your request. Please check the service configuration." |}.

(** [handle_crew_error], from [error_str = str(error)] on. *)
Definition handle_error_str (error_str : string) : HTTPException :=
  if contains "authentication_error" error_str
     || contains "invalid x-api-key" error_str
     || contains "401" error_str
  then auth_failed
  else if contains "ANTHROPIC_API_KEY is required" error_str
          || contains "API key" (lower error_str)
  then key_missing
  else generic_error.

Definition handle_crew_error `{!Builtins} (error : exn) : HTTPException :=
  handle_error_str (exn_str error).

End AgentRoutes.

(** ** [tools/engagement_analyzer.py] *)

Module EngagementAnalyzer.
Import Py.

(** The float literals of the file. *)
Definition f0 : B64.float := B64.of_Z 0.
Definition f0_5 : B64.float := Eval vm_compute in B64.lit 5 1.
Definition f0_85 : B64.float := Eval vm_compute in B64.lit 85 2.
Definition f0_9 : B64.float := Eval vm_compute in B64.lit 9 1.
Definition f0_95 : B64.float := Eval vm_compute in B64.lit 95 2.
Definition f1_0 : B64.float := Eval vm_compute in B64.lit 10 1.
Definition f1_1 : B64.float := Eval vm_compute in B64.lit 11 1.
Definition f1_15 : B64.float := Eval vm_compute in B64.lit 115 2.
Definition f1_2 : B64.float := Eval vm_compute in B64.lit 12 1.
Definition f1_25 : B64.float := Eval vm_compute in B64.lit 125 2.
Definition f1_3 : B64.float := Eval vm_compute in B64.lit 13 1.
Definition f1_4 : B64.float := Eval vm_compute in B64.lit 14 1.
Definition f1_5 : B64.float := Eval vm_compute in B64.lit 15 1.
Definition f1_6 : B64.float := Eval vm_compute in B64.lit 16 1.
Definition f2_1 : B64.float := Eval vm_compute in B64.lit 21 1.
Definition f2_8 : B64.float := Eval vm_compute in B64.lit 28 1.
Definition f3_0 : B64.float := Eval vm_compute in B64.lit 30 1.
Definition f3_5 : B64.float := Eval vm_compute in B64.lit 35 1.
Definition f3_8 : B64.float := Eval vm_compute in B64.lit 38 1.
Definition f5_0 : B64.float := Eval vm_compute in B64.lit 50 1.
Definition f5_2 : B64.float := Eval vm_compute in B64.lit 52 1.
Definition f5_5 : B64.float := Eval vm_compute in B64.lit 55 1.
Definition f15_0 : B64.float := Eval vm_compute in B64.lit 150 1.
Definition f100 : B64.float := Eval vm_compute in B64.of_Z 100.

(** What the tool sees of the outside: the environment and
    [requests.get(url, params=params, timeout=5)], which raises or gives the
    status code and what [response.json()] would do. *)
Record World := {
  getenv : string -> option string;
  requests_get : string -> list (string * string) -> res (Z * res json);
  (** [datetime.now().replace(day=1).isoformat() + "Z"] *)
  month_start : string;
}.

Fixpoint lookup_default {A} (k : string) (table : list (string * A)) (d : A) : A :=
  match table with
  | [] => d
  | (k', v) :: table' => if str_eqb k k' then v else lookup_default k table' d
  end.

Definition _get_platform_baseline (platform : string) : B64.float :=
  lookup_default (lower platform)
    [("youtube", f3_5); ("youtube shorts", f5_2); ("instagram", f2_8);
     ("instagram reels", f3_8); ("tiktok", f5_5); ("twitter", f0_9);
     ("linkedin", f2_1); ("facebook", f1_5)]
    f3_0.

(** [any(word in s for word in words)] *)
Definition any_in (words : list string) (s : string) : bool :=
  existsb (fun word => contains word s) words.

Definition _get_niche_multiplier (niche platform : string) : B64.float :=
  let niche_lower := lower niche in
  if any_in ["ai"; "automation"; "technology"; "tech"] niche_lower then f1_3
  else if any_in ["finance"; "money"; "business"; "entrepreneur"] niche_lower then f1_25
  else if any_in ["fitness"; "health"; "wellness"] niche_lower then f1_15
  else if any_in ["entertainment"; "comedy"; "gaming"] niche_lower then f1_4
  else if any_in ["education"; "tutorial"; "how-to"; "learning"] niche_lower then f1_2
  else if any_in ["marketing"; "social media"; "content"] niche_lower then f1_15
  else f1_0.

(** The [try] block of [_check_youtube_trends]; [None] where control
    falls out of it without returning. *)
Definition youtube_trends_try (w : World) (topic api_key : string)
  : res (option B64.float) :=
  response ← requests_get w "https://www.googleapis.com/youtube/v3/search"
    [("part", "snippet"); ("q", topic); ("type", "video");
     ("order", "viewCount"); ("publishedAfter", month_start w);
     ("maxResults", "10"); ("key", api_key)];
  let '(status, body) := response in
  if status =? 200 then
    data ← body;
    items ← py_get data "items" (JArr []);
    results_count ← py_len items;
    if 8 <=? results_count then mret (Some f1_3)
    else if 5 <=? results_count then mret (Some f1_15)
    else mret (Some f0_95)
  else mret None.

Definition _check_youtube_trends (w : World) (topic api_key : string)
  : B64.float :=
  match youtube_trends_try w topic api_key with
  | inr (Some score) => score
  | _ => f0
  end.

Definition _check_google_trends (w : World) (topic niche api_key : string)
  : B64.float :=
  match requests_get w "https://serpapi.com/search"
          [("engine", "google_trends"); ("q", topic); ("api_key", api_key)] with
  | inr (status, _) => if status =? 200 then f1_2 else f0
  | inl _ => f0
  end.

(** [sum(1 for kw in kws if test kw)] *)
Definition count_if (test : string -> bool) (kws : list string) : Z :=
  fold_right (fun kw n => if test kw then 1 + n else n) 0 kws.

Definition _keyword_trend_score (topic niche : string) : B64.float :=
  let topic_lower := lower topic in
  let niche_lower := lower niche in
  let trending_keywords :=
    ["ai"; "chatgpt"; "automation"; "2025"; "new"; "latest";
     "viral"; "trending"; "secret"; "hack"; "exposed"] in
  let evergreen_keywords :=
    ["how to"; "tutorial"; "guide"; "tips"; "learn";
     "beginner"; "complete"; "ultimate"; "best"] in
  let trend_count :=
    count_if (fun kw => contains kw topic_lower || contains kw niche_lower)
             trending_keywords in
  let evergreen_count :=
    count_if (fun kw => contains kw topic_lower) evergreen_keywords in
  if 2 <=? trend_count then f1_3
  else if trend_count =? 1 then f1_15
  else if 1 <=? evergreen_count then f1_1
  else f1_0.

(** [if key:] for the result of [os.getenv]. *)
Definition key_set (k : option string) : option string :=
  match k with
  | Some s => if str_eqb s EmptyString then None else Some s
  | None => None
  end.

(** [score > 0] *)
Definition positive_score (score : B64.float) : bool := B64.int_lt 0 score.

Definition _get_trend_score (w : World) (topic niche : string) : B64.float :=
  let from_serp :=
    match key_set (getenv w "SERP_API_KEY") with
    | Some serp_key =>
        let score := _check_google_trends w topic niche serp_key in
        if positive_score score then Some score else None
    | None => None
    end in
  let from_youtube :=
    match key_set (getenv w "YOUTUBE_API_KEY") with
    | Some youtube_key =>
        let score := _check_youtube_trends w topic youtube_key in
        if positive_score score then Some score else None
    | None => None
    end in
  match from_youtube with
  | Some score => score
  | None =>
      match from_serp with
      | Some score => score
      | None => _keyword_trend_score topic niche
      end
  end.

Definition _calculate_quality_score (has_hook has_visuals : bool)
  (duration platform : string) : B64.float :=
  let score := f1_0 in
  let score := if has_hook then B64.mul score f1_25 else score in
  let score := if has_visuals then B64.mul score f1_15 else score in
  let score :=
    if negb (str_eqb duration EmptyString) then
      let duration_lower := lower duration in
      if existsb (str_eqb (lower platform))
           ["youtube shorts"; "tiktok"; "instagram reels"]
      then
        if contains "15" duration_lower || contains "30" duration_lower
           || contains "60" duration_lower
        then B64.mul score f1_1 else score
      else if contains "youtube" (lower platform) then
        if contains "8" duration_lower || contains "10" duration_lower
           || contains "12" duration_lower
        then B64.mul score f1_1 else score
      else score
    else score in
  B64.py_min score f1_6.

(** The numbers [_run] computes before it writes its text. *)
Record Estimate := {
  baseline : B64.float;
  niche_multiplier : B64.float;
  trend_score : B64.float;
  quality_score : B64.float;
  estimated_rate : B64.float;
  lower_bound : B64.float;
  upper_bound : B64.float;
}.

(** Lines 42-61. *)
Definition estimate (w : World) (topic platform niche : string)
  (has_hook has_visuals : bool) (video_duration : string) : Estimate :=
  let baseline := _get_platform_baseline platform in
  let niche_multiplier := _get_niche_multiplier niche platform in
  let trend_score := _get_trend_score w topic niche in
  let quality_score :=
    _calculate_quality_score has_hook has_visuals video_duration platform in
  let estimated_rate :=
    B64.mul (B64.mul (B64.mul baseline niche_multiplier) trend_score)
            quality_score in
  let estimated_rate := B64.py_max f0_5 (B64.py_min estimated_rate f15_0) in
  {| baseline := baseline;
     niche_multiplier := niche_multiplier;
     trend_score := trend_score;
     quality_score := quality_score;
     estimated_rate := estimated_rate;
     lower_bound := B64.py_round1 (B64.mul estimated_rate f0_85);
     upper_bound := B64.py_round1 (B64.mul estimated_rate f1_15) |}.

Definition fallback_text : string :=
  "Estimated Engagement Rate: 3.5% - 5.2% (Industry average with moderate optimization potential)".

Section Run.
Context `{!Builtins}.

(** [niche or 'General'] *)
Definition or_else (s d : string) : string :=
  if str_eqb s EmptyString then d else s.

(** Lines 63-88: the text, from the numbers; [None] where
    [int(...)] raises. *)
Definition report (e : Estimate) (platform niche : string)
  (has_hook has_visuals : bool) : option string :=
  let result :=
    "Estimated Engagement Rate: " +:+ float_str (lower_bound e) +:+ "% - " +:+
    float_str (upper_bound e) +:+ "%" +:+ nl +:+ nl in
  let result := result +:+ "Analysis Breakdown:" +:+ nl in
  let result := result +:+ "• Platform Baseline (" +:+ platform +:+ "): " +:+
                float_str (baseline e) +:+ "%" +:+ nl in
  let result := result +:+ "• Niche Performance Multiplier (" +:+
                or_else niche "General" +:+ "): " +:+
                float_str (niche_multiplier e) +:+ "x" +:+ nl in
  let result := result +:+ "• Topic Trend Score: " +:+
                float_str (trend_score e) +:+ "x" +:+ nl in
  let result := result +:+ "• Content Quality Score: " +:+
                float_str (quality_score e) +:+ "x" +:+ nl +:+ nl in
  let result := result +:+ "Key Factors:" +:+ nl in
  let result :=
    if has_hook
    then result +:+ "✓ Strong hook present (increases engagement by 15-30%)" +:+ nl
    else result in
  let result :=
    if has_visuals
    then result +:+ "✓ Quality visuals included (boosts retention and engagement)" +:+ nl
    else result in
  let result := result +:+ nl +:+ "Benchmark: " +:+ platform +:+
                " average engagement for " +:+ or_else niche "general content" +:+
                " is " +:+ float_str (baseline e) +:+ "%. " in
  percent ← B64.trunc
    (B64.mul (B64.sub (B64.div (estimated_rate e) (baseline e)) f1_0) f100);
  let result := result +:+ "Your content scores " +:+ dec percent +:+ "% " +:+
                (if B64.ltb (baseline e) (estimated_rate e)
                 then "above" else "below") +:+ " average." +:+ nl in
  let result :=
    if B64.ltb (estimated_rate e) f3_0 then
      result +:+ nl +:+ "⚠️ Recommendations: Improve hook strength, add trending elements, optimize posting time."
    else if B64.ltb (estimated_rate e) f5_0 then
      result +:+ nl +:+ "✓ Good potential. Consider: A/B testing thumbnails, using trending sounds/topics."
    else
      result +:+ nl +:+ "🔥 High engagement potential! Maximize with: Consistent posting, audience interaction, cross-platform promotion." in
  Some result.

Definition _run (w : World) (topic platform niche : string)
  (has_hook has_visuals : bool) (video_duration : string) : string :=
  let e := estimate w topic platform niche has_hook has_visuals video_duration in
  match report e platform niche has_hook has_visuals with
  | Some result => result
  | None => fallback_text
  end.

End Run.

End EngagementAnalyzer.
(** ** Sample inputs, and helpers of the statements *)

Module Samples.
Import Py DataCollector.

(** A stand-in for the interpreter's builtins: decimal numerals for
    [int(s)], the message of an [External] exception for [str(e)]. *)
#[global] Instance sample_builtins : Builtins := {|
  exn_str e := match e with
               | External msg => msg
               | KeyError k => k
               | _ => "error"
               end;
  int_of_str := int_of_dec;
  value_str _ := "?";
  float_str _ := "?";
|}.

Definition with_errors (es : list string) (d : CollectedData) : CollectedData :=
  {| topic := topic d; platform := platform d; collected_at := collected_at d;
     youtube_videos := youtube_videos d; trends := trends d;
     serp_questions := serp_questions d; errors := es |}.

(** No credentials, no pytrends. *)
Definition bare_world : World :=
  {| getenv _ := None;
     http_get _ _ := raise (External "unreachable");
     PYTRENDS_AVAILABLE := false;
     pytrends _ := {| payload := raise (External "unreachable");
                      interest_over_time := raise (External "unreachable");
                      related_queries := raise (External "unreachable") |};
     now := "2025-01-01 00:00:00" |}.

(** Every provider is reached and has nothing for the topic: the search
    finds no video, the interest frame is empty, the results page carries
    no related questions. *)
Definition empty_world : World :=
  {| getenv _ := Some "key";
     http_get url _ :=
       if str_eqb url search_url then mret (JObj [("items", JArr [])])
       else mret (JObj [("organic_results", JArr [])]);
     PYTRENDS_AVAILABLE := true;
     pytrends _ := {| payload := mret ();
                      interest_over_time := mret [];
                      related_queries := mret None |};
     now := "2025-01-01 00:00:00" |}.

(** Two candidates, statistics for the first one only. *)
Definition item_of (vid title : string) : json :=
  JObj [("id", JObj [("kind", JStr "youtube#video"); ("videoId", JStr vid)]);
        ("snippet", JObj [("title", JStr title); ("channelTitle", JStr "Channel");
                          ("publishedAt", JStr "2024-05-06T07:08:09Z")])].

Definition two_items : list json := [item_of "abc" "X"; item_of "xyz" "Y"].

Definition stats_for_abc : json :=
  JObj [("items",
         JArr [JObj [("id", JStr "abc");
                     ("statistics", JObj [("viewCount", JStr "150000");
                                          ("likeCount", JStr "1200")])]])].

Definition stats_world : World :=
  {| getenv _ := Some "key";
     http_get url _ :=
       if str_eqb url search_url then mret (JObj [("items", JArr two_items)])
       else if str_eqb url stats_url then mret stats_for_abc
       else mret (JObj []);
     PYTRENDS_AVAILABLE := false;
     pytrends _ := {| payload := raise (External "unreachable");
                      interest_over_time := raise (External "unreachable");
                      related_queries := raise (External "unreachable") |};
     now := "2025-01-01 00:00:00" |}.

End Samples.

(** ** Shapes of the responses, for the statements *)

Module Shapes.
Import Py DataCollector.

(** Either nothing is appended to the error list, or one string is and
    nothing is returned. *)
Definition one_or_none {A} (errors : list string) (r : list A * list string) : Prop :=
  snd r = errors \/ (fst r = [] /\ exists msg, snd r = errors ++ [msg]).

Definition obj_field (j : json) (k : string) : option json :=
  match j with JObj kv => assoc k kv | _ => None end.

Definition str_or_absent (o : option json) : bool :=
  match o with Some (JStr _) | None => true | Some _ => false end.

(** A search result as the API documents it: an [id] object whose
    [videoId], when present, is a string, and a [snippet] object whose
    [publishedAt], when present, is a string. *)
Definition wf_item (item : json) : bool :=
  match obj_field item "id", obj_field item "snippet" with
  | Some (JObj idkv), Some (JObj skv) =>
      str_or_absent (assoc "videoId" idkv) && str_or_absent (assoc "publishedAt" skv)
  | _, _ => false
  end.

(** The [videoId] of a search result, when it carries one. *)
Definition listed_id (item : json) : option string :=
  match obj_field item "id" with
  | Some idv => match obj_field idv "videoId" with
                | Some (JStr vid) => Some vid
                | _ => None
                end
  | None => None
  end.

(** The identifier of a candidate: a [videoId] that is not empty. *)
Definition candidate_id (item : json) : option string :=
  match listed_id item with
  | Some vid => if str_eqb vid EmptyString then None else Some vid
  | None => None
  end.

Section WithBuiltins.
Context `{!Builtins}.

Definition converts (j : json) : bool :=
  match py_int j with inr _ => true | inl _ => false end.

(** A [statistics] object whose counts, when present, convert with
    [int(...)]. *)
Definition good_stats (st : json) : bool :=
  match st with
  | JObj kv => converts (from_option id (JInt 0) (assoc "viewCount" kv))
               && converts (from_option id (JInt 0) (assoc "likeCount" kv))
  | _ => false
  end.

(** An entry of the statistics response: a string [id] and good
    [statistics]. *)
Definition wf_stat (v : json) : bool :=
  match obj_field v "id", obj_field v "statistics" with
  | Some (JStr _), Some st => good_stats st
  | _, _ => false
  end.

End WithBuiltins.

End Shapes.

(** ** The sections of the prompt context, as the specification lists them *)

Module ContextSpec.
Import Py DataCollector.

Definition concat_all (l : list string) : string :=
  fold_right String.append EmptyString l.

(** The elements of a list with their positions, counted from [i]. *)
Fixpoint numbered {A} (i : Z) (l : list A) : list (Z * A) :=
  match l with
  | [] => []
  | x :: l' => (i, x) :: numbered (i + 1) l'
  end.

Definition videos_section (videos : list YouTubeVideo) : string :=
  match videos with
  | [] => "### YOUTUBE: No data (API issue)" +:+ nl
  | _ :: _ =>
      "### TOP YOUTUBE VIDEOS (REAL):" +:+ nl +:+
      concat_all (map (fun p => video_entry (fst p) (snd p))
                      (numbered 1 (take 10 videos)))
  end.

Definition trends_section (trends : list TrendData) : string :=
  match trends with
  | [] => nl +:+ "### GOOGLE TRENDS: No data" +:+ nl
  | _ :: _ =>
      nl +:+ "### GOOGLE TRENDS (REAL):" +:+ nl +:+
      concat_all (map trend_entry trends)
  end.

Definition questions_section (questions : list string) : string :=
  match questions with
  | [] => nl +:+ "### SERP QUESTIONS: No data" +:+ nl
  | _ :: _ =>
      nl +:+ "### PEOPLE ALSO ASK (REAL):" +:+ nl +:+
      concat_all (map bullet (take 10 questions))
  end.

Definition errors_section (errors : list string) : string :=
  match errors with
  | [] => EmptyString
  | _ :: _ =>
      nl +:+ "### DATA COLLECTION ISSUES:" +:+ nl +:+
      concat_all (map bullet errors)
  end.


(** [x] occurs in [s]. *)
Definition occurs (x s : string) : Prop :=
  exists pre post, s = pre +:+ x +:+ post.




(** A snapshot with one trend whose average is 50.6. *)
Definition trend_50_6 : TrendData :=
  {| keyword := "X"; current_interest := 80;
     average_interest := B64.lit 506 1;
     trend_direction := RISING; rising_queries := [] |}.

Definition snapshot_50_6 : CollectedData :=
  {| topic := "X"; platform := "youtube"; collected_at := "2025-01-01 00:00:00";
     youtube_videos := []; trends := [trend_50_6]; serp_questions := [];
     errors := [] |}.

End ContextSpec.

(** ** The prompt context as lines, as the specification lays it out *)

Module LayoutSpec.
Import Py DataCollector ContextSpec.

(** A text, from its lines: every line is closed by a newline. *)
Definition unlines (lines : list string) : string :=
  concat_all (map (fun line => line +:+ nl) lines).

(** The header: a blank line, the banner, the topic, the platform and the
    time of collection, a blank line. *)
Definition header_lines (d : CollectedData) : list string :=
  [EmptyString;
   "=== REAL DATA COLLECTED ===";
   "Topic: " +:+ topic d;
   "Platform: " +:+ platform d;
   "Collected: " +:+ collected_at d;
   EmptyString].

(** The six lines of the video at position [i]: a blank line, then the
    numbered title in quotes, the channel, the two counts with thousands
    separators, the date of publication and the link. *)
Definition video_lines (p : Z * YouTubeVideo) : list string :=
  [EmptyString;
   dec (fst p) +:+ ". " +:+ dq +:+ title (snd p) +:+ dq;
   "   Channel: " +:+ channel_name (snd p);
   "   Views: " +:+ fmt_comma (view_count (snd p)) +:+
     " | Likes: " +:+ fmt_comma (like_count (snd p));
   "   Published: " +:+ publish_date (snd p);
   "   URL: " +:+ url (snd p)].

(** The five lines of a trend: a blank line, the keyword in quotes, the
    interest out of 100 with the average to no decimals, the direction,
    and the first five rising queries or [None]. *)
Definition trend_lines (t : TrendData) : list string :=
  [EmptyString;
   "Keyword: " +:+ dq +:+ keyword t +:+ dq;
   "- Interest: " +:+ dec (current_interest t) +:+
     "/100 (avg: " +:+ fmt_f0 (average_interest t) +:+ ")";
   "- Direction: " +:+ trend_direction t;
   "- Rising queries: " +:+
     match rising_queries t with
     | [] => "None"
     | _ :: _ => join ", " (take 5 (rising_queries t))
     end].

Definition item_line (s : string) : string := "- " +:+ s.

Definition video_block (videos : list YouTubeVideo) : list string :=
  match videos with
  | [] => ["### YOUTUBE: No data (API issue)"]
  | _ :: _ =>
      "### TOP YOUTUBE VIDEOS (REAL):" ::
      concat (map video_lines (numbered 1 (take 10 videos)))
  end.

Definition trend_block (trends : list TrendData) : list string :=
  match trends with
  | [] => [EmptyString; "### GOOGLE TRENDS: No data"]
  | _ :: _ =>
      EmptyString :: "### GOOGLE TRENDS (REAL):" :: concat (map trend_lines trends)
  end.

Definition question_block (questions : list string) : list string :=
  match questions with
  | [] => [EmptyString; "### SERP QUESTIONS: No data"]
  | _ :: _ =>
      EmptyString :: "### PEOPLE ALSO ASK (REAL):" :: map item_line (take 10 questions)
  end.

Definition error_block (errors : list string) : list string :=
  match errors with
  | [] => []
  | _ :: _ =>
      EmptyString :: "### DATA COLLECTION ISSUES:" :: map item_line errors
  end.

End LayoutSpec.

(** ** The values the engagement estimator works with *)

Module EstimateSpec.
Import Py EngagementAnalyzer.

(** The tables of the tool, as lists of the values they hold. *)
Definition baselines : list B64.float :=
  [f3_5; f5_2; f2_8; f3_8; f5_5; f0_9; f2_1; f1_5; f3_0].

Definition niche_multipliers : list B64.float :=
  [f1_3; f1_25; f1_15; f1_4; f1_2; f1_0].

Definition trend_scores : list B64.float :=
  [f1_3; f1_15; f0_95; f1_2; f1_1; f1_0].

(** The quality score, by whether the duration earns its bonus. *)
Definition quality_of (has_hook has_visuals bonus : bool) : B64.float :=
  let score := f1_0 in
  let score := if has_hook then B64.mul score f1_25 else score in
  let score := if has_visuals then B64.mul score f1_15 else score in
  let score := if bonus then B64.mul score f1_1 else score in
  B64.py_min score f1_6.

Definition qualities : list B64.float :=
  [quality_of false false false; quality_of false false true;
   quality_of false true false; quality_of false true true;
   quality_of true false false; quality_of true false true;
   quality_of true true false; quality_of true true true].

(** The clamp of line 57. *)
Definition clamp (x : B64.float) : B64.float :=
  B64.py_max f0_5 (B64.py_min x f15_0).

Definition positive_finite (x : B64.float) : bool :=
  match x with S754_finite false _ _ => true | _ => false end.

(** For one choice of the four factors: the two products that are rounded
    are positive numbers, and the percentage converts to an integer. *)
Definition factors_ok (b n t q : B64.float) : bool :=
  let rate := clamp (B64.mul (B64.mul (B64.mul b n) t) q) in
  positive_finite (B64.mul rate f0_85)
  && positive_finite (B64.mul rate f1_15)
  && bool_decide (is_Some (B64.trunc
       (B64.mul (B64.sub (B64.div rate b) f1_0) f100))).

(** [t] tenths is a decimal nearest to the positive number [x]. *)
Definition nearest_tenths (x : B64.float) (t : Z) : Prop :=
  match x with
  | S754_finite false m (Zneg p) =>
      2 * Z.abs (Zpos m * 10 - t * 2 ^ Zpos p) <= 2 ^ Zpos p
  | S754_finite false m e => t = Zpos m * 10 * 2 ^ e
  | _ => False
  end.

(** An environment without credentials: the trend score comes from the
    keywords. *)
Definition offline : World :=
  {| getenv _ := None;
     requests_get _ _ := raise (External "unreachable");
     month_start := "2025-01-01T00:00:00Z" |}.

End EstimateSpec.

(** ** [api/routes/agent_routes.py]: the health check and the smart-script
       endpoint *)

Module Routes.
Import Py DataCollector SmartScriptCrew AgentRoutes.

(** *** [validate_environment] *)

Record EnvStatus := {
  valid : bool;
  missing : list string;
  present : list string;
}.

(** The dictionary [env_vars], in the order it is written. *)
Definition env_vars (getenv : string -> option string)
  : list (string * option string) :=
  [("ANTHROPIC_API_KEY", getenv "ANTHROPIC_API_KEY");
   ("YOUTUBE_API_KEY", getenv "YOUTUBE_API_KEY");
   ("SERP_API_KEY", getenv "SERP_API_KEY")].

(** The truth value of what [os.getenv] returned. *)
Definition is_set (value : option string) : bool :=
  match value with
  | Some s => negb (str_eqb s EmptyString)
  | None => false
  end.

Definition validate_environment (getenv : string -> option string) : EnvStatus :=
  let missing :=
    fold_left (fun missing kv =>
                 if negb (is_set (snd kv)) then missing ++ [fst kv] else missing)
              (env_vars getenv) [] in
  {| valid := (length missing =? 0)%nat;
     missing := missing;
     present := map fst (filter (fun kv => is_set (snd kv) = true) (env_vars getenv)) |}.

(** *** [detailed_health_check] *)

Record Health := {
  status : string;
  environment : EnvStatus;
  model : string;
}.

Definition detailed_health_check (getenv : string -> option string) : Health :=
  let env_status := validate_environment getenv in
  {| status := if valid env_status then "ok" else "degraded";
     environment := env_status;
     model := default "anthropic/claude-3-5-haiku-20241022" (getenv "MODEL") |}.

(** *** [generate_smart_script] *)

(** The [data] of the response: the dictionary [run] returned when the
    collection failed, or the summary of the collection with the parsed
    analysis and script. *)
Inductive response_data :=
| FailureDict (error : string) (errors : list string) (message : string)
| ScriptDict (youtube_videos trends serp_questions : Z)
             (errors : list string) (raw_data : string)
             (analysis script : option json).

Record AgentResponse := {
  success : bool;
  data : response_data;
  message : string;
}.

Section SmartScript.
Context `{!Builtins}.
(** [crew.kickoff(...)], as in [SmartScriptCrew.run]. *)
Variable kickoff : list Task -> res string.
(** [SmartScriptCrew()]: the agents the constructor asks crewai for. *)
Variable new_crew : res unit.
(** Lines 256-266: the entries ["analysis"] and ["script"] that
    [parse_result] reads out of the crew's result, or the exception it lets
    through. *)
Variable parse_outputs : string -> res (option json * option json).

(** The body of the [try] block. *)
Definition smart_script_try (w : World) (topic platform : string)
  : res AgentResponse :=
  _ ← new_crew;
  match fst (run kickoff (init w) w topic platform) with
  | Raised e => raise e
  | Failed error errors message =>
      mret {| success := false;
              data := FailureDict error errors message;
              message := message |}
  | Succeeded videos trends questions errors raw_data result =>
      outputs ← parse_outputs result;
      mret {| success := true;
              data := ScriptDict videos trends questions errors raw_data
                                 (fst outputs) (snd outputs);
              message := "Smart script generated with real data" |}
  end.

(** The endpoint: the response, or the [HTTPException] it raises. *)
Definition generate_smart_script (w : World) (topic platform : string)
  : AgentResponse + HTTPException :=
  match smart_script_try w topic platform with
  | inr response => inl response
  | inl e => inr (handle_crew_error e)
  end.

End SmartScript.

End Routes.

(** ** Helpers of further statements *)

Module MoreSpec.
Import Py DataCollector Samples Shapes.

(** A result of a fetch function, behind errors that were there before. *)
Definition extend {A} (errors : list string) (r : list A * list string)
  : list A * list string :=
  (fst r, errors ++ snd r).

(** The [statistics] that the merge finds for the identifier [k]: those of
    the last entry of the response that carries it. *)
Fixpoint stats_of (vs : list json) (k : string) : option json :=
  match vs with
  | [] => None
  | v :: vs' =>
      match stats_of vs' k with
      | Some st => Some st
      | None =>
          match obj_field v "id" with
          | Some (JStr s) => if str_eqb s k then obj_field v "statistics" else None
          | _ => None
          end
      end
  end.

(** [int(stats.get(k, 0))] *)
Definition count_of `{!Builtins} (st : json) (k : string) : res Z :=
  match st with
  | JObj kv => py_int (from_option id (JInt 0) (assoc k kv))
  | _ => raise AttributeError
  end.

(** The variables [validate_environment] looks at, in its order. *)
Definition required_vars : list string :=
  ["ANTHROPIC_API_KEY"; "YOUTUBE_API_KEY"; "SERP_API_KEY"].

(** The snapshot cut to what the context shows of it: ten videos, ten
    questions, five rising queries a trend. *)
Definition capped_trend (t : TrendData) : TrendData :=
  {| keyword := keyword t; current_interest := current_interest t;
     average_interest := average_interest t;
     trend_direction := trend_direction t;
     rising_queries := take 5 (rising_queries t) |}.

Definition capped (d : CollectedData) : CollectedData :=
  {| topic := topic d; platform := platform d; collected_at := collected_at d;
     youtube_videos := take 10 (youtube_videos d);
     trends := map capped_trend (trends d);
     serp_questions := take 10 (serp_questions d);
     errors := errors d |}.

(** The question of an item of [related_questions], when it has one. *)
Definition question_of `{!Builtins} (item : json) : option string :=
  match item with
  | JObj kv => option_map py_str (assoc "question" kv)
  | _ => None
  end.

Definition is_object (j : json) : bool :=
  match j with JObj _ => true | _ => false end.

(** A world where the trends provider alone has data. *)
Definition trends_only_world : World :=
  {| getenv _ := None;
     http_get _ _ := raise (External "unreachable");
     PYTRENDS_AVAILABLE := true;
     pytrends _ := {| payload := mret ();
                      interest_over_time := mret [40; 50; 60; 80];
                      related_queries := mret (Some (mret ["ai agents"])) |};
     now := "2025-01-01 00:00:00" |}.

(** A results page with two related questions and an item without one. *)
Definition questions_world : World :=
  {| getenv _ := Some "key";
     http_get _ _ :=
       mret (JObj [("related_questions",
                    JArr [JObj [("question", JStr "What is X?")];
                          JObj [("title", JStr "no question here")];
                          JObj [("question", JStr "Why X?")]])]);
     PYTRENDS_AVAILABLE := false;
     pytrends _ := {| payload := raise (External "unreachable");
                      interest_over_time := raise (External "unreachable");
                      related_queries := raise (External "unreachable") |};
     now := "2025-01-01 00:00:00" |}.

(** Two entries for the one identifier: the later one is the one merged. *)
Definition stats_twice : json :=
  JObj [("items",
         JArr [JObj [("id", JStr "abc");
                     ("statistics", JObj [("viewCount", JStr "1");
                                          ("likeCount", JStr "2")])];
               JObj [("id", JStr "abc");
                     ("statistics", JObj [("viewCount", JStr "150000")])]])].

Definition twice_world : World :=
  {| getenv _ := Some "key";
     http_get url _ :=
       if str_eqb url search_url then mret (JObj [("items", JArr two_items)])
       else mret stats_twice;
     PYTRENDS_AVAILABLE := false;
     pytrends _ := {| payload := raise (External "unreachable");
                      interest_over_time := raise (External "unreachable");
                      related_queries := raise (External "unreachable") |};
     now := "2025-01-01 00:00:00" |}.

(** The record the trends provider builds in [trends_only_world]. *)
Definition trend_80 : TrendData :=
  {| keyword := "ai tools"; current_interest := 80;
     average_interest := mean [40; 50; 60; 80];
     trend_direction := RISING;
     rising_queries := ["ai agents"] |}.

End MoreSpec.

Module RangeSpec.
Import Py B64 EngagementAnalyzer EstimateSpec.

(** For one choice of the four factors: the product is above the lower end
    of the clamp, and the two bounds shown are apart and between 0.7 and
    17.2. *)
Definition range_ok (b n t q : float) : bool :=
  let product := mul (mul (mul b n) t) q in
  let rate := clamp product in
  ltb f0_5 (py_min product f15_0)
  && ltb (py_round1 (mul rate f0_85)) (py_round1 (mul rate f1_15))
  && leb (lit 7 1) (py_round1 (mul rate f0_85))
  && leb (py_round1 (mul rate f1_15)) (lit 172 1).

(** The quality score before its cap. *)
Definition uncapped_quality (has_hook has_visuals bonus : bool) : float :=
  let score := f1_0 in
  let score := if has_hook then mul score f1_25 else score in
  let score := if has_visuals then mul score f1_15 else score in
  if bonus then mul score f1_1 else score.

(** Every request fails to answer with status 200. *)
Definition no_answer (w : World) : Prop :=
  forall url params,
    match requests_get w url params with
    | inr (status, _) => status <> 200
    | inl _ => True
    end.

(** Credentials that lead nowhere: every request is answered 403. *)
Definition forbidden : World :=
  {| getenv _ := Some "key";
     requests_get _ _ := mret (403, raise (External "no body"));
     month_start := "2025-01-01T00:00:00Z" |}.

End RangeSpec.
(** * Theorems *)

(** ** Rounding of a product to binary64 *)

Module RoundingFacts.
Import B64.

Lemma digits2_pos_log2 (p : positive) :
  Zpos (digits2_pos p) = Z.log2 (Zpos p) + 1.
Proof.
  destruct p as [p|p|]; simpl; try reflexivity.
  - induction p; simpl; lia.
  - induction p; simpl; lia.
Qed.

Lemma digits2_pos_bounds (p : positive) :
  2 ^ (Zpos (digits2_pos p) - 1) <= Zpos p < 2 ^ Zpos (digits2_pos p).
Proof.
  rewrite digits2_pos_log2.
  replace (Z.log2 (Zpos p) + 1 - 1) with (Z.log2 (Zpos p)) by lia.
  replace (Z.log2 (Zpos p) + 1) with (Z.succ (Z.log2 (Zpos p))) by lia.
  apply Z.log2_spec. lia.
Qed.

Lemma shr_1_shifted m0 k mrs :
  0 <= m0 -> 0 <= k -> shifted m0 k mrs -> shifted m0 (k + 1) (shr_1 mrs).
Proof.
  intros Hm Hk [Hq Hl].
  assert (Hp : 0 < 2 ^ k) by (apply Z.pow_pos_nonneg; lia).
  assert (Hdiv : m0 / 2 ^ (k + 1) = m0 / 2 ^ k / 2).
  { rewrite Z.pow_add_r, Z.pow_1_r by lia. rewrite Z.div_div by lia. reflexivity. }
  assert (Hmod : m0 mod 2 ^ (k + 1) = m0 mod 2 ^ k + 2 ^ k * ((m0 / 2 ^ k) mod 2)).
  { rewrite Z.pow_add_r, Z.pow_1_r by lia. apply Z.rem_mul_r; lia. }
  assert (Hr : 0 <= m0 mod 2 ^ k) by (apply Z.mod_pos_bound; lia).
  destruct mrs as [m r s]. simpl in Hq, Hl.
  assert (Hm0 : 0 <= m) by (rewrite Hq; apply Z.div_pos; lia).
  unfold shifted. rewrite Hdiv, Hmod, <- Hq.
  destruct m as [|[p|p|]|p]; try lia; simpl shr_1; simpl shr_m; simpl shr_r; simpl shr_s.
  - split; [reflexivity|]. rewrite Hl. simpl. rewrite Z.mul_0_r, Z.add_0_r. reflexivity.
  - split.
    + rewrite Pos2Z.inj_xI. apply Z.div_unique with 1; lia.
    + replace (Z.pos p~1 mod 2) with 1 by (rewrite Pos2Z.inj_xI; apply Z.mod_unique with (Zpos p); lia).
      simpl. symmetry. apply negb_true_iff, Z.eqb_neq. lia.
  - split.
    + rewrite Pos2Z.inj_xO. apply Z.div_unique with 0; lia.
    + replace (Z.pos p~0 mod 2) with 0 by (rewrite Pos2Z.inj_xO; apply Z.mod_unique with (Zpos p); lia).
      rewrite Hl. simpl. rewrite Z.mul_0_r, Z.add_0_r. reflexivity.
  - split; [reflexivity|]. simpl. symmetry. apply negb_true_iff, Z.eqb_neq.
    change (1 mod 2) with 1. lia.
Qed.

Lemma iter_shr_1_shifted (p : positive) : forall m0 k mrs,
  0 <= m0 -> 0 <= k -> shifted m0 k mrs ->
  shifted m0 (k + Zpos p) (SpecFloat.iter_pos shr_1 p mrs).
Proof.
  induction p as [p IH|p IH|]; intros m0 k mrs Hm Hk H; simpl.
  - replace (k + Z.pos p~1) with (k + 1 + Zpos p + Zpos p) by lia.
    apply IH; [lia..|]. apply IH; [lia..|]. apply shr_1_shifted; assumption.
  - replace (k + Z.pos p~0) with (k + Zpos p + Zpos p) by lia.
    apply IH; [lia..|]. apply IH; assumption.
  - apply shr_1_shifted; assumption.
Qed.

Lemma shifted_0 m0 : shifted m0 0 (Build_shr_record m0 false false).
Proof. split; simpl; [rewrite Z.div_1_r | rewrite Z.mod_1_r]; reflexivity. Qed.



Lemma fexp_eq x : fexp prec emax x = Z.max (x - 53) (-1074).
Proof. reflexivity. Qed.

(** What [shr_fexp] does to a mantissa that is not negative. *)
Lemma shr_fexp_spec mz e :
  0 <= mz ->
  exists n mrs,
    shr_fexp prec emax mz e loc_Exact = (mrs, e + n) /\
    0 <= n /\ shifted mz n mrs /\
    (n = 0 /\ mrs = Build_shr_record mz false false \/
     0 < n /\ e + n = Z.max (Zdigits2 mz + e - 53) (-1074)).
Proof.
  intros Hm. unfold shr_fexp, shr. rewrite fexp_eq. simpl shr_record_of_loc.
  destruct (Z.max (Zdigits2 mz + e - 53) (-1074) - e) as [|p|p] eqn:E.
  - exists 0, (Build_shr_record mz false false). rewrite Z.add_0_r.
    split; [reflexivity|]. split; [lia|]. split; [apply shifted_0|]. left. split; reflexivity.
  - exists (Zpos p), (SpecFloat.iter_pos shr_1 p (Build_shr_record mz false false)).
    split; [reflexivity|]. split; [lia|]. split.
    + apply (iter_shr_1_shifted p mz 0); [lia..|apply shifted_0].
    + right. lia.
  - exists 0, (Build_shr_record mz false false). rewrite Z.add_0_r.
    split; [reflexivity|]. split; [lia|]. split; [apply shifted_0|]. left. split; reflexivity.
Qed.

Lemma round_nearest_even_bounds mrs :
  let m := shr_m mrs in
  let m' := round_nearest_even m (loc_of_shr_record mrs) in
  m <= m' <= m + 1 /\ (orb (shr_r mrs) (shr_s mrs) = false -> m' = m).
Proof.
  destruct mrs as [m [|] [|]]; simpl; try destruct (Z.even m); split; try lia; intros; try discriminate.
Qed.

(** A mantissa of [d > 53] digits keeps 53 of them when shifted by [d - 53]. *)
Lemma top_bits mz k :
  0 < k -> k = Zdigits2 mz - 53 -> 0 <= mz -> 2 ^ 52 <= mz / 2 ^ k.
Proof.
  intros Hk Hd Hm. destruct mz as [|p|p]; simpl in Hd; try lia.
  pose proof (digits2_pos_bounds p) as [Hlo _].
  apply Z.div_le_lower_bound; [apply Z.pow_pos_nonneg; lia|].
  rewrite <- Z.pow_add_r by lia.
  replace (k + 52) with (Zpos (digits2_pos p) - 1) by lia. exact Hlo.
Qed.



Lemma pow_split a b : 0 <= a -> 0 <= b -> 2 ^ (a + b) = 2 ^ a * 2 ^ b.
Proof. intros. apply Z.pow_add_r; assumption. Qed.

Lemma pow_pos a : 0 <= a -> 0 < 2 ^ a.
Proof. intros. apply Z.pow_pos_nonneg; lia. Qed.

Lemma compare_scale a b k : 0 < k -> (a * k ?= b * k) = (a ?= b).
Proof.
  intros Hk. destruct (Z.compare_spec a b) as [->|H|H].
  - apply Z.compare_refl.
  - apply Z.compare_lt_iff. nia.
  - apply Z.compare_gt_iff. nia.
Qed.

Lemma Zcompare_finite c p e :
  - bias <= e ->
  Zcompare c (S754_finite false p e) = Some (c * 2 ^ bias ?= Zpos p * 2 ^ (e + bias)).
Proof.
  intros He. unfold Zcompare, cond_Zopp. f_equal.
  pose proof (pow_pos bias ltac:(unfold bias; lia)) as Hb.
  destruct e as [|q|q].
  - rewrite Z.add_0_l. symmetry. apply compare_scale. exact Hb.
  - rewrite pow_split by (unfold bias; lia). rewrite Z.mul_assoc.
    symmetry. apply compare_scale. exact Hb.
  - replace (2 ^ bias) with (2 ^ Zpos q * 2 ^ (Zneg q + bias)).
    2:{ rewrite <- pow_split by (unfold bias in *; lia). f_equal. lia. }
    rewrite Z.mul_assoc. symmetry. apply compare_scale.
    apply pow_pos. unfold bias in *. lia.
Qed.

Section RoundAux.
Variables (m : positive) (e cp ep : Z).
Hypothesis He : - bias <= e.
Hypothesis Hep : -1074 <= ep <= 900.
Hypothesis Hcp : 0 <= cp <= 2 ^ 53.

Let result := binary_round_aux prec emax false (Zpos m) e loc_Exact.
(** The pivot [cp * 2^ep], on the common scale. *)
Let P := cp * 2 ^ (ep + bias).

(** Rounding never carries a value past a binary64 number above it. *)
Lemma round_below :
  Zpos m * 2 ^ (e + bias) <= P ->
  result = S754_zero false \/
  exists p e', result = S754_finite false p e' /\ e <= e' /\
               Zpos p * 2 ^ (e' + bias) <= P.
Proof.
  intros Hle. unfold result, binary_round_aux.
  assert (Hepb : 0 <= ep + bias) by (unfold bias; lia).
  destruct (shr_fexp_spec (Zpos m) e ltac:(lia)) as (n & mrs & -> & Hn & [Hq Hl] & Hcase).
  pose proof (round_nearest_even_bounds mrs) as [Hm2 Hex]. cbv zeta in Hm2, Hex.
  set (m2 := round_nearest_even (shr_m mrs) (loc_of_shr_record mrs)) in *.
  assert (Hpn : 0 < 2 ^ n) by (apply pow_pos; lia).
  assert (Hm1 : 0 <= shr_m mrs) by (rewrite Hq; apply Z.div_pos; lia).
  destruct (shr_fexp_spec m2 (e + n) ltac:(lia)) as (n2 & mrs2 & -> & Hn2 & [Hq2 _] & _).
  assert (Hpn2 : 0 < 2 ^ n2) by (apply pow_pos; lia).
  assert (Hpe : 0 < 2 ^ (e + bias)) by (apply pow_pos; lia).
  assert (Hpp : 0 < 2 ^ (ep + bias)) by (apply pow_pos; lia).
  assert (Hdm : Zpos m = 2 ^ n * shr_m mrs + Zpos m mod 2 ^ n)
    by (rewrite Hq; apply Z.div_mod; lia).
  assert (Hr : 0 <= Zpos m mod 2 ^ n < 2 ^ n) by (apply Z.mod_pos_bound; lia).
  (* the rounded mantissa is still below the pivot *)
  assert (A1 : m2 * 2 ^ (e + n + bias) <= P).
  { replace (e + n + bias) with (n + (e + bias)) by lia.
    rewrite pow_split by lia.
    destruct (Z.eq_dec (Zpos m mod 2 ^ n) 0) as [Hz|Hnz].
    - rewrite Hex by (rewrite Hl, Hz; reflexivity).
      rewrite Hz, Z.add_0_r in Hdm. rewrite Z.mul_assoc, (Z.mul_comm (shr_m mrs)), <- Hdm. exact Hle.
    - destruct Hcase as [[-> _]|[Hn0 Hen]].
      { rewrite Z.pow_0_r, Z.mod_1_r in Hnz. lia. }
      destruct (Z_le_gt_dec (e + n) ep) as [Hneg|Hpos].
      + (* the pivot lies on the grid *)
        assert (Hpk : 0 < 2 ^ (ep - (e + n))) by (apply pow_pos; lia).
        assert (Hb : 2 ^ (ep + bias) = 2 ^ (ep - (e + n)) * (2 ^ n * 2 ^ (e + bias))).
        { rewrite <- !pow_split by lia. f_equal. lia. }
        unfold P in *. rewrite Hb in Hle |- *.
        assert (Hlt : Zpos m <= cp * 2 ^ (ep - (e + n)) * 2 ^ n).
        { apply (Z.mul_le_mono_pos_r _ _ (2 ^ (e + bias))); [lia|].
          replace (cp * 2 ^ (ep - (e + n)) * 2 ^ n * 2 ^ (e + bias))
            with (cp * (2 ^ (ep - (e + n)) * (2 ^ n * 2 ^ (e + bias)))) by ring.
          exact Hle. }
        assert (shr_m mrs + 1 <= cp * 2 ^ (ep - (e + n))) by nia.
        assert (0 < 2 ^ n * 2 ^ (e + bias)) by nia.
        nia.
      + (* too large for the pivot *)
        exfalso.
        assert (Hk : n = Zdigits2 (Zpos m) - 53) by lia.
        pose proof (top_bits (Zpos m) n Hn0 Hk ltac:(lia)) as Htop. rewrite <- Hq in Htop.
        assert (Hb : 2 ^ (e + n + bias) = 2 ^ (e + n - ep) * 2 ^ (ep + bias)).
        { rewrite <- pow_split by lia. f_equal. lia. }
        assert (He1 : 2 ^ 1 <= 2 ^ (e + n - ep)) by (apply Z.pow_le_mono_r; lia).
        replace (e + n + bias) with (n + (e + bias)) in Hb by lia.
        rewrite pow_split in Hb by lia.
        assert (2 ^ 53 * 2 ^ (ep + bias) <= shr_m mrs * (2 ^ n * 2 ^ (e + bias))).
        { rewrite Hb. change (2 ^ 53) with (2 ^ 52 * 2 ^ 1). nia. }
        unfold P in *. nia. }
  assert (A2 : shr_m mrs2 * 2 ^ (e + n + n2 + bias) <= P).
  { replace (e + n + n2 + bias) with (n2 + (e + n + bias)) by lia.
    rewrite pow_split by lia.
    assert (Hmul : 2 ^ n2 * shr_m mrs2 <= m2)
      by (rewrite Hq2; apply Z.mul_div_le; lia).
    assert (0 < 2 ^ (e + n + bias)) by (apply pow_pos; lia).
    nia. }
  assert (Hmf : 0 <= shr_m mrs2) by (rewrite Hq2; apply Z.div_pos; lia).
  destruct (shr_m mrs2) as [|p|p] eqn:Emf; [left; reflexivity| |lia].
  destruct (e + n + n2 <=? emax - prec) eqn:Ee.
  - right. exists p, (e + n + n2). split; [reflexivity|]. split; [lia|exact A2].
  - exfalso. apply Z.leb_gt in Ee. unfold emax, prec in Ee.
    assert (Hb : 2 ^ (e + n + n2 + bias) = 2 ^ (e + n + n2 - ep) * 2 ^ (ep + bias)).
    { rewrite <- pow_split by lia. f_equal. lia. }
    assert (2 ^ 54 <= 2 ^ (e + n + n2 - ep)) by (apply Z.pow_le_mono_r; lia).
    rewrite Hb in A2. change (2 ^ 54) with (2 * 2 ^ 53) in *.
    assert (0 < 2 ^ 53) by (apply pow_pos; lia).
    unfold P in *. nia.
Qed.

(** Rounding never carries a value past a binary64 number below it. *)
Lemma round_above :
  P <= Zpos m * 2 ^ (e + bias) ->
  result = S754_infinity false \/
  (result = S754_zero false /\ P <= 0) \/
  exists p e', result = S754_finite false p e' /\ e <= e' /\
               P <= Zpos p * 2 ^ (e' + bias).
Proof.
  intros Hle. unfold result, binary_round_aux.
  assert (Hepb : 0 <= ep + bias) by (unfold bias; lia).
  destruct (shr_fexp_spec (Zpos m) e ltac:(lia)) as (n & mrs & -> & Hn & [Hq Hl] & Hcase).
  pose proof (round_nearest_even_bounds mrs) as [Hm2 Hex]. cbv zeta in Hm2, Hex.
  set (m2 := round_nearest_even (shr_m mrs) (loc_of_shr_record mrs)) in *.
  assert (Hpn : 0 < 2 ^ n) by (apply pow_pos; lia).
  assert (Hm1 : 0 <= shr_m mrs) by (rewrite Hq; apply Z.div_pos; lia).
  destruct (shr_fexp_spec m2 (e + n) ltac:(lia)) as (n2 & mrs2 & -> & Hn2 & [Hq2 _] & Hcase2).
  assert (Hpn2 : 0 < 2 ^ n2) by (apply pow_pos; lia).
  assert (Hpe : 0 < 2 ^ (e + bias)) by (apply pow_pos; lia).
  assert (Hpp : 0 < 2 ^ (ep + bias)) by (apply pow_pos; lia).
  assert (Hmf : 0 <= shr_m mrs2) by (rewrite Hq2; apply Z.div_pos; lia).
  assert (B1 : P <= shr_m mrs2 * 2 ^ (e + n + n2 + bias)).
  { destruct (Z_le_gt_dec (e + n + n2) ep) as [Hneg|Hpos].
    - (* the pivot lies on the grid *)
      assert (Hpk : 0 < 2 ^ (ep - (e + n + n2))) by (apply pow_pos; lia).
      assert (Hb : 2 ^ (ep + bias) = 2 ^ (ep - (e + n + n2)) * 2 ^ (e + n + n2 + bias)).
      { rewrite <- pow_split by lia. f_equal. lia. }
      assert (Hs : 2 ^ (e + n + n2 + bias) = 2 ^ n2 * (2 ^ n * 2 ^ (e + bias))).
      { rewrite <- !pow_split by lia. f_equal. lia. }
      assert (Hk : cp * 2 ^ (ep - (e + n + n2)) <= shr_m mrs2).
      { rewrite Hq2. apply Z.div_le_lower_bound; [lia|].
        apply Z.le_trans with (shr_m mrs); [|lia].
        rewrite Hq. apply Z.div_le_lower_bound; [lia|].
        unfold P in Hle. rewrite Hb, Hs in Hle.
        assert (0 < 2 ^ n2 * (2 ^ n * 2 ^ (e + bias))) by nia.
        apply (Z.mul_le_mono_pos_r _ _ (2 ^ (e + bias))); [lia|].
        replace (2 ^ n * (2 ^ n2 * (cp * 2 ^ (ep - (e + n + n2)))) * 2 ^ (e + bias))
          with (cp * (2 ^ (ep - (e + n + n2)) * (2 ^ n2 * (2 ^ n * 2 ^ (e + bias))))) by ring.
        exact Hle. }
      unfold P. rewrite Hb.
      assert (0 < 2 ^ (e + n + n2 + bias)) by (apply pow_pos; lia). nia.
    - assert (Hb : 2 ^ (e + n + n2 + bias) = 2 ^ (e + n + n2 - ep) * 2 ^ (ep + bias)).
      { rewrite <- pow_split by lia. f_equal. lia. }
      assert (He1 : 2 ^ 1 <= 2 ^ (e + n + n2 - ep)) by (apply Z.pow_le_mono_r; lia).
      destruct Hcase2 as [[-> _]|[Hn20 Hen2]].
      + rewrite Z.add_0_r in *. rewrite Z.pow_0_r, Z.div_1_r in Hq2.
        destruct Hcase as [[-> Hmrs]|[Hn0 Hen]].
        * rewrite Z.add_0_r in *. subst mrs. simpl in Hq2. subst m2. simpl.
          simpl in Hq2. rewrite Hq2. exact Hle.
        * assert (Hk : n = Zdigits2 (Zpos m) - 53) by lia.
          pose proof (top_bits (Zpos m) n Hn0 Hk ltac:(lia)) as Htop. rewrite <- Hq in Htop.
          rewrite Hb, Hq2. unfold P. change (2 ^ 53) with (2 ^ 52 * 2 ^ 1) in Hcp.
          assert (2 ^ 52 * 2 ^ 1 <= m2 * 2 ^ (e + n - ep)) by nia.
          nia.
      + assert (Hm2pos : 0 <= m2) by lia.
        assert (Hk : n2 = Zdigits2 m2 - 53) by lia.
        pose proof (top_bits m2 n2 Hn20 Hk Hm2pos) as Htop. rewrite <- Hq2 in Htop.
        rewrite Hb. unfold P. change (2 ^ 53) with (2 ^ 52 * 2 ^ 1) in Hcp.
        assert (2 ^ 52 * 2 ^ 1 <= shr_m mrs2 * 2 ^ (e + n + n2 - ep)) by nia.
        nia. }
  destruct (shr_m mrs2) as [|p|p] eqn:Emf; [|  |lia].
  - right. left. split; [reflexivity|lia].
  - destruct (e + n + n2 <=? emax - prec) eqn:Ee.
    + right. right. exists p, (e + n + n2). split; [reflexivity|]. split; [lia|exact B1].
    + left. reflexivity.
Qed.

End RoundAux.

End RoundingFacts.

(** ** The trend direction *)

Module TrendFacts.
Import B64 RoundingFacts DataCollector.

Lemma mul_comm x y : mul x y = mul y x.
Proof.
  unfold mul. destruct x as [sx|sx| |sx mx ex], y as [sy|sy| |sy my ey]; simpl;
    rewrite ?(xorb_comm sx sy); try reflexivity.
  rewrite (Pos.mul_comm mx my), (Z.add_comm ex ey). reflexivity.
Qed.

Lemma valid_finite_exponent s m e :
  valid (S754_finite s m e) = true -> -1074 <= e <= 971.
Proof.
  unfold valid, valid_binary, bounded, canonical_mantissa. rewrite fexp_eq.
  intros [H1 H2]%andb_true_iff. apply Z.eqb_eq in H1. apply Z.leb_le in H2.
  unfold emax, prec in H2. lia.
Qed.

(** How an integer compares with the outcome of a rounding. *)
Lemma Zcompare_zero c s : Zcompare c (S754_zero s) = Some (c ?= 0).
Proof. reflexivity. Qed.

Section Band.
Variables (ma : positive) (ea c : Z).
Hypothesis Hea : -1074 <= ea <= 971.
Hypothesis Hc : 0 <= c <= 2 ^ 49.

Let a := S754_finite false ma ea.
Let hi := mul a f1_1.
Let lo := mul a f0_9.
Let Q := 2 ^ (ea + -53 + bias).

Lemma hi_eq : hi = binary_round_aux prec emax false (Zpos (ma * 4953959590107546)) (ea + -52) loc_Exact.
Proof. reflexivity. Qed.

Lemma lo_eq : lo = binary_round_aux prec emax false (Zpos (ma * 8106479329266893)) (ea + -53) loc_Exact.
Proof. reflexivity. Qed.

Lemma hi_scale : 2 ^ (ea + -52 + bias) = 2 * Q.
Proof.
  unfold Q. replace (ea + -52 + bias) with (1 + (ea + -53 + bias)) by lia.
  rewrite pow_split by (unfold bias; lia). reflexivity.
Qed.

Lemma Q_pos : 0 < Q.
Proof. apply pow_pos. unfold bias. lia. Qed.

Lemma bias_split k : 0 <= k <= bias -> 2 ^ bias = 2 ^ k * 2 ^ (- k + bias).
Proof. intros. rewrite <- pow_split by lia. f_equal. lia. Qed.

(** Side conditions of the rounding lemmas, for the pivots used here. *)
Ltac side := unfold bias; lia.

(** Below the lower product means below the upper one. *)
Lemma lt_lo_lt_hi : int_lt c lo = true -> int_lt c hi = true.
Proof.
  intros Hlt.
  assert (Hb : 0 < 2 ^ bias) by (apply pow_pos; side).
  pose proof Q_pos as HQ.
  assert (H53 : 0 <= c <= 2 ^ 53) by (change (2 ^ 49) with 562949953421312 in Hc; change (2 ^ 53) with 9007199254740992; lia).
  (* the exact lower product is above [c] *)
  assert (Hy : c * 2 ^ bias < Zpos (ma * 8106479329266893) * Q).
  { destruct (Z_lt_le_dec (c * 2 ^ bias) (Zpos (ma * 8106479329266893) * Q)) as [|Hle]; [assumption|].
    exfalso. rewrite lo_eq in Hlt.
    assert (Hpre : Zpos (ma * 8106479329266893) * 2 ^ (ea + -53 + bias) <= c * 2 ^ (0 + bias))
      by (rewrite Z.add_0_l; exact Hle).
    destruct (round_below (ma * 8106479329266893) (ea + -53) c 0
                ltac:(side) ltac:(lia) H53 Hpre) as [E|(p & e' & E & He' & Hp)].
    - rewrite E in Hlt. unfold int_lt in Hlt. rewrite Zcompare_zero in Hlt.
      destruct (Z.compare_spec c 0); try discriminate; lia.
    - rewrite E in Hlt. unfold int_lt in Hlt. rewrite Zcompare_finite in Hlt by side.
      rewrite Z.add_0_l in Hp.
      destruct (Z.compare_spec (c * 2 ^ bias) (Zpos p * 2 ^ (e' + bias))); try discriminate; lia. }
  rewrite hi_eq.
  destruct (Z.eq_dec c 0) as [->|Hc0].
  - (* some positive number lies below the upper product *)
    assert (Hp0 : 0 < 2 ^ (-1074 + bias)) by (apply pow_pos; side).
    assert (Hpre : 1 * 2 ^ (-1074 + bias) <= Zpos (ma * 4953959590107546) * 2 ^ (ea + -52 + bias)).
    { rewrite hi_scale. rewrite Z.mul_1_l.
      assert (2 ^ (-1074 + bias) <= 2 ^ (ea + bias)) by (apply Z.pow_le_mono_r; side).
      assert (Hs : 2 ^ (ea + bias) = 2 ^ 53 * Q).
      { unfold Q. rewrite <- pow_split by side. f_equal. lia. }
      rewrite Pos2Z.inj_mul. change (2 ^ 53) with 9007199254740992 in Hs. nia. }
    destruct (round_above (ma * 4953959590107546) (ea + -52) 1 (-1074)
                ltac:(side) ltac:(lia) ltac:(lia) Hpre) as [E|[[E HP]|(p & e' & E & He' & Hp)]].
    + rewrite E. reflexivity.
    + exfalso. lia.
    + rewrite E. unfold int_lt. rewrite Zcompare_finite by side.
      assert (0 < 2 ^ (e' + bias)) by (apply pow_pos; side).
      destruct (Z.compare_spec (0 * 2 ^ bias) (Zpos p * 2 ^ (e' + bias))); try reflexivity; nia.
  - (* nine eighths of [c] lie below the upper product *)
    assert (Hs : 2 ^ bias = 2 ^ 3 * 2 ^ (-3 + bias)) by (apply bias_split; side).
    assert (Hp3 : 0 < 2 ^ (-3 + bias)) by (apply pow_pos; side).
    change (2 ^ 3) with 8 in Hs.
    assert (H9 : 0 <= 9 * c <= 2 ^ 53) by (change (2 ^ 49) with 562949953421312 in Hc; change (2 ^ 53) with 9007199254740992; lia).
    assert (Hpre : 9 * c * 2 ^ (-3 + bias) <= Zpos (ma * 4953959590107546) * 2 ^ (ea + -52 + bias)).
    { rewrite hi_scale. rewrite Pos2Z.inj_mul in Hy |- *. rewrite Hs in Hy.
      set (T := 2 ^ (-3 + bias)) in *. set (A := Zpos ma * Q).
      assert (HA : c * 8 * T < 8106479329266893 * A) by (unfold A; lia).
      replace (Z.pos ma * 4953959590107546 * (2 * Q)) with (9907919180215092 * A) by (unfold A; ring).
      lia. }
    destruct (round_above (ma * 4953959590107546) (ea + -52) (9 * c) (-3)
                ltac:(side) ltac:(lia) H9 Hpre) as [E|[[E HP]|(p & e' & E & He' & Hp)]].
    + rewrite E. reflexivity.
    + exfalso. nia.
    + rewrite E. unfold int_lt. rewrite Zcompare_finite by side.
      destruct (Z.compare_spec (c * 2 ^ bias) (Zpos p * 2 ^ (e' + bias))); try reflexivity; exfalso;
        rewrite Hs in *; set (T := 2 ^ (-3 + bias)) in *; lia.
Qed.

(** Above the upper product means above the lower one. *)
Lemma gt_hi_gt_lo : int_gt c hi = true -> int_gt c lo = true.
Proof.
  intros Hgt.
  assert (Hb : 0 < 2 ^ bias) by (apply pow_pos; side).
  pose proof Q_pos as HQ.
  assert (H53 : 0 <= c <= 2 ^ 53) by (change (2 ^ 49) with 562949953421312 in Hc; change (2 ^ 53) with 9007199254740992; lia).
  assert (Hx : Zpos (ma * 4953959590107546) * (2 * Q) < c * 2 ^ bias).
  { destruct (Z_lt_le_dec (Zpos (ma * 4953959590107546) * (2 * Q)) (c * 2 ^ bias)) as [|Hle]; [assumption|].
    exfalso. rewrite hi_eq in Hgt.
    assert (Hpre : c * 2 ^ (0 + bias) <= Zpos (ma * 4953959590107546) * 2 ^ (ea + -52 + bias))
      by (rewrite Z.add_0_l, hi_scale; exact Hle).
    destruct (round_above (ma * 4953959590107546) (ea + -52) c 0
                ltac:(side) ltac:(lia) H53 Hpre) as [E|[[E HP]|(p & e' & E & He' & Hp)]].
    - rewrite E in Hgt. discriminate.
    - rewrite E in Hgt. unfold int_gt in Hgt. rewrite Zcompare_zero in Hgt.
      rewrite Z.add_0_l in HP.
      destruct (Z.compare_spec c 0); try discriminate; nia.
    - rewrite E in Hgt. unfold int_gt in Hgt. rewrite Zcompare_finite in Hgt by side.
      rewrite Z.add_0_l in Hp.
      destruct (Z.compare_spec (c * 2 ^ bias) (Zpos p * 2 ^ (e' + bias))); try discriminate; lia. }
  assert (Hc1 : 1 <= c) by (rewrite Pos2Z.inj_mul in Hx; nia).
  assert (Hs : 2 ^ bias = 2 ^ 3 * 2 ^ (-3 + bias)) by (apply bias_split; side).
  assert (Hp3 : 0 < 2 ^ (-3 + bias)) by (apply pow_pos; side).
  change (2 ^ 3) with 8 in Hs.
  rewrite lo_eq.
  assert (H7 : 0 <= 7 * c <= 2 ^ 53) by (change (2 ^ 49) with 562949953421312 in Hc; change (2 ^ 53) with 9007199254740992; lia).
  assert (Hpre : Zpos (ma * 8106479329266893) * 2 ^ (ea + -53 + bias) <= 7 * c * 2 ^ (-3 + bias)).
  { fold Q. rewrite Pos2Z.inj_mul in Hx |- *. rewrite Hs in Hx.
    set (T := 2 ^ (-3 + bias)) in *. set (A := Zpos ma * Q).
    assert (HA : 9907919180215092 * A < c * 8 * T) by (unfold A; lia).
    replace (Z.pos ma * 8106479329266893 * Q) with (8106479329266893 * A) by (unfold A; ring).
    assert (0 < A) by (unfold A; nia).
    lia. }
  destruct (round_below (ma * 8106479329266893) (ea + -53) (7 * c) (-3)
              ltac:(side) ltac:(lia) H7 Hpre) as [E|(p & e' & E & He' & Hp)].
  - rewrite E. unfold int_gt. rewrite Zcompare_zero.
    destruct (Z.compare_spec c 0); try reflexivity; lia.
  - rewrite E. unfold int_gt. rewrite Zcompare_finite by side.
    destruct (Z.compare_spec (c * 2 ^ bias) (Zpos p * 2 ^ (e' + bias))); try reflexivity; exfalso;
      rewrite Hs in *; set (T := 2 ^ (-3 + bias)) in *; lia.
Qed.

End Band.


Section Direction.
Variables (c : Z) (a : float).
Hypothesis Hvalid : valid a = true.
Hypothesis Hpos : leb (of_Z 0) a = true.
Hypothesis Hc : 0 <= c <= 100.

Lemma below_band : int_lt c (mul a f0_9) = true -> int_lt c (mul a f1_1) = true.
Proof.
  destruct a as [s|[|]| |[|] ma ea]; try discriminate Hpos; try (intros H; exact H).
  apply lt_lo_lt_hi.
  - eapply valid_finite_exponent, Hvalid.
  - change (2 ^ 49) with 562949953421312. lia.
Qed.

Lemma above_band : int_gt c (mul a f1_1) = true -> int_gt c (mul a f0_9) = true.
Proof.
  destruct a as [s|[|]| |[|] ma ea]; try discriminate Hpos; try (intros H; exact H).
  apply gt_hi_gt_lo.
  - eapply valid_finite_exponent, Hvalid.
  - change (2 ^ 49) with 562949953421312. lia.
Qed.

Lemma lt_not_gt x : int_lt c x = true -> int_gt c x = false.
Proof. unfold int_lt, int_gt. destruct (Zcompare c x) as [[| |]|]; congruence. Qed.

Lemma eq_not_gt x : int_eq c x = true -> int_gt c x = false.
Proof. unfold int_eq, int_gt. destruct (Zcompare c x) as [[| |]|]; congruence. Qed.

Lemma eq_not_lt x : int_eq c x = true -> int_lt c x = false.
Proof. unfold int_eq, int_lt. destruct (Zcompare c x) as [[| |]|]; congruence. Qed.

End Direction.

Lemma directions_differ : RISING <> DECLINING /\ RISING <> STABLE /\ DECLINING <> STABLE.
Proof. repeat split; intros H; vm_compute in H; discriminate H. Qed.

(** C2. With the current interest [c] and the window average [a] in the
    ranges of the data model ([a] a binary64 number that is not negative,
    [c] an integer from 0 to 100), and [1.1 * a], [0.9 * a] the binary64
    products the program compares with: the direction is RISING exactly
    when [c > 1.1 * a], DECLINING exactly when [c < 0.9 * a], STABLE
    exactly when neither holds; at [c = 1.1 * a] and at [c = 0.9 * a] it
    is STABLE. *)
Theorem direction_of_band (c : Z) (a : float) :
  valid a = true -> leb (of_Z 0) a = true -> 0 <= c <= 100 ->
  (direction_of c a = RISING <-> int_gt c (mul f1_1 a) = true) /\
  (direction_of c a = DECLINING <-> int_lt c (mul f0_9 a) = true) /\
  (direction_of c a = STABLE <->
     int_gt c (mul f1_1 a) = false /\ int_lt c (mul f0_9 a) = false) /\
  (int_eq c (mul f1_1 a) = true -> direction_of c a = STABLE) /\
  (int_eq c (mul f0_9 a) = true -> direction_of c a = STABLE).
Proof.
  intros Hvalid Hpos Hc.
  rewrite (mul_comm f1_1 a), (mul_comm f0_9 a).
  pose proof (below_band c a Hvalid Hpos Hc) as Hbelow.
  pose proof (above_band c a Hvalid Hpos Hc) as Habove.
  pose proof (lt_not_gt c (mul a f1_1)) as Hlg.
  pose proof (lt_not_gt c (mul a f0_9)) as Hlg'.
  pose proof (eq_not_gt c (mul a f1_1)) as Heg.
  pose proof (eq_not_lt c (mul a f1_1)) as Hel.
  pose proof (eq_not_gt c (mul a f0_9)) as Heg'.
  pose proof (eq_not_lt c (mul a f0_9)) as Hel'.
  destruct directions_differ as (Hrd & Hrs & Hds).
  unfold direction_of.
  destruct (int_gt c (mul a f1_1)) eqn:Hgt, (int_lt c (mul a f0_9)) eqn:Hlt;
    repeat split; intros; try congruence;
    try (specialize (Hbelow eq_refl)); try (specialize (Habove eq_refl));
    repeat match goal with
           | H : ?x = true -> _, H' : ?x = true |- _ => specialize (H H')
           end;
    try congruence; try tauto; intuition congruence.
Qed.

Lemma direction_of_band_witness :
  valid (of_Z 50) = true /\ leb (of_Z 0) (of_Z 50) = true /\ 0 <= 80 <= 100 /\
  direction_of 80 (of_Z 50) = RISING.
Proof.
  split; [reflexivity|]. split; [reflexivity|]. split; [lia|].
  apply (proj1 (direction_of_band 80 (of_Z 50) eq_refl eq_refl ltac:(lia))).
  reflexivity.
Defined.

(** The scenario of the specification: interest 80 against an average of 50
    is RISING; 55 and 45 against 50 sit on the edges of the band and are
    STABLE. *)
Example direction_80_50 : direction_of 80 (of_Z 50) = RISING.
Proof. reflexivity. Qed.

Example direction_55_50 :
  direction_of 55 (of_Z 50) = STABLE /\ direction_of 45 (of_Z 50) = STABLE.
Proof. split; reflexivity. Qed.

Example direction_56_44 :
  direction_of 56 (of_Z 50) = RISING /\ direction_of 44 (of_Z 50) = DECLINING.
Proof. split; reflexivity. Qed.

(** The range of the data model matters: for a negative average both
    comparisons hold at once and the first one wins. *)
Remark direction_negative_average :
  int_gt (-10) (mul f1_1 (of_Z (-10))) = true /\
  int_lt (-10) (mul f0_9 (of_Z (-10))) = true /\
  direction_of (-10) (of_Z (-10)) = RISING.
Proof. repeat split; reflexivity. Qed.

(** The products are binary64 products.  With eleven samples that sum to
    10 the average is the binary64 nearest to 10/11, a little below it, so
    that 11 times the average is below 10 times the interest 1 in exact
    arithmetic; the rounded product is exactly 1 and the direction is
    STABLE. *)
Remark direction_rounded_product :
  let avg := mean [0; 1; 1; 1; 1; 1; 1; 1; 1; 1; 1] in
  avg = S754_finite false 8188362958855447 (-53) /\
  11 * 8188362958855447 < 10 * 1 * 2 ^ 53 /\
  mul avg f1_1 = of_Z 1 /\
  direction_of 1 avg = STABLE.
Proof. repeat split; reflexivity. Qed.

End TrendFacts.
(** ** The snapshot and the pipeline *)

Module CollectedDataFacts.
Import Py DataCollector Samples.

Lemma nonempty_true {A} (l : list A) : nonempty l = true <-> l <> [].
Proof. destruct l; simpl; split; congruence. Qed.

(** C1. [has_data] is true exactly when one of the three record lists is
    not empty; the error list has no part in it, so a snapshot with a
    record and with errors is usable. *)
Theorem has_data_iff_records (d : CollectedData) :
  (has_data d = true <->
     youtube_videos d <> [] \/ trends d <> [] \/ serp_questions d <> []) /\
  (forall es, has_data (with_errors es d) = has_data d) /\
  (forall es, es <> [] ->
     youtube_videos d <> [] \/ trends d <> [] \/ serp_questions d <> [] ->
     has_data (with_errors es d) = true).
Proof.
  assert (H : has_data d = true <->
     youtube_videos d <> [] \/ trends d <> [] \/ serp_questions d <> []).
  { unfold has_data, py_or. simpl.
    destruct (youtube_videos d), (trends d), (serp_questions d); simpl;
      split; intros; try reflexivity; try discriminate; auto;
      repeat match goal with H : _ \/ _ |- _ => destruct H end; congruence. }
  split; [exact H|]. split; [reflexivity|].
  intros es _ Hr. change (has_data (with_errors es d)) with (has_data d).
  apply H, Hr.
Qed.

Lemma has_data_iff_records_witness :
  let v := {| title := "X"; video_id := "abc"; channel_name := "Channel";
              view_count := 150000; like_count := 1200;
              publish_date := "2024-05-06";
              url := "https://youtube.com/watch?v=abc" |} in
  let d := {| topic := "X"; platform := "youtube";
              collected_at := "2025-01-01 00:00:00";
              youtube_videos := [v]; trends := []; serp_questions := [];
              errors := [] |} in
  has_data (with_errors ["SERP_API_KEY not set"] d) = true.
Proof.
  cbv zeta.
  match goal with
  | |- has_data (with_errors ?es ?d) = true =>
      apply (proj2 (proj2 (has_data_iff_records d)) es)
  end.
  - discriminate.
  - left. discriminate.
Defined.

End CollectedDataFacts.

Module SmartScriptCrewFacts.
Import Py DataCollector SmartScriptCrew Samples.

(** C5. When the collected snapshot has no data, [run] returns the failure
    with the accumulated error strings and builds no task and starts no
    crew. *)
Theorem run_refuses_without_data `{!Builtins} kickoff self w topic platform :
  has_data (collect_all self w topic platform) = false ->
  run kickoff self w topic platform =
    (Failed "Could not collect real data"
            (errors (collect_all self w topic platform))
            "API data collection failed. Check your API keys.", []).
Proof. intros Hd. unfold run. rewrite Hd. reflexivity. Qed.

Lemma run_refuses_without_data_witness :
  has_data (collect_all (init bare_world) bare_world "ai tools" "youtube") = false /\
  run (fun _ => inr "script") (init bare_world) bare_world "ai tools" "youtube" =
    (Failed "Could not collect real data"
            ["YOUTUBE_API_KEY not set";
             "pytrends not installed (pip install pytrends)";
             "SERP_API_KEY not set"]
            "API data collection failed. Check your API keys.", []).
Proof.
  split; [reflexivity|].
  apply (run_refuses_without_data (fun _ => inr "script") (init bare_world) bare_world
           "ai tools" "youtube").
  reflexivity.
Defined.

(** With data, the first thing [run] does is build the analysis task. *)
Lemma run_with_data_builds `{!Builtins} kickoff self w topic platform :
  has_data (collect_all self w topic platform) = true ->
  exists steps,
    snd (run kickoff self w topic platform) =
      Built (AnalysisTask (to_prompt_context (collect_all self w topic platform))) :: steps.
Proof.
  intros Hd. unfold run. rewrite Hd. simpl.
  destruct (_create_writing_task _ _); [eexists; reflexivity|].
  destruct (kickoff _); eexists; reflexivity.
Qed.

(** On success the preview in the answer is cut from the very text the
    analysis task was given: both come from [to_prompt_context] on the one
    snapshot. *)
Lemma run_preview_is_context `{!Builtins} kickoff self w topic platform
    y t q es raw result steps :
  run kickoff self w topic platform = (Succeeded y t q es raw result, steps) ->
  let context := to_prompt_context (collect_all self w topic platform) in
  raw = str_take 500 context +:+ "..." /\
  In (Built (AnalysisTask context)) steps.
Proof.
  unfold run. destruct (negb (has_data _)); [discriminate|].
  destruct (_create_writing_task _ _); [discriminate|].
  destruct (kickoff _); [discriminate|].
  intros [= <- <- <- <- <- <- <-]. split; [reflexivity|left; reflexivity].
Qed.

End SmartScriptCrewFacts.

(** ** Error reporting *)

Module AgentRoutesFacts.
Import Py AgentRoutes.

Lemma lower_ascii_not_A (c : ascii) : lower_ascii c <> "A"%char.
Proof.
  destruct c as [[] [] [] [] [] [] [] []]; vm_compute; discriminate.
Qed.

Lemma lower_has_no_A (s : string) :
  ~ In "A"%char (String.list_ascii_of_string (lower s)).
Proof.
  induction s as [|c s IH]; simpl; [tauto|].
  intros [H|H]; [exact (lower_ascii_not_A c H)|exact (IH H)].
Qed.

Lemma prefix_first a needle hay :
  String.prefix (String a needle) hay = true ->
  In a (String.list_ascii_of_string hay).
Proof.
  destruct hay as [|b hay]; simpl; [discriminate|].
  destruct (ascii_dec a b) as [->|]; [left; reflexivity|discriminate].
Qed.

Lemma contains_first a needle hay :
  contains (String a needle) hay = true ->
  In a (String.list_ascii_of_string hay).
Proof.
  induction hay as [|b hay IH].
  - simpl. discriminate.
  - intros H. cbn [contains] in H. apply orb_true_iff in H as [H|H].
    + exact (prefix_first _ _ _ H).
    + right. exact (IH H).
Qed.

(** The test of line 96 looks for a capitalised needle in a lowered text. *)
Lemma api_key_test_is_dead (error_str : string) :
  contains "API key" (lower error_str) = false.
Proof.
  destruct (contains "API key" (lower error_str)) eqn:E; [|reflexivity].
  exfalso. exact (lower_has_no_A _ (contains_first _ _ _ E)).
Qed.

(** What [handle_crew_error] answers, by the text of the error. *)
Lemma handle_error_str_cases (error_str : string) :
  handle_error_str error_str =
    if contains "authentication_error" error_str
       || contains "invalid x-api-key" error_str
       || contains "401" error_str
    then auth_failed
    else if contains "ANTHROPIC_API_KEY is required" error_str
    then key_missing
    else generic_error.
Proof.
  unfold handle_error_str. rewrite api_key_test_is_dead, orb_false_r. reflexivity.
Qed.

(** C8, where the code departs from it.  An error about a missing API key
    is a credential problem, and line 96 means to catch it whatever its
    capitals; the test can never succeed, and such an error gets the
    generic 500 answer. *)
Theorem handle_crew_error_misses_api_key :
  (forall error_str, contains "API key" (lower error_str) = false) /\
  handle_error_str "Missing Anthropic API Key - no key is set" = generic_error /\
  status_code (handle_error_str "Missing Anthropic API Key - no key is set") = 500.
Proof.
  split; [exact api_key_test_is_dead|]. split; reflexivity.
Qed.

(** Apart from that test: the recognised texts get a 503 naming the
    credential, everything else the same fixed 500 text. *)
Lemma handle_error_str_statuses (error_str : string) :
  let r := handle_error_str error_str in
  (status_code r = 503 /\ contains "ANTHROPIC_API_KEY" (detail r) = true) \/
  r = generic_error.
Proof.
  rewrite handle_error_str_cases.
  destruct (_ || _); [left; split; reflexivity|].
  destruct (contains _ _); [left; split; reflexivity|right; reflexivity].
Qed.

End AgentRoutesFacts.

Module FetchFacts.
Import Py DataCollector Samples Shapes.

Section WithBuiltins.
Context `{!Builtins}.

(** A page of results without related questions: [_fetch_serp] returns
    nothing and says nothing. *)
Lemma fetch_serp_no_questions self w key query errors kv :
  key_set (serp_key self) = Some key ->
  http_get w serp_url [("q", query); ("api_key", key); ("engine", "google")]
    = inr (JObj kv) ->
  assoc "error" kv = None ->
  assoc "related_questions" kv = None ->
  _fetch_serp self w query errors = ([], errors).
Proof.
  intros Hk Hget He Hq. unfold _fetch_serp, serp_try. rewrite Hk, Hget. simpl.
  rewrite He. simpl. rewrite Hq. reflexivity.
Qed.

Ltac run_body :=
  unfold mbind, res_bind, mret, res_ret, raise;
  repeat match goal with
         | |- context [match ?x with _ => _ end] => destruct x eqn:?
         | |- context [if ?x then _ else _] => destruct x eqn:?
         end;
  intros; simplify_eq; try (left; reflexivity);
  try (right; split; [reflexivity|eexists; reflexivity]).

Lemma youtube_stats_errors w key items errors r :
  youtube_stats w key items errors = inr r -> snd r = errors.
Proof.
  unfold youtube_stats. unfold mbind, res_bind, mret, res_ret, raise.
  repeat match goal with
         | |- context [match ?x with _ => _ end] => destruct x eqn:?
         | |- context [if ?x then _ else _] => destruct x eqn:?
         end; intros; simplify_eq; reflexivity.
Qed.

Lemma youtube_try_errors w key query errors r :
  youtube_try w key query errors = inr r -> one_or_none errors r.
Proof.
  unfold youtube_try, one_or_none.
  unfold mbind, res_bind, mret, res_ret, raise.
  repeat match goal with
         | |- context [match ?x with inl _ => _ | inr _ => _ end] => destruct x eqn:?
         | |- context [if ?x then _ else _] => destruct x eqn:?
         end; intros; simplify_eq;
    try (right; split; [reflexivity|eexists; reflexivity]).
  all: try (left; eapply youtube_stats_errors; eassumption).
Qed.

(** No exception leaves a fetch function, and each appends at most one
    error string, with an empty result when it does. *)
Lemma fetch_youtube_errors self w query errors :
  one_or_none errors (_fetch_youtube self w query errors).
Proof.
  unfold _fetch_youtube.
  destruct (key_set _); [|right; split; [reflexivity|eexists; reflexivity]].
  destruct (youtube_try _ _ _ _) eqn:E.
  - right; split; [reflexivity|eexists; reflexivity].
  - eapply youtube_try_errors; eassumption.
Qed.

Lemma fetch_trends_errors w topic errors :
  one_or_none errors (_fetch_trends w topic errors).
Proof.
  unfold _fetch_trends, one_or_none.
  destruct (PYTRENDS_AVAILABLE w); simpl;
    [|right; split; [reflexivity|eexists; reflexivity]].
  destruct (trends_try _ _ _) as [e|r] eqn:E;
    [right; split; [reflexivity|eexists; reflexivity]|].
  revert E. unfold trends_try. run_body.
Qed.

Lemma fetch_serp_errors self w query errors :
  one_or_none errors (_fetch_serp self w query errors).
Proof.
  unfold _fetch_serp, one_or_none.
  destruct (key_set _); [|right; split; [reflexivity|eexists; reflexivity]].
  destruct (serp_try _ _ _ _) as [e|r] eqn:E;
    [right; split; [reflexivity|eexists; reflexivity]|].
  revert E. unfold serp_try. run_body.
Qed.

(** The failures the fetch functions do report, each with one string. *)
Lemma fetch_youtube_missing_key self w query errors :
  key_set (youtube_key self) = None ->
  _fetch_youtube self w query errors = ([], errors ++ ["YOUTUBE_API_KEY not set"]).
Proof. intros Hk. unfold _fetch_youtube. rewrite Hk. reflexivity. Qed.

Lemma fetch_youtube_raises self w key query errors e :
  key_set (youtube_key self) = Some key ->
  youtube_try w key query errors = inl e ->
  _fetch_youtube self w query errors =
    ([], errors ++ ["YouTube fetch failed: " +:+ exn_str e]).
Proof. intros Hk He. unfold _fetch_youtube. rewrite Hk, He. reflexivity. Qed.

Lemma fetch_youtube_no_items self w key query errors kv :
  key_set (youtube_key self) = Some key ->
  http_get w search_url
    [("part", "snippet"); ("q", query); ("type", "video");
     ("order", "viewCount"); ("maxResults", "10"); ("key", key)] = inr (JObj kv) ->
  assoc "error" kv = None ->
  truthy (from_option id (JArr []) (assoc "items" kv)) = false ->
  _fetch_youtube self w query errors =
    ([], errors ++ ["No YouTube videos found for: " +:+ query]).
Proof.
  intros Hk Hget He Hi. unfold _fetch_youtube, youtube_try. rewrite Hk, Hget. simpl.
  rewrite He. simpl. rewrite Hi. reflexivity.
Qed.

Lemma fetch_trends_empty w topic errors related :
  PYTRENDS_AVAILABLE w = true ->
  payload (pytrends w topic) = inr () ->
  interest_over_time (pytrends w topic) = inr [] ->
  related_queries (pytrends w topic) = inr related ->
  _fetch_trends w topic errors =
    ([], errors ++ ["No Google Trends data for: " +:+ topic]).
Proof.
  intros Ha Hp Hi Hr. unfold _fetch_trends, trends_try. rewrite Ha, Hp, Hi, Hr.
  reflexivity.
Qed.

Lemma fetch_serp_missing_key self w query errors :
  key_set (serp_key self) = None ->
  _fetch_serp self w query errors = ([], errors ++ ["SERP_API_KEY not set"]).
Proof. intros Hk. unfold _fetch_serp. rewrite Hk. reflexivity. Qed.

(** With all three credentials and pytrends missing, the snapshot has one
    error per provider. *)
Lemma collect_all_without_credentials self w topic platform :
  key_set (youtube_key self) = None -> key_set (serp_key self) = None ->
  PYTRENDS_AVAILABLE w = false ->
  errors (collect_all self w topic platform) =
    ["YOUTUBE_API_KEY not set"; "pytrends not installed (pip install pytrends)";
     "SERP_API_KEY not set"] /\
  has_data (collect_all self w topic platform) = false.
Proof.
  intros Hy Hs Hp. unfold collect_all, _fetch_youtube, _fetch_trends, _fetch_serp.
  rewrite Hy, Hs, Hp. split; reflexivity.
Qed.

End WithBuiltins.

(** C3, where the code departs from it.  With every provider reached and
    empty, the question provider appends no error: it returns the empty
    list and leaves the accumulator as it was, and the snapshot holds two
    error strings for three providers. *)
Theorem fetch_serp_empty_is_silent :
  (forall errors,
     _fetch_serp (init empty_world) empty_world "ai tools" errors = ([], errors)) /\
  errors (collect_all (init empty_world) empty_world "ai tools" "youtube") =
    ["No YouTube videos found for: ai tools";
     "No Google Trends data for: ai tools"] /\
  has_data (collect_all (init empty_world) empty_world "ai tools" "youtube") = false.
Proof. repeat split. Qed.

End FetchFacts.

(** ** The merge of the statistics *)

Module MergeFacts.
Import Py DataCollector Samples Shapes.

Section WithBuiltins.
Context `{!Builtins}.

Lemma str_eqb_refl s : str_eqb s s = true.
Proof. unfold str_eqb. apply bool_decide_eq_true. reflexivity. Qed.

Lemma wf_item_inv item :
  wf_item item = true ->
  exists kv idkv skv,
    item = JObj kv /\ assoc "id" kv = Some (JObj idkv) /\
    assoc "snippet" kv = Some (JObj skv) /\
    str_or_absent (assoc "videoId" idkv) = true /\
    str_or_absent (assoc "publishedAt" skv) = true.
Proof.
  unfold wf_item, obj_field. destruct item as [| | | | | |kv]; try discriminate.
  destruct (assoc "id" kv) as [[| | | | | |idkv]|] eqn:Eid; try discriminate.
  destruct (assoc "snippet" kv) as [[| | | | | |skv]|] eqn:Esn; try discriminate.
  intros [H1 H2]%andb_true_iff. exists kv, idkv, skv. repeat split; auto.
Qed.

(** Phase 1 lists the identifiers of the results that carry one. *)
Lemma video_ids_of_wf items :
  forallb wf_item items = true ->
  video_ids_of items = inr (map JStr (omap listed_id items)).
Proof.
  induction items as [|item items IH]; [reflexivity|].
  intros [Hw Hws]%andb_true_iff. specialize (IH Hws).
  destruct (wf_item_inv item Hw) as (kv & idkv & skv & -> & Hid & Hsn & Hv & Hp).
  cbn [video_ids_of omap list_omap]. unfold listed_id, obj_field.
  cbn [py_get py_in py_index mbind res_bind mret res_ret from_option].
  rewrite Hid. cbn [from_option id py_in py_index mbind res_bind mret res_ret].
  destruct (assoc "videoId" idkv) as [[| | | |vid| |]|] eqn:E; try discriminate Hv.
  - rewrite bool_decide_eq_true_2 by eauto. rewrite IH. reflexivity.
  - rewrite bool_decide_eq_false_2 by (intros [? ?]; discriminate). exact IH.
Qed.

Lemma strs_of_strs l : strs_of (map JStr l) = inr l.
Proof. induction l as [|s l IH]; [reflexivity|]. simpl. rewrite IH. reflexivity. Qed.

(** Phase 2 files the statistics under their identifiers. *)
Lemma stats_map_of_wf vs : forall m,
  forallb wf_stat vs = true ->
  map_Forall (fun _ st => good_stats st = true) m ->
  exists m',
    stats_map_of vs m = inr m' /\
    map_Forall (fun _ st => good_stats st = true) m' /\
    forall k, m !! k = None ->
              (forall v, In v vs -> obj_field v "id" <> Some (JStr k)) ->
              m' !! k = None.
Proof.
  induction vs as [|v vs IH]; intros m Hw Hm.
  - exists m. split; [reflexivity|]. split; [exact Hm|]. auto.
  - apply andb_true_iff in Hw as [Hv Hvs].
    unfold wf_stat, obj_field in Hv.
    destruct v as [| | | | | |kv]; try discriminate.
    destruct (assoc "id" kv) as [[| | | |s| |]|] eqn:Eid; try discriminate.
    destruct (assoc "statistics" kv) as [st|] eqn:Est; try discriminate.
    destruct (IH (<[s := st]> m) Hvs) as (m' & Hr & Hg & Hk).
    { apply map_Forall_insert_2; assumption. }
    exists m'. cbn [stats_map_of py_index mbind res_bind mret res_ret].
    rewrite Eid, Est. split; [exact Hr|]. split; [exact Hg|].
    intros k Hnone Hno. apply Hk.
    + rewrite lookup_insert_ne; [exact Hnone|].
      intros ->. apply (Hno (JObj kv)); [left; reflexivity|]. exact Eid.
    + intros v' Hin. apply Hno. right. exact Hin.
Qed.

Lemma candidate_listed item vid :
  candidate_id item = Some vid -> listed_id item = Some vid /\ vid <> EmptyString.
Proof.
  unfold candidate_id. destruct (listed_id item) as [v|]; [|discriminate].
  unfold str_eqb. case_bool_decide; [discriminate|]. intros [= ->]. auto.
Qed.

Lemma converts_inv j : converts j = true -> exists n, py_int j = inr n.
Proof. unfold converts. destruct (py_int j); [discriminate|eauto]. Qed.

(** One turn of the merge loop on a well-formed result. *)
Lemma video_of_wf (m : gmap string json) item :
  wf_item item = true ->
  map_Forall (fun _ st => good_stats st = true) m ->
  match candidate_id item with
  | None => video_of m item = inr None
  | Some vid =>
      exists v, video_of m item = inr (Some v) /\ video_id v = vid /\
                (m !! vid = None -> view_count v = 0 /\ like_count v = 0)
  end.
Proof.
  intros Hw Hm.
  destruct (wf_item_inv item Hw) as (kv & idkv & skv & -> & Hid & Hsn & Hv & Hp).
  unfold candidate_id, listed_id, obj_field, video_of.
  cbn [py_get py_index mbind res_bind mret res_ret from_option].
  rewrite Hid. cbn [from_option id py_get mbind res_bind mret res_ret].
  destruct (assoc "videoId" idkv) as [[| | | |vid| |]|] eqn:E; try discriminate Hv;
    [|reflexivity].
  cbn [from_option id truthy]. destruct (str_eqb vid EmptyString) eqn:Ee; [reflexivity|].
  cbn [negb]. rewrite Hsn. cbn [stats_get mbind res_bind mret res_ret py_get from_option].
  assert (Hst : exists st, default (JObj []) (m !! vid) = JObj st /\
                           good_stats (JObj st) = true /\
                           (m !! vid = None -> st = [])).
  { destruct (m !! vid) as [st|] eqn:El.
    - pose proof (Hm vid st El) as Hg. cbn beta in Hg.
      destruct st as [| | | | | |stkv]; try discriminate Hg.
      exists stkv. repeat split; auto. discriminate.
    - exists []. repeat split; auto. }
  destruct Hst as (st & -> & Hg & Hnone).
  cbn [good_stats] in Hg. apply andb_true_iff in Hg as [Hvc Hlc].
  destruct (converts_inv _ Hvc) as (views & Hviews).
  destruct (converts_inv _ Hlc) as (likes & Hlikes).
  cbn [py_get mbind res_bind mret res_ret]. rewrite Hviews, Hlikes.
  cbn [mbind res_bind mret res_ret].
  destruct (assoc "publishedAt" skv) as [[| | | |pa| |]|] eqn:Ep; try discriminate Hp;
    cbn [from_option id py_slice10 mbind res_bind mret res_ret];
    (eexists; split; [reflexivity|]; split; [reflexivity|]);
    intros Hn; specialize (Hnone Hn); subst st; cbv in Hviews, Hlikes;
    cbn [view_count like_count]; split; congruence.
Qed.

(** The merge loop keeps every candidate, in order. *)
Lemma videos_of_wf (m : gmap string json) items :
  forallb wf_item items = true ->
  map_Forall (fun _ st => good_stats st = true) m ->
  exists videos,
    videos_of m items = inr videos /\
    map video_id videos = omap candidate_id items /\
    forall v, In v videos -> m !! video_id v = None ->
              view_count v = 0 /\ like_count v = 0.
Proof.
  intros Hw Hm. induction items as [|item items IH].
  - exists []. split; [reflexivity|]. split; [reflexivity|]. intros ? [].
  - apply andb_true_iff in Hw as [Hi His].
    destruct (IH His) as (videos & Hvs & Hids & Hzero).
    pose proof (video_of_wf m item Hi Hm) as Hone.
    cbn [videos_of omap list_omap mbind res_bind mret res_ret].
    destruct (candidate_id item) as [vid|].
    + destruct Hone as (v & Hv & Hvid & Hz). rewrite Hv.
      cbn [mbind res_bind mret res_ret]. rewrite Hvs.
      exists (v :: videos). split; [reflexivity|]. split.
      * cbn [map]. rewrite Hvid, Hids. reflexivity.
      * intros v' [<-|Hin] Hn; [rewrite Hvid in Hn; auto|auto].
    + rewrite Hone. cbn [mbind res_bind mret res_ret]. rewrite Hvs.
      exists videos. auto.
Qed.



End WithBuiltins.


(** The same run, evaluated: both candidates come back, the first with its
    statistics, the second with zeros. *)
Example fetch_youtube_two_items :
  _fetch_youtube (init stats_world) stats_world "X" [] =
    ([{| title := "X"; video_id := "abc"; channel_name := "Channel";
         view_count := 150000; like_count := 1200;
         publish_date := "2024-05-06";
         url := "https://youtube.com/watch?v=abc" |};
      {| title := "Y"; video_id := "xyz"; channel_name := "Channel";
         view_count := 0; like_count := 0;
         publish_date := "2024-05-06";
         url := "https://youtube.com/watch?v=xyz" |}], []).
Proof. vm_compute. reflexivity. Qed.

End MergeFacts.

(** ** The prompt context *)

Module ContextFacts.
Import Py DataCollector ContextSpec LayoutSpec.

Lemma app_cons (x : ascii) (a b : string) : String x a +:+ b = String x (a +:+ b).
Proof. reflexivity. Qed.

Lemma app_assoc (a b c : string) : (a +:+ b) +:+ c = a +:+ b +:+ c.
Proof.
  induction a as [|x a IH]; [reflexivity|]. rewrite !app_cons, IH. reflexivity.
Qed.

Lemma app_empty_r (a : string) : a +:+ EmptyString = a.
Proof.
  induction a as [|x a IH]; [reflexivity|]. rewrite app_cons, IH. reflexivity.
Qed.

(** The loops append the entries one after the other. *)
Lemma add_each_concat {A} (f : A -> string) (l : list A) : forall ctx,
  add_each f ctx l = ctx +:+ concat_all (map f l).
Proof.
  unfold add_each. induction l as [|x l IH]; intros ctx; simpl.
  - symmetry. apply app_empty_r.
  - rewrite IH. apply app_assoc.
Qed.

Lemma add_videos_from (l : list YouTubeVideo) : forall i ctx,
  fold_left (fun '(i, ctx) v => (i + 1, ctx +:+ video_entry i v)) l (i, ctx) =
  (i + Z.of_nat (length l),
   ctx +:+ concat_all (map (fun p => video_entry (fst p) (snd p)) (numbered i l))).
Proof.
  induction l as [|v l IH]; intros i ctx; simpl fold_left.
  - simpl. rewrite Z.add_0_r, app_empty_r. reflexivity.
  - rewrite IH. f_equal.
    + rewrite length_cons. lia.
    + simpl. apply app_assoc.
Qed.

Lemma add_videos_concat (l : list YouTubeVideo) ctx :
  add_videos ctx l =
  ctx +:+ concat_all (map (fun p => video_entry (fst p) (snd p)) (numbered 1 l)).
Proof. unfold add_videos. rewrite add_videos_from. reflexivity. Qed.

Lemma numbered_length {A} (l : list A) : forall i, length (numbered i l) = length l.
Proof. induction l as [|x l IH]; intros i; simpl; [reflexivity|]. rewrite IH. reflexivity. Qed.

(** The loops of the source, unrolled into the four sections. *)
Lemma to_prompt_context_unrolled (d : CollectedData) :
  to_prompt_context d =
    header d +:+ videos_section (youtube_videos d) +:+
    trends_section (trends d) +:+ questions_section (serp_questions d) +:+
    errors_section (errors d).
Proof.
  unfold to_prompt_context, videos_section, trends_section, questions_section,
    errors_section.
  destruct (youtube_videos d) as [|v vs] eqn:Ev, (trends d) as [|t ts] eqn:Et,
    (serp_questions d) as [|q qs] eqn:Eq, (errors d) as [|e es] eqn:Ee;
    cbn [nonempty]; rewrite ?add_each_concat, ?add_videos_concat, ?app_assoc,
      ?app_empty_r; reflexivity.
Qed.

(** *** The context, line by line *)

Lemma unlines_app (a b : list string) : unlines (a ++ b) = unlines a +:+ unlines b.
Proof.
  unfold unlines. induction a as [|x a IH]; [reflexivity|].
  cbn [app map concat_all fold_right]. fold (concat_all (map (fun line => line +:+ nl) (a ++ b))).
  rewrite IH. symmetry. apply app_assoc.
Qed.

Lemma unlines_cons (x : string) (l : list string) :
  unlines (x :: l) = x +:+ nl +:+ unlines l.
Proof. unfold unlines. cbn [map concat_all fold_right]. apply app_assoc. Qed.

Lemma unlines_nil : unlines [] = EmptyString.
Proof. reflexivity. Qed.

Lemma unlines_concat {A} (f : A -> list string) (l : list A) :
  unlines (concat (map f l)) = concat_all (map (fun x => unlines (f x)) l).
Proof.
  induction l as [|x l IH]; [reflexivity|].
  cbn [map concat]. rewrite unlines_app, IH. reflexivity.
Qed.

Lemma concat_all_ext {A} (f g : A -> string) (l : list A) :
  (forall x, f x = g x) -> concat_all (map f l) = concat_all (map g l).
Proof.
  intros Hfg. induction l as [|x l IH]; [reflexivity|].
  cbn [map concat_all fold_right]. rewrite Hfg. f_equal. exact IH.
Qed.

Lemma header_is_lines (d : CollectedData) : header d = unlines (header_lines d).
Proof.
  unfold header, header_lines. rewrite !unlines_cons, unlines_nil.
  rewrite ?app_assoc, ?app_empty_r. reflexivity.
Qed.

Lemma video_entry_is_lines (p : Z * YouTubeVideo) :
  video_entry (fst p) (snd p) = unlines (video_lines p).
Proof.
  unfold video_entry, video_lines. rewrite !unlines_cons, unlines_nil.
  rewrite ?app_assoc, ?app_empty_r. reflexivity.
Qed.

Lemma trend_entry_is_lines (t : TrendData) : trend_entry t = unlines (trend_lines t).
Proof.
  unfold trend_entry, trend_lines. rewrite !unlines_cons, unlines_nil.
  destruct (rising_queries t); cbn [nonempty];
    rewrite ?app_assoc, ?app_empty_r; reflexivity.
Qed.

Lemma bullets_are_lines (l : list string) :
  concat_all (map bullet l) = unlines (map item_line l).
Proof.
  unfold unlines. rewrite map_map. apply concat_all_ext.
  intros s. unfold bullet, item_line. symmetry. apply app_assoc.
Qed.

Lemma videos_section_is_block videos :
  videos_section videos = unlines (video_block videos).
Proof.
  unfold videos_section, video_block. destruct videos as [|v vs]; [reflexivity|].
  rewrite unlines_cons, unlines_concat.
  rewrite (concat_all_ext _ _ _ video_entry_is_lines). reflexivity.
Qed.

Lemma trends_section_is_block trends :
  trends_section trends = unlines (trend_block trends).
Proof.
  unfold trends_section, trend_block. destruct trends as [|t ts]; [reflexivity|].
  rewrite !unlines_cons, unlines_concat.
  rewrite (concat_all_ext _ _ _ trend_entry_is_lines). reflexivity.
Qed.

Lemma questions_section_is_block questions :
  questions_section questions = unlines (question_block questions).
Proof.
  unfold questions_section, question_block. destruct questions as [|q qs]; [reflexivity|].
  rewrite !unlines_cons, bullets_are_lines. reflexivity.
Qed.

Lemma errors_section_is_block errors :
  errors_section errors = unlines (error_block errors).
Proof.
  unfold errors_section, error_block. destruct errors as [|e es]; [reflexivity|].
  rewrite !unlines_cons, bullets_are_lines. reflexivity.
Qed.

Lemma concat_video_lines_length (l : list (Z * YouTubeVideo)) :
  length (concat (map video_lines l)) = (6 * length l)%nat.
Proof.
  induction l as [|p l IH]; [reflexivity|].
  cbn [map concat]. rewrite length_app, IH. cbn [video_lines length]. lia.
Qed.

Lemma concat_trend_lines_length (l : list TrendData) :
  length (concat (map trend_lines l)) = (5 * length l)%nat.
Proof.
  induction l as [|t l IH]; [reflexivity|].
  cbn [map concat]. rewrite length_app, IH. cbn [trend_lines length]. lia.
Qed.

(** C6. The context is, line by line and every line closed by a newline:
    the header (a blank line, the banner, the topic, the platform, the time
    of collection, a blank line); then the video section, its heading and
    for each of the first ten videos a blank line, the numbered title, the
    channel, the view and like counts, the date of publication and the
    link, or the one marker line when there is no video; then the trend
    section, a blank line, its heading and for every trend a blank line,
    the keyword, the interest with the average, the direction and the
    first five rising queries, or the marker line; then the question
    section, a blank line, its heading and the first ten questions, or the
    marker line; then the error section, a blank line, its heading and
    every error as it was recorded.  The error section has no line at all
    exactly when there is no error. *)
Theorem to_prompt_context_sections (d : CollectedData) :
  to_prompt_context d =
    unlines (header_lines d ++ video_block (youtube_videos d) ++
             trend_block (trends d) ++ question_block (serp_questions d) ++
             error_block (errors d)) /\
  (error_block (errors d) = [] <-> errors d = []) /\
  (forall e, In e (errors d) -> In ("- " +:+ e) (error_block (errors d))) /\
  length (video_block (youtube_videos d)) =
    (1 + 6 * Nat.min 10 (length (youtube_videos d)))%nat /\
  length (trend_block (trends d)) = (2 + 5 * length (trends d))%nat /\
  length (question_block (serp_questions d)) =
    (2 + Nat.min 10 (length (serp_questions d)))%nat.
Proof.
  split.
  { rewrite to_prompt_context_unrolled, !unlines_app.
    rewrite <- header_is_lines, <- videos_section_is_block, <- trends_section_is_block,
      <- questions_section_is_block, <- errors_section_is_block. reflexivity. }
  split.
  { unfold error_block. destruct (errors d); split; intros; try reflexivity;
      discriminate. }
  split.
  { intros e Hin. unfold error_block. destruct (errors d) as [|e0 es] eqn:Ee;
      [destruct Hin|].
    right. right. apply (in_map item_line) in Hin. exact Hin. }
  split.
  { unfold video_block. destruct (youtube_videos d) as [|v vs] eqn:Ev; [reflexivity|].
    cbn [length]. rewrite concat_video_lines_length, numbered_length, length_take.
    cbn [length]. lia. }
  split.
  { unfold trend_block. destruct (trends d) as [|t ts]; [reflexivity|].
    cbn [length]. rewrite concat_trend_lines_length. cbn [length]. lia. }
  unfold question_block. destruct (serp_questions d) as [|q qs]; [reflexivity|].
  cbn [length]. rewrite length_map, length_take. cbn [length]. lia.
Qed.

(** What an entry shows of its record. *)
Lemma video_entry_fields (i : Z) (v : YouTubeVideo) :
  video_entry i v =
    nl +:+ dec i +:+ ". " +:+ dq +:+ title v +:+ dq +:+ nl +:+
    "   Channel: " +:+ channel_name v +:+ nl +:+
    "   Views: " +:+ fmt_comma (view_count v) +:+
    " | Likes: " +:+ fmt_comma (like_count v) +:+ nl +:+
    "   Published: " +:+ publish_date v +:+ nl +:+
    "   URL: " +:+ url v +:+ nl.
Proof. reflexivity. Qed.

End ContextFacts.

Module NumeralFacts.
Import Py ContextSpec.

(** *** Decimal numerals read back as the number written *)





(** *** Thousands separators *)










(** *** Rounding to an integer *)

Lemma rne_div_nearest (n d : Z) :
  0 < d -> 2 * Z.abs (n - B64.rne_div n d * d) <= d.
Proof.
  intros Hd. unfold B64.rne_div.
  pose proof (Z.div_mod n d ltac:(lia)) as Hn.
  pose proof (Z.mod_pos_bound n d Hd) as Hr.
  destruct (Z.compare_spec (2 * (n mod d)) d); try destruct (Z.even (n / d)); nia.
Qed.



End NumeralFacts.

Module GroundingFacts.
Import Py DataCollector Samples ContextSpec ContextFacts NumeralFacts.


Lemma occurs_app_l (x s a : string) : occurs x s -> occurs x (a +:+ s).
Proof.
  intros (pre & post & ->). exists (a +:+ pre), post. rewrite app_assoc. reflexivity.
Qed.

Lemma occurs_app_r (x s b : string) : occurs x s -> occurs x (s +:+ b).
Proof.
  intros (pre & post & ->). exists pre, (post +:+ b). rewrite !app_assoc. reflexivity.
Qed.

Lemma occurs_trans (x y s : string) : occurs x y -> occurs y s -> occurs x s.
Proof.
  intros Hxy (pre & post & ->). apply occurs_app_l, occurs_app_r, Hxy.
Qed.



Lemma take_In {A} (x : A) (n : nat) (l : list A) : In x (take n l) -> In x l.
Proof.
  revert l. induction n as [|n IH]; intros [|y l]; simpl; try tauto.
  intros [->|Hin]; [left; reflexivity|right; apply IH, Hin].
Qed.





(** The scenario of the specification: a video with 150000 views and a
    trend at 80 against an average of 50 give a context with "150,000" and
    "RISING". *)
Example context_of_scenario :
  let v := {| title := "X"; video_id := "abc"; channel_name := "Channel";
              view_count := 150000; like_count := 1200;
              publish_date := "2024-05-06";
              url := "https://youtube.com/watch?v=abc" |} in
  let t := {| keyword := "X"; current_interest := 80;
              average_interest := B64.of_Z 50;
              trend_direction := direction_of 80 (B64.of_Z 50);
              rising_queries := [] |} in
  let d := {| topic := "X"; platform := "youtube";
              collected_at := "2025-01-01 00:00:00";
              youtube_videos := [v]; trends := [t]; serp_questions := [];
              errors := [] |} in
  contains "150,000" (to_prompt_context d) = true /\
  contains "RISING" (to_prompt_context d) = true.
Proof. split; vm_compute; reflexivity. Qed.

(** C9. The context is a function of the snapshot alone: two calls on the
    same snapshot give the same text, and so do calls on two snapshots with
    the same fields. *)
Theorem to_prompt_context_deterministic (d : CollectedData) :
  (let first := to_prompt_context d in
   let second := to_prompt_context d in
   first = second) /\
  (forall d',
     topic d' = topic d -> platform d' = platform d ->
     collected_at d' = collected_at d ->
     youtube_videos d' = youtube_videos d -> trends d' = trends d ->
     serp_questions d' = serp_questions d -> errors d' = errors d ->
     to_prompt_context d' = to_prompt_context d).
Proof.
  split; [reflexivity|].
  intros [t p c y tr q e]. destruct d as [t' p' c' y' tr' q' e']. simpl.
  intros -> -> -> -> -> -> ->. reflexivity.
Qed.



Lemma to_prompt_context_deterministic_witness :
  to_prompt_context (with_errors [] snapshot_50_6) = to_prompt_context snapshot_50_6.
Proof.
  apply (proj2 (to_prompt_context_deterministic snapshot_50_6));
    reflexivity.
Defined.

End GroundingFacts.

(** ** The engagement estimate *)

Module EstimateFacts.
Import Py B64 EngagementAnalyzer EstimateSpec ContextFacts NumeralFacts.

(** *** Comparisons *)

Lemma SFcompare_antisym (x y : float) :
  SFcompare y x = option_map CompOpp (SFcompare x y).
Proof.
  destruct x as [sx|sx| |sx mx ex], y as [sy|sy| |sy my ey]; simpl;
    try reflexivity; try (destruct sx; reflexivity); try (destruct sy; reflexivity);
    try (destruct sx, sy; reflexivity).
  destruct sx, sy; simpl; try reflexivity; f_equal;
    rewrite (Z.compare_antisym ex ey);
    destruct (ex ?= ey); simpl; try reflexivity;
    rewrite ?CompOpp_involutive, ?Pos.compare_cont_antisym; reflexivity.
Qed.

Lemma not_ltb_leb (x y : float) :
  ltb y x = false -> SFcompare x y <> None -> leb x y = true.
Proof.
  unfold ltb, leb, SFltb, SFleb. rewrite (SFcompare_antisym x y).
  destruct (SFcompare x y) as [[| |]|]; simpl; congruence.
Qed.

Lemma ltb_leb (x y : float) : ltb x y = true -> leb x y = true.
Proof.
  unfold ltb, leb, SFltb, SFleb. destruct (SFcompare x y) as [[| |]|]; congruence.
Qed.

(** The clamp lands in [0.5, 15.0], whatever it is given. *)
Lemma clamp_bounds (x : float) :
  leb f0_5 (clamp x) = true /\ leb (clamp x) f15_0 = true.
Proof.
  unfold clamp, py_max, py_min.
  destruct (ltb f15_0 x) eqn:Hhi.
  - split; reflexivity.
  - destruct (ltb f0_5 x) eqn:Hlo.
    + split; [apply ltb_leb, Hlo|]. apply not_ltb_leb; [exact Hhi|].
      destruct x as [s|s| |s m e]; [destruct s; discriminate|destruct s; discriminate|discriminate Hlo|].
      unfold f15_0. cbn [SFcompare]. destruct s; discriminate.
    + split; reflexivity.
Qed.

(** *** The values that reach the product *)

Lemma lookup_default_in {A} (k : string) (table : list (string * A)) (d : A) :
  In (lookup_default k table d) (map snd table ++ [d]).
Proof.
  induction table as [|[k' v] table IH]; simpl; [left; reflexivity|].
  destruct (str_eqb k k'); [left; reflexivity|right; exact IH].
Qed.

Lemma baseline_in (platform : string) : In (_get_platform_baseline platform) baselines.
Proof.
  unfold _get_platform_baseline.
  match goal with
  | |- In (lookup_default ?k ?table ?d) _ => exact (lookup_default_in k table d)
  end.
Qed.

Lemma niche_multiplier_in (niche platform : string) :
  In (_get_niche_multiplier niche platform) niche_multipliers.
Proof.
  unfold _get_niche_multiplier, niche_multipliers.
  repeat match goal with |- context [if ?b then _ else _] => destruct b end;
    simpl; tauto.
Qed.

Lemma keyword_trend_score_in (topic niche : string) :
  In (_keyword_trend_score topic niche) trend_scores.
Proof.
  unfold _keyword_trend_score, trend_scores.
  repeat match goal with |- context [if ?b then _ else _] => destruct b end;
    simpl; tauto.
Qed.

Lemma check_youtube_trends_in (w : World) (topic api_key : string) :
  positive_score (_check_youtube_trends w topic api_key) = true ->
  In (_check_youtube_trends w topic api_key) trend_scores.
Proof.
  unfold _check_youtube_trends, youtube_trends_try.
  unfold mbind, res_bind, mret, res_ret.
  destruct (requests_get w _ _) as [e|[status body]]; [discriminate|].
  destruct (status =? 200); [|discriminate].
  destruct body as [e|data]; [discriminate|].
  destruct (py_get data "items" (JArr [])) as [e|items]; [discriminate|].
  destruct (py_len items) as [e|n]; [discriminate|].
  intros _. unfold trend_scores.
  destruct (8 <=? n); [simpl; tauto|]. destruct (5 <=? n); simpl; tauto.
Qed.

Lemma check_google_trends_in (w : World) (topic niche api_key : string) :
  positive_score (_check_google_trends w topic niche api_key) = true ->
  In (_check_google_trends w topic niche api_key) trend_scores.
Proof.
  unfold _check_google_trends.
  destruct (requests_get w _ _) as [e|[status body]]; [discriminate|].
  destruct (status =? 200); [|discriminate].
  intros _. unfold trend_scores. simpl. tauto.
Qed.

Lemma trend_score_in (w : World) (topic niche : string) :
  In (_get_trend_score w topic niche) trend_scores.
Proof.
  unfold _get_trend_score.
  destruct (key_set (getenv w "YOUTUBE_API_KEY")) as [yk|].
  - destruct (positive_score (_check_youtube_trends w topic yk)) eqn:Ey.
    + apply check_youtube_trends_in, Ey.
    + destruct (key_set (getenv w "SERP_API_KEY")) as [sk|];
        [|apply keyword_trend_score_in].
      destruct (positive_score (_check_google_trends w topic niche sk)) eqn:Es;
        [apply check_google_trends_in, Es|apply keyword_trend_score_in].
  - destruct (key_set (getenv w "SERP_API_KEY")) as [sk|];
      [|apply keyword_trend_score_in].
    destruct (positive_score (_check_google_trends w topic niche sk)) eqn:Es;
      [apply check_google_trends_in, Es|apply keyword_trend_score_in].
Qed.

Lemma quality_score_of (has_hook has_visuals : bool) (duration platform : string) :
  exists bonus,
    _calculate_quality_score has_hook has_visuals duration platform =
    quality_of has_hook has_visuals bonus.
Proof.
  unfold _calculate_quality_score, quality_of.
  destruct (negb (str_eqb duration EmptyString)); [|exists false; reflexivity].
  destruct (existsb _ _).
  - destruct (_ || _); [exists true|exists false]; reflexivity.
  - destruct (contains "youtube" _); [|exists false; reflexivity].
    destruct (_ || _); [exists true|exists false]; reflexivity.
Qed.

Lemma quality_score_in (has_hook has_visuals : bool) (duration platform : string) :
  In (_calculate_quality_score has_hook has_visuals duration platform) qualities.
Proof.
  destruct (quality_score_of has_hook has_visuals duration platform) as [bonus ->].
  unfold qualities. destruct has_hook, has_visuals, bonus; simpl; tauto.
Qed.

(** The multiplier stays below its cap; the cap itself is never reached. *)
Lemma quality_of_capped (has_hook has_visuals bonus : bool) :
  leb (quality_of has_hook has_visuals bonus) f1_6 = true /\
  ltb (quality_of has_hook has_visuals bonus) f1_6 = true.
Proof. destruct has_hook, has_visuals, bonus; split; vm_compute; reflexivity. Qed.

(** Every choice of the four factors passes the check. *)
Lemma all_factors_ok :
  forallb (fun b => forallb (fun n => forallb (fun t => forallb (fun q =>
    factors_ok b n t q) qualities) trend_scores) niche_multipliers) baselines = true.
Proof. vm_compute. reflexivity. Qed.

Lemma factors_ok_in (b n t q : float) :
  In b baselines -> In n niche_multipliers -> In t trend_scores -> In q qualities ->
  factors_ok b n t q = true.
Proof.
  intros Hb Hn Ht Hq. pose proof all_factors_ok as H.
  rewrite forallb_forall in H. specialize (H b Hb).
  rewrite forallb_forall in H. specialize (H n Hn).
  rewrite forallb_forall in H. specialize (H t Ht).
  rewrite forallb_forall in H. exact (H q Hq).
Qed.

(** *** Rounding to one decimal *)

Lemma py_round1_tenths (m : positive) (e : Z) :
  let x := S754_finite false m e in
  let t := round_scaled 1 m e in
  py_round1 x = div (of_Z t) (of_Z 10) /\ nearest_tenths x t.
Proof.
  cbv zeta. split.
  - unfold py_round1. destruct (round_scaled 1 m e =? 0) eqn:E.
    + apply Z.eqb_eq in E. rewrite E. reflexivity.
    + reflexivity.
  - unfold nearest_tenths, round_scaled. change (10 ^ Z.of_nat 1) with 10.
    destruct e as [|p|p]; try reflexivity.
    apply rne_div_nearest. apply Z.pow_pos_nonneg; lia.
Qed.

Lemma positive_finite_inv (x : float) :
  positive_finite x = true -> exists m e, x = S754_finite false m e.
Proof. destruct x as [| | |[|] m e]; try discriminate. eauto. Qed.

Lemma round1_of_positive (x : float) :
  positive_finite x = true ->
  exists t, nearest_tenths x t /\ py_round1 x = div (of_Z t) (of_Z 10).
Proof.
  intros (m & e & ->)%positive_finite_inv.
  destruct (py_round1_tenths m e) as [H1 H2]. eauto.
Qed.

Section Run.
Context `{!Builtins}.
Variables (w : World) (topic platform niche : string).
Variables (has_hook has_visuals : bool) (video_duration : string).

Let e := estimate w topic platform niche has_hook has_visuals video_duration.

Lemma estimate_factors_ok :
  factors_ok (baseline e) (niche_multiplier e) (trend_score e) (quality_score e) = true.
Proof.
  apply factors_ok_in.
  - apply baseline_in.
  - apply niche_multiplier_in.
  - apply trend_score_in.
  - apply quality_score_in.
Qed.

Lemma estimated_rate_clamp :
  estimated_rate e =
  clamp (mul (mul (mul (baseline e) (niche_multiplier e)) (trend_score e))
             (quality_score e)).
Proof. reflexivity. Qed.

(** The text starts with the two rounded bounds; the fallback text is
    never produced. *)
Lemma run_shows_bounds :
  exists rest,
    _run w topic platform niche has_hook has_visuals video_duration =
    "Estimated Engagement Rate: " +:+ float_str (lower_bound e) +:+ "% - " +:+
    float_str (upper_bound e) +:+ "%" +:+ rest.
Proof.
  pose proof estimate_factors_ok as Hok. unfold factors_ok in Hok.
  rewrite <- estimated_rate_clamp in Hok.
  apply andb_true_iff in Hok as [_ Htr]. apply bool_decide_eq_true in Htr.
  destruct Htr as [percent Hp].
  unfold _run. fold e. unfold report. rewrite Hp. cbn [mbind option_bind].
  repeat match goal with |- context [if ?b then _ else _] => destruct b end;
    eexists; rewrite !app_assoc; reflexivity.
Qed.

(** C10. The estimated rate is the product clamped into [0.5, 15.0]; the
    two bounds shown are 0.85 and 1.15 times that rate, each rounded to the
    nearest tenth; the quality multiplier in the product is at most 1.6.
    This holds for every input: the fallback text is never the answer. *)
Theorem estimate_within_bounds :
  estimated_rate e =
    py_max f0_5 (py_min (mul (mul (mul (baseline e) (niche_multiplier e))
                                  (trend_score e)) (quality_score e)) f15_0) /\
  leb f0_5 (estimated_rate e) = true /\ leb (estimated_rate e) f15_0 = true /\
  (exists tl tu,
     nearest_tenths (mul (estimated_rate e) f0_85) tl /\
     lower_bound e = div (of_Z tl) (of_Z 10) /\
     nearest_tenths (mul (estimated_rate e) f1_15) tu /\
     upper_bound e = div (of_Z tu) (of_Z 10)) /\
  quality_score e =
    _calculate_quality_score has_hook has_visuals video_duration platform /\
  leb (quality_score e) f1_6 = true /\
  (exists rest,
     _run w topic platform niche has_hook has_visuals video_duration =
     "Estimated Engagement Rate: " +:+ float_str (lower_bound e) +:+ "% - " +:+
     float_str (upper_bound e) +:+ "%" +:+ rest).
Proof.
  split; [reflexivity|].
  pose proof (clamp_bounds (mul (mul (mul (baseline e) (niche_multiplier e))
                                     (trend_score e)) (quality_score e))) as [Hlo Hhi].
  rewrite <- estimated_rate_clamp in Hlo, Hhi.
  split; [exact Hlo|]. split; [exact Hhi|]. split.
  - pose proof estimate_factors_ok as Hok. unfold factors_ok in Hok.
    rewrite <- estimated_rate_clamp in Hok.
    apply andb_true_iff in Hok as [[Hl Hu]%andb_true_iff _].
    destruct (round1_of_positive _ Hl) as (tl & Hnl & Hrl).
    destruct (round1_of_positive _ Hu) as (tu & Hnu & Hru).
    exists tl, tu. repeat split; assumption.
  - split; [reflexivity|]. split; [|exact run_shows_bounds].
    change (quality_score e)
      with (_calculate_quality_score has_hook has_visuals video_duration platform).
    destruct (quality_score_of has_hook has_visuals video_duration platform)
      as [bonus ->].
    apply quality_of_capped.
Qed.

End Run.

(** A short video on TikTok about an AI topic: every factor is at its
    best, the product is above 15 and the rate is the upper end of the
    clamp. *)
Example estimate_tiktok_ai :
  let e := estimate offline "new ai hack" "tiktok" "gaming" true true "30 seconds" in
  baseline e = f5_5 /\ niche_multiplier e = f1_4 /\ trend_score e = f1_3 /\
  quality_score e = quality_of true true true /\
  estimated_rate e = f15_0 /\
  lower_bound e = lit 128 1 /\ upper_bound e = lit 172 1.
Proof. repeat split; vm_compute; reflexivity. Qed.

End EstimateFacts.

(** ** The collector: what the error list and the records obey *)

Module CollectorFacts.
Import Py DataCollector Samples Shapes MoreSpec FetchFacts CollectedDataFacts.

Section WithBuiltins.
Context `{!Builtins}.

(** *** The error list is only appended to *)

Ltac frame_body :=
  unfold mbind, res_bind, mret, res_ret, raise; cbn beta;
  repeat match goal with
         | |- context [match ?x with inl _ => _ | inr _ => _ end] =>
             destruct x eqn:?
         | |- context [if ?x then _ else _] => destruct x eqn:?
         end;
  unfold extend; simplify_eq; cbn [fst snd]; rewrite ?app_nil_r, ?app_nil_l;
  try reflexivity.

Lemma youtube_stats_frame w key items errors :
  youtube_stats w key items errors =
  match youtube_stats w key items [] with
  | inr r => inr (extend errors r)
  | inl e => inl e
  end.
Proof. unfold youtube_stats. frame_body. Qed.

Lemma youtube_try_frame w key query errors :
  youtube_try w key query errors =
  match youtube_try w key query [] with
  | inr r => inr (extend errors r)
  | inl e => inl e
  end.
Proof.
  unfold youtube_try.
  unfold mbind, res_bind, mret, res_ret, raise.
  destruct (http_get w search_url _) as [e|search_data]; [reflexivity|].
  destruct (py_in "error" search_data) as [e|[|]]; [reflexivity| |].
  - destruct (py_index search_data "error") as [e|err]; [reflexivity|].
    destruct (py_get err "message" _); reflexivity.
  - destruct (py_get search_data "items" _) as [e|items]; [reflexivity|].
    destruct (negb (truthy items)); [reflexivity|].
    destruct (py_iter items) as [e|items_l]; [reflexivity|].
    apply youtube_stats_frame.
Qed.

Lemma fetch_youtube_frame self w query errors :
  _fetch_youtube self w query errors = extend errors (_fetch_youtube self w query []).
Proof.
  unfold _fetch_youtube. destruct (key_set _) as [key|]; [|reflexivity].
  rewrite youtube_try_frame. destruct (youtube_try w key query []); reflexivity.
Qed.

Lemma fetch_trends_frame w topic errors :
  _fetch_trends w topic errors = extend errors (_fetch_trends w topic []).
Proof.
  unfold _fetch_trends. destruct (negb _); [reflexivity|].
  unfold trends_try. cbv zeta.
  unfold mbind, res_bind, mret, res_ret, raise.
  destruct (payload _); [reflexivity|].
  destruct (interest_over_time _) as [e|column]; [reflexivity|].
  destruct (related_queries _) as [e|related]; [reflexivity|].
  destruct (negb (nonempty column)); [reflexivity|].
  destruct related as [[e|qs]|]; try reflexivity;
    destruct (iloc_last column); unfold extend; cbn [fst snd];
    rewrite ?app_nil_r; reflexivity.
Qed.

Lemma fetch_serp_frame self w query errors :
  _fetch_serp self w query errors = extend errors (_fetch_serp self w query []).
Proof.
  unfold _fetch_serp. destruct (key_set _) as [key|]; [|reflexivity].
  unfold serp_try.
  unfold mbind, res_bind, mret, res_ret, raise.
  destruct (http_get w serp_url _) as [e|data]; [reflexivity|].
  destruct (py_in "error" data) as [e|[|]]; [reflexivity| |].
  - destruct (py_index data "error"); reflexivity.
  - destruct (py_get data "related_questions" _) as [e|related]; [reflexivity|].
    destruct (py_iter related) as [e|items]; [reflexivity|].
    destruct (questions_of items); unfold extend; cbn [fst snd];
      rewrite ?app_nil_r; reflexivity.
Qed.

(** X1. The fetch functions only ever append to the error list they are
    handed: what is returned, and what is appended, does not depend on the
    errors reported before.  A call with any list gives the records of the
    call with the empty list, and that list followed by the errors of the
    call with the empty list. *)
Theorem fetch_errors_append_only self w query errors :
  _fetch_youtube self w query errors =
    extend errors (_fetch_youtube self w query []) /\
  _fetch_trends w query errors = extend errors (_fetch_trends w query []) /\
  _fetch_serp self w query errors = extend errors (_fetch_serp self w query []).
Proof.
  split; [apply fetch_youtube_frame|].
  split; [apply fetch_trends_frame|apply fetch_serp_frame].
Qed.

(** *** The snapshot, provider by provider *)

Lemma collect_all_split self w topic platform :
  collect_all self w topic platform =
  {| topic := topic; platform := platform; collected_at := now w;
     youtube_videos := fst (_fetch_youtube self w topic []);
     trends := fst (_fetch_trends w topic []);
     serp_questions := fst (_fetch_serp self w topic []);
     errors := snd (_fetch_youtube self w topic []) ++
               snd (_fetch_trends w topic []) ++
               snd (_fetch_serp self w topic []) |}.
Proof.
  unfold collect_all.
  destruct (_fetch_youtube self w topic []) as [videos ey] eqn:Ey.
  rewrite (fetch_trends_frame w topic ey).
  destruct (_fetch_trends w topic []) as [trends et] eqn:Et.
  unfold extend at 1. cbn [fst snd].
  rewrite (fetch_serp_frame self w topic (ey ++ et)).
  destruct (_fetch_serp self w topic []) as [questions es] eqn:Es.
  unfold extend. cbn [fst snd]. rewrite <- (assoc_L (++)). reflexivity.
Qed.

(** X2. The three providers are independent: each list of the snapshot is
    what its fetch function returns when run on its own, whatever the
    other two did, and the error list is the errors of YouTube, then those
    of Google Trends, then those of the search page. *)
Theorem collect_all_providers_independent self w topic platform :
  let d := collect_all self w topic platform in
  youtube_videos d = fst (_fetch_youtube self w topic []) /\
  trends d = fst (_fetch_trends w topic []) /\
  serp_questions d = fst (_fetch_serp self w topic []) /\
  errors d = snd (_fetch_youtube self w topic []) ++
             snd (_fetch_trends w topic []) ++
             snd (_fetch_serp self w topic []) /\
  DataCollector.topic d = topic /\ DataCollector.platform d = platform /\
  collected_at d = now w.
Proof. cbv zeta. rewrite collect_all_split. repeat split. Qed.

(** *** How many errors a snapshot holds *)

Lemma one_or_none_length {A} (r : list A * list string) :
  one_or_none [] r ->
  (length (snd r) <= 1)%nat /\ (length (snd r) = 1%nat -> fst r = []).
Proof.
  intros [Hr|[Hf [msg Hr]]]; rewrite Hr; simpl.
  - split; [lia|discriminate].
  - split; [lia|auto].
Qed.

(** The trends provider is never silent: no record means an error. *)
Lemma fetch_trends_reports w topic errors :
  fst (_fetch_trends w topic errors) = [] ->
  exists msg, snd (_fetch_trends w topic errors) = errors ++ [msg].
Proof.
  unfold _fetch_trends. destruct (negb _); [eexists; reflexivity|].
  unfold trends_try. cbv zeta.
  unfold mbind, res_bind, mret, res_ret, raise.
  destruct (payload _); [eexists; reflexivity|].
  destruct (interest_over_time _) as [e|column]; [eexists; reflexivity|].
  destruct (related_queries _) as [e|related]; [eexists; reflexivity|].
  destruct (negb (nonempty column)); [eexists; reflexivity|].
  destruct related as [[e|qs]|]; try (eexists; reflexivity);
    destruct (iloc_last column); try (eexists; reflexivity); discriminate.
Qed.

(** X3. A snapshot holds at most three errors, one per provider.  With
    three errors it has no data; and a snapshot without data holds at least
    one error, so the failure that [run] reports is never without a
    reason. *)
Theorem collect_all_error_count self w topic platform :
  let d := collect_all self w topic platform in
  (length (errors d) <= 3)%nat /\
  (length (errors d) = 3%nat -> has_data d = false) /\
  (has_data d = false -> errors d <> []).
Proof.
  cbv zeta. rewrite collect_all_split. cbn [errors].
  pose proof (one_or_none_length _ (fetch_youtube_errors self w topic [])) as [Hy Hy'].
  pose proof (one_or_none_length _ (fetch_trends_errors w topic [])) as [Ht Ht'].
  pose proof (one_or_none_length _ (fetch_serp_errors self w topic [])) as [Hs Hs'].
  rewrite !length_app. split; [lia|]. split.
  - intros Hn. unfold has_data, py_or. cbn [youtube_videos trends serp_questions].
    rewrite Hy', Ht', Hs' by lia. reflexivity.
  - intros Hd Hnil.
    assert (Htr : fst (_fetch_trends w topic []) = []).
    { revert Hd. unfold has_data, py_or.
      cbn [youtube_videos trends serp_questions bool_of].
      destruct (fst (_fetch_youtube self w topic [])); [|discriminate].
      cbn [nonempty bool_of].
      destruct (fst (_fetch_trends w topic [])); [reflexivity|discriminate]. }
    destruct (fetch_trends_reports w topic [] Htr) as [msg Hmsg].
    rewrite Hmsg in Hnil.
    destruct (snd (_fetch_youtube self w topic [])); discriminate.
Qed.

End WithBuiltins.

End CollectorFacts.

(** ** The records of the collector *)

Module RecordFacts.
Import Py DataCollector Samples Shapes MoreSpec FetchFacts CollectedDataFacts MergeFacts.

Section WithBuiltins.
Context `{!Builtins}.

(** *** The identifiers and links of the videos *)

(** Every identifier listed by phase 1 is a string once [join] accepted
    them. *)
Lemma listed_ids_are_strings items : forall ids ss item idv vid,
  video_ids_of items = inr ids -> strs_of ids = inr ss ->
  In item items ->
  py_get item "id" (JObj []) = inr idv ->
  py_get idv "videoId" JNull = inr vid ->
  truthy vid = true ->
  exists s, vid = JStr s.
Proof.
  induction items as [|item0 items IH]; intros ids ss item idv vid Hids Hss Hin Hid Hvid Ht;
    [destruct Hin|].
  cbn [video_ids_of] in Hids. unfold mbind, res_bind, mret, res_ret in Hids.
  destruct (py_get item0 "id" (JObj [])) as [e|idv0] eqn:E0; [discriminate|].
  destruct (py_in "videoId" idv0) as [e|b] eqn:Eb; [discriminate|].
  destruct Hin as [->|Hin].
  - rewrite Hid in E0. injection E0 as <-.
    destruct idv as [| | | | | |kv]; try discriminate Hvid.
    cbn [py_get py_in mret res_ret] in Hvid, Eb.
    injection Hvid as <-. injection Eb as <-.
    destruct (assoc "videoId" kv) as [vid|] eqn:Ea; [|discriminate Ht].
    rewrite bool_decide_eq_true_2 in Hids by eauto.
    destruct (py_index item "id") as [e|i] eqn:Ei; [discriminate|].
    assert (i = JObj kv) as ->.
    { destruct item as [| | | | | |ikv]; try discriminate Hid.
      cbn [py_get py_index mret res_ret] in Hid, Ei.
      destruct (assoc "id" ikv); [|discriminate Ei].
      cbn in Hid. congruence. }
    cbn [py_index] in Hids. rewrite Ea in Hids. cbn [mret res_ret] in Hids.
    destruct (video_ids_of items) as [e|vs]; [discriminate|].
    injection Hids as <-. cbn [from_option id].
    cbn [strs_of] in Hss. destruct vid; try discriminate Hss. eauto.
  - destruct b.
    + destruct (py_index item0 "id") as [e|i]; [discriminate|].
      destruct (py_index i "videoId") as [e|v]; [discriminate|].
      destruct (video_ids_of items) as [e|vs] eqn:Evs; [discriminate|].
      injection Hids as <-.
      cbn [strs_of] in Hss. destruct v; try discriminate Hss.
      unfold mbind, res_bind in Hss.
      destruct (strs_of vs) as [e|ss'] eqn:Ess; [discriminate|].
      exact (IH vs ss' item idv vid eq_refl Ess Hin Hid Hvid Ht).
    + exact (IH ids ss item idv vid Hids Hss Hin Hid Hvid Ht).
Qed.

Lemma video_of_linked m item v :
  video_of m item = inr (Some v) ->
  url v = "https://youtube.com/watch?v=" +:+ video_id v /\
  exists idv vid,
    py_get item "id" (JObj []) = inr idv /\
    py_get idv "videoId" JNull = inr vid /\
    truthy vid = true /\ video_id v = py_str vid.
Proof.
  unfold video_of. unfold mbind, res_bind, mret, res_ret.
  destruct (py_get item "id" (JObj [])) as [e|idv]; [discriminate|].
  destruct (py_get idv "videoId" JNull) as [e|vid] eqn:Evid; [discriminate|].
  destruct (truthy vid) eqn:Et; [|discriminate]. cbn [negb].
  repeat match goal with
         | |- context [match ?x with inl _ => _ | inr _ => _ end] =>
             destruct x; [discriminate|]
         end.
  intros [= <-]. split; [reflexivity|].
  exists idv, vid. repeat split; assumption || reflexivity.
Qed.

Lemma videos_of_In m items : forall videos v,
  videos_of m items = inr videos -> In v videos ->
  exists item, In item items /\ video_of m item = inr (Some v).
Proof.
  induction items as [|item items IH]; intros videos v Hvs Hin.
  - injection Hvs as <-. destruct Hin.
  - cbn [videos_of] in Hvs. unfold mbind, res_bind, mret, res_ret in Hvs.
    destruct (video_of m item) as [e|o] eqn:Eo; [discriminate|].
    destruct (videos_of m items) as [e|vs]; [discriminate|].
    injection Hvs as <-.
    destruct o as [v0|]; cbn [from_option] in Hin.
    + destruct Hin as [<-|Hin].
      * exists item. split; [left; reflexivity|exact Eo].
      * destruct (IH vs v eq_refl Hin) as (it & Hit & Hv). exists it. split; [right|]; auto.
    + destruct (IH vs v eq_refl Hin) as (it & Hit & Hv). exists it. split; [right|]; auto.
Qed.

Lemma youtube_stats_videos w key items errors videos es v :
  youtube_stats w key items errors = inr (videos, es) -> In v videos ->
  video_id v <> EmptyString /\ url v = "https://youtube.com/watch?v=" +:+ video_id v.
Proof.
  unfold youtube_stats. unfold mbind, res_bind, mret, res_ret.
  destruct (video_ids_of items) as [e|ids] eqn:Eids; [discriminate|].
  destruct (negb (nonempty ids)); [intros [= <- <-] []|].
  destruct (strs_of ids) as [e|ss] eqn:Ess; [discriminate|].
  destruct (http_get w stats_url _) as [e|stats_data]; [discriminate|].
  destruct (py_get stats_data "items" _) as [e|stats_items]; [discriminate|].
  destruct (py_iter stats_items) as [e|stats_l]; [discriminate|].
  destruct (stats_map_of stats_l _) as [e|m]; [discriminate|].
  destruct (videos_of m items) as [e|vs] eqn:Evs; [discriminate|].
  intros [= <- <-] Hin.
  destruct (videos_of_In m items vs v Evs Hin) as (item & Hitem & Hv).
  destruct (video_of_linked m item v Hv) as (Hl & idv & vid & Hid & Hvid & Ht & Hs).
  split; [|exact Hl].
  destruct (listed_ids_are_strings items ids ss item idv vid Eids Ess Hitem Hid Hvid Ht)
    as [s ->].
  rewrite Hs. cbn [py_str]. cbn [truthy] in Ht. intros ->. discriminate Ht.
Qed.

(** X4. Every video that [_fetch_youtube] returns has an identifier that
    is not empty, and its link is the watch address of that identifier. *)
Theorem fetch_youtube_video_links self w query errors v :
  In v (fst (_fetch_youtube self w query errors)) ->
  video_id v <> EmptyString /\
  url v = "https://youtube.com/watch?v=" +:+ video_id v.
Proof.
  unfold _fetch_youtube. destruct (key_set _) as [key|]; [|intros []].
  destruct (youtube_try w key query errors) as [e|[videos es]] eqn:E; [intros []|].
  cbn [fst]. revert E. unfold youtube_try. unfold mbind, res_bind, mret, res_ret.
  destruct (http_get w search_url _) as [e|search_data]; [discriminate|].
  destruct (py_in "error" search_data) as [e|[|]]; [discriminate| |].
  - destruct (py_index search_data "error") as [e|err]; [discriminate|].
    destruct (py_get err "message" _); [discriminate|]. intros [= <- <-] [].
  - destruct (py_get search_data "items" _) as [e|items]; [discriminate|].
    destruct (negb (truthy items)); [intros [= <- <-] []|].
    destruct (py_iter items) as [e|items_l]; [discriminate|].
    intros Hst Hin. exact (youtube_stats_videos w key items_l errors videos es v Hst Hin).
Qed.

End WithBuiltins.

Lemma fetch_youtube_video_links_witness :
  In {| title := "Y"; video_id := "xyz"; channel_name := "Channel";
        view_count := 0; like_count := 0; publish_date := "2024-05-06";
        url := "https://youtube.com/watch?v=xyz" |}
     (fst (_fetch_youtube (init stats_world) stats_world "X" [])) /\
  "xyz" <> EmptyString.
Proof.
  split; [vm_compute; right; left; reflexivity|].
  refine (proj1 (@fetch_youtube_video_links sample_builtins
                   (init stats_world) stats_world "X" []
                   {| title := "Y"; video_id := "xyz"; channel_name := "Channel";
                      view_count := 0; like_count := 0; publish_date := "2024-05-06";
                      url := "https://youtube.com/watch?v=xyz" |} _)).
  vm_compute; right; left; reflexivity.
Defined.

End RecordFacts.

Module TrendRecordFacts.
Import Py B64 DataCollector Samples Shapes MoreSpec RoundingFacts TrendFacts.

(** *** The record of the trends provider *)

(** X5. When [_fetch_trends] returns a record it returns that one alone
    and appends no error; the record is about the topic asked for, its
    current interest is the last sample and its average the mean of the
    samples, its direction is the one computed from these two numbers, and
    it holds at most ten rising queries. *)
Theorem fetch_trends_record `{!Builtins} w topic errors t :
  In t (fst (_fetch_trends w topic errors)) ->
  _fetch_trends w topic errors = ([t], errors) /\
  keyword t = topic /\
  (exists column,
     interest_over_time (pytrends w topic) = inr column /\
     last column = Some (current_interest t) /\
     average_interest t = mean column) /\
  trend_direction t = direction_of (current_interest t) (average_interest t) /\
  (length (rising_queries t) <= 10)%nat.
Proof.
  unfold _fetch_trends. destruct (negb _); [intros []|].
  unfold trends_try. cbv zeta. unfold mbind, res_bind, mret, res_ret, raise.
  destruct (payload _); [intros []|].
  destruct (interest_over_time _) as [e|column]; [intros []|].
  destruct (related_queries _) as [e|related]; [intros []|].
  destruct (negb (nonempty column)); [intros []|].
  assert (Hlast : forall current, iloc_last column = inr current ->
                                  last column = Some current).
  { unfold iloc_last. destruct (last column); [intros ? [= <-]; reflexivity|discriminate]. }
  destruct related as [[e|qs]|]; [intros []| |];
    (destruct (iloc_last column) as [e|current] eqn:Ec; [intros []|]);
    (intros [<-|[]]; cbn [keyword current_interest average_interest
                          trend_direction rising_queries];
     split; [reflexivity|]; split; [reflexivity|];
     split; [exists column; repeat split; auto|]; split; [reflexivity|]).
  - rewrite length_take. lia.
  - simpl. lia.
Qed.

Lemma fetch_trends_record_witness :
  In trend_80 (fst (_fetch_trends trends_only_world "ai tools" [])) /\
  _fetch_trends trends_only_world "ai tools" [] = ([trend_80], []).
Proof.
  split; [vm_compute; left; reflexivity|].
  refine (proj1 (@fetch_trends_record sample_builtins trends_only_world "ai tools" []
                   trend_80 _)).
  vm_compute; left; reflexivity.
Defined.

(** *** The direction grows with the current interest *)

Lemma int_gt_mono (c c' : Z) (x : float) :
  c <= c' -> int_gt c x = true -> int_gt c' x = true.
Proof.
  intros Hc. unfold int_gt, Zcompare.
  destruct x as [s|s| |s m e]; try (intros; assumption).
  - destruct (Z.compare_spec c 0); try discriminate.
    destruct (Z.compare_spec c' 0); first [lia|reflexivity].
  - destruct e as [|p|p].
    + destruct (Z.compare_spec c (cond_Zopp s (Zpos m))); try discriminate.
      destruct (Z.compare_spec c' (cond_Zopp s (Zpos m))); first [lia|reflexivity].
    + destruct (Z.compare_spec c (cond_Zopp s (Zpos m) * 2 ^ Zpos p)); try discriminate.
      destruct (Z.compare_spec c' (cond_Zopp s (Zpos m) * 2 ^ Zpos p)); first [lia|reflexivity].
    + pose proof (pow_pos (Zpos p) ltac:(lia)) as Hp.
      destruct (Z.compare_spec (c * 2 ^ Zpos p) (cond_Zopp s (Zpos m))); try discriminate.
      destruct (Z.compare_spec (c' * 2 ^ Zpos p) (cond_Zopp s (Zpos m))); first [nia|reflexivity].
Qed.

Lemma int_lt_mono (c c' : Z) (x : float) :
  c <= c' -> int_lt c' x = true -> int_lt c x = true.
Proof.
  intros Hc. unfold int_lt, Zcompare.
  destruct x as [s|s| |s m e]; try (intros; assumption).
  - destruct (Z.compare_spec c' 0); try discriminate.
    destruct (Z.compare_spec c 0); first [lia|reflexivity].
  - destruct e as [|p|p].
    + destruct (Z.compare_spec c' (cond_Zopp s (Zpos m))); try discriminate.
      destruct (Z.compare_spec c (cond_Zopp s (Zpos m))); first [lia|reflexivity].
    + destruct (Z.compare_spec c' (cond_Zopp s (Zpos m) * 2 ^ Zpos p)); try discriminate.
      destruct (Z.compare_spec c (cond_Zopp s (Zpos m) * 2 ^ Zpos p)); first [lia|reflexivity].
    + pose proof (pow_pos (Zpos p) ltac:(lia)) as Hp.
      destruct (Z.compare_spec (c' * 2 ^ Zpos p) (cond_Zopp s (Zpos m))); try discriminate.
      destruct (Z.compare_spec (c * 2 ^ Zpos p) (cond_Zopp s (Zpos m))); first [nia|reflexivity].
Qed.

(** X6. Against one average, a higher current interest never gives a
    lower direction: if an interest is RISING so is every higher one, and
    if an interest is DECLINING so is every lower one.  This holds for
    every average, with no condition on the ranges. *)
Theorem direction_of_monotone (c c' : Z) (a : float) :
  c <= c' ->
  (direction_of c a = RISING -> direction_of c' a = RISING) /\
  (direction_of c' a = DECLINING -> direction_of c a = DECLINING).
Proof.
  intros Hc. destruct directions_differ as (Hrd & Hrs & Hds).
  pose proof (int_gt_mono c c' (mul a f1_1) Hc) as Hgt.
  pose proof (int_lt_mono c c' (mul a f0_9) Hc) as Hlt.
  unfold direction_of.
  destruct (int_gt c (mul a f1_1)) eqn:E1, (int_gt c' (mul a f1_1)) eqn:E2,
           (int_lt c (mul a f0_9)) eqn:E3, (int_lt c' (mul a f0_9)) eqn:E4;
    split; intros; try reflexivity; try congruence;
    try (specialize (Hgt eq_refl)); try (specialize (Hlt eq_refl)); congruence.
Qed.

Lemma direction_of_monotone_witness :
  56 <= 80 /\ direction_of 80 (of_Z 50) = RISING.
Proof.
  split; [lia|].
  apply (proj1 (direction_of_monotone 56 80 (of_Z 50) ltac:(lia))).
  reflexivity.
Defined.

End TrendRecordFacts.

Module QuestionFacts.
Import Py DataCollector Samples Shapes MoreSpec MergeFacts ContextFacts CollectedDataFacts.
Import RecordFacts.

Section WithBuiltins.
Context `{!Builtins}.

(** *** The related questions *)

Lemma questions_of_objects items :
  forallb is_object items = true ->
  questions_of items = inr (omap question_of items).
Proof.
  induction items as [|item items IH]; [reflexivity|].
  intros [Hi His]%andb_true_iff. specialize (IH His).
  destruct item as [| | | | | |kv]; try discriminate Hi.
  cbn [questions_of omap list_omap question_of py_in py_index
       mbind res_bind mret res_ret].
  destruct (assoc "question" kv) as [q|] eqn:Eq.
  - rewrite bool_decide_eq_true_2 by eauto. rewrite IH. reflexivity.
  - rewrite bool_decide_eq_false_2 by (intros [? ?]; discriminate). exact IH.
Qed.

(** X7. For a results page that is an object without an [error] entry and
    whose [related_questions] is a list of objects, [_fetch_serp] returns
    the question of every item that has one, in the order of the page,
    skips the items without, and appends no error. *)
Theorem fetch_serp_questions self w key query errors kv items :
  key_set (serp_key self) = Some key ->
  http_get w serp_url [("q", query); ("api_key", key); ("engine", "google")]
    = inr (JObj kv) ->
  assoc "error" kv = None ->
  assoc "related_questions" kv = Some (JArr items) ->
  forallb is_object items = true ->
  _fetch_serp self w query errors = (omap question_of items, errors).
Proof.
  intros Hk Hget He Hq Hobj. unfold _fetch_serp, serp_try. rewrite Hk, Hget.
  cbn [py_in py_get mbind res_bind mret res_ret]. rewrite He.
  rewrite bool_decide_eq_false_2 by (intros [? ?]; discriminate).
  rewrite Hq. cbn [from_option id py_iter mbind res_bind mret res_ret].
  rewrite (questions_of_objects items Hobj). reflexivity.
Qed.

(** *** The statistics that are merged *)

Lemma stats_map_of_lookup vs : forall m,
  forallb wf_stat vs = true ->
  exists m',
    stats_map_of vs m = inr m' /\
    forall k, m' !! k = match stats_of vs k with
                        | Some st => Some st
                        | None => m !! k
                        end.
Proof.
  induction vs as [|v vs IH]; intros m Hw.
  - exists m. split; [reflexivity|]. reflexivity.
  - apply andb_true_iff in Hw as [Hv Hvs].
    unfold wf_stat in Hv.
    destruct (obj_field v "id") as [[| | | |s| |]|] eqn:Eid; try discriminate.
    destruct (obj_field v "statistics") as [st|] eqn:Est; try discriminate.
    destruct (IH (<[s := st]> m) Hvs) as (m' & Hr & Hk).
    exists m'. split.
    + unfold obj_field in Eid, Est. destruct v as [| | | | | |kv]; try discriminate.
      cbn [stats_map_of py_index mbind res_bind mret res_ret].
      rewrite Eid, Est. exact Hr.
    + intros k. rewrite Hk. cbn [stats_of]. rewrite Eid, Est.
      destruct (stats_of vs k); [reflexivity|].
      unfold str_eqb. case_bool_decide as Hsk.
      * subst k. apply lookup_insert_eq.
      * apply lookup_insert_ne. exact Hsk.
Qed.

(** What one turn of the merge loop reads out of the map. *)
Lemma video_of_counts (m : gmap string json) item v :
  wf_item item = true ->
  video_of m item = inr (Some v) ->
  count_of (default (JObj []) (m !! video_id v)) "viewCount" = inr (view_count v) /\
  count_of (default (JObj []) (m !! video_id v)) "likeCount" = inr (like_count v).
Proof.
  intros Hw.
  destruct (wf_item_inv item Hw) as (kv & idkv & skv & -> & Hid & Hsn & Hv & Hp).
  unfold video_of.
  cbn [py_get py_index mbind res_bind mret res_ret from_option].
  rewrite Hid. cbn [from_option id py_get mbind res_bind mret res_ret].
  destruct (assoc "videoId" idkv) as [[| | | |vid| |]|] eqn:E; try discriminate Hv;
    [|discriminate].
  cbn [from_option id truthy]. destruct (str_eqb vid EmptyString); [discriminate|].
  cbn [negb]. rewrite Hsn.
  cbn [stats_get mbind res_bind mret res_ret from_option].
  destruct (default (JObj []) (m !! vid)) as [| | | | | |st] eqn:Est;
    try discriminate.
  cbn [py_get mbind res_bind mret res_ret count_of].
  destruct (py_int (from_option id (JInt 0) (assoc "viewCount" st)))
    as [e|views] eqn:Hviews; [discriminate|].
  cbn [mbind res_bind mret res_ret].
  destruct (py_int (from_option id (JInt 0) (assoc "likeCount" st)))
    as [e|likes] eqn:Hlikes; [discriminate|].
  cbn [mbind res_bind mret res_ret].
  destruct (py_slice10 _); [discriminate|].
  cbn [mbind res_bind mret res_ret].
  intros [= <-]. cbn [video_id view_count like_count py_str].
  rewrite Est. cbn [count_of]. split; assumption.
Qed.

(** X8. For search results and a statistics response of the documented
    shape, the counts of every record returned are those of the statistics
    filed under its identifier, read with [int(...)] and 0 for a count that
    is not there; when the response carries an identifier more than once,
    the last entry is the one used. *)
Theorem youtube_stats_merges_last w key items errors stats_data stats_items :
  forallb wf_item items = true ->
  http_get w stats_url
    [("part", "statistics"); ("id", join "," (omap listed_id items)); ("key", key)]
    = inr stats_data ->
  py_get stats_data "items" (JArr []) = inr (JArr stats_items) ->
  forallb wf_stat stats_items = true ->
  exists videos,
    youtube_stats w key items errors = inr (videos, errors) /\
    forall v, In v videos ->
      let st := default (JObj []) (stats_of stats_items (video_id v)) in
      count_of st "viewCount" = inr (view_count v) /\
      count_of st "likeCount" = inr (like_count v).
Proof.
  intros Hitems Hget Hstats Hwf. unfold youtube_stats.
  rewrite (video_ids_of_wf items Hitems). cbn [mbind res_bind mret res_ret].
  destruct (omap listed_id items) as [|vid0 ids] eqn:Eids.
  - exists []. split; [reflexivity|]. intros v [].
  - assert (Hne : nonempty (map JStr (vid0 :: ids)) = true) by reflexivity.
    rewrite Hne. cbn [negb]. rewrite strs_of_strs. cbn [mbind res_bind mret res_ret].
    rewrite Hget. cbn [mbind res_bind mret res_ret]. rewrite Hstats.
    cbn [mbind res_bind mret res_ret py_iter].
    destruct (stats_map_of_wf stats_items ∅ Hwf) as (m' & Hm' & Hg & _).
    { apply map_Forall_empty. }
    destruct (stats_map_of_lookup stats_items ∅ Hwf) as (m2 & Hm2 & Hlook).
    rewrite Hm' in Hm2. injection Hm2 as <-.
    rewrite Hm'. cbn [mbind res_bind mret res_ret].
    destruct (videos_of_wf m' items Hitems Hg) as (videos & Hvs & _ & _).
    rewrite Hvs. exists videos. split; [reflexivity|].
    intros v Hin. cbv zeta.
    destruct (videos_of_In m' items videos v Hvs Hin) as (item & Hitem & Hv).
    assert (Hwi : wf_item item = true).
    { rewrite forallb_forall in Hitems. apply Hitems, Hitem. }
    pose proof (video_of_counts m' item v Hwi Hv) as Hc.
    rewrite Hlook in Hc. rewrite lookup_empty in Hc.
    destruct (stats_of stats_items (video_id v)); exact Hc.
Qed.

End WithBuiltins.

Lemma fetch_serp_questions_witness :
  _fetch_serp (init questions_world) questions_world "X" [] =
    (["What is X?"; "Why X?"], []).
Proof.
  apply (@fetch_serp_questions sample_builtins (init questions_world) questions_world
           "key" "X" []
           [("related_questions",
             JArr [JObj [("question", JStr "What is X?")];
                   JObj [("title", JStr "no question here")];
                   JObj [("question", JStr "Why X?")]])]
           [JObj [("question", JStr "What is X?")];
            JObj [("title", JStr "no question here")];
            JObj [("question", JStr "Why X?")]]);
    reflexivity.
Defined.

Lemma youtube_stats_merges_last_witness :
  exists videos,
    youtube_stats twice_world "key" two_items [] = inr (videos, []) /\
    forall v, In v videos -> video_id v = "abc" ->
              view_count v = 150000 /\ like_count v = 0.
Proof.
  destruct (@youtube_stats_merges_last sample_builtins twice_world "key" two_items []
              stats_twice
              [JObj [("id", JStr "abc");
                     ("statistics", JObj [("viewCount", JStr "1");
                                          ("likeCount", JStr "2")])];
               JObj [("id", JStr "abc");
                     ("statistics", JObj [("viewCount", JStr "150000")])]]
              ltac:(reflexivity) ltac:(reflexivity) ltac:(reflexivity)
              ltac:(reflexivity)) as (videos & Hr & Hc).
  exists videos. split; [exact Hr|].
  intros v Hin Hv. specialize (Hc v Hin). cbv zeta in Hc. rewrite Hv in Hc.
  destruct Hc as [Hviews Hlikes].
  assert (Hv' : inr 150000 = (inr (view_count v) : res Z)) by exact Hviews.
  assert (Hl' : inr 0 = (inr (like_count v) : res Z)) by exact Hlikes.
  split; congruence.
Defined.

(** *** What the context reads of a snapshot *)

Lemma nonempty_take {A} (n : nat) (l : list A) :
  nonempty (take (S n) l) = nonempty l.
Proof. destruct l; reflexivity. Qed.

Lemma nonempty_map {A B} (f : A -> B) (l : list A) : nonempty (map f l) = nonempty l.
Proof. destruct l; reflexivity. Qed.

Lemma trend_entry_capped (t : TrendData) : trend_entry (capped_trend t) = trend_entry t.
Proof.
  unfold trend_entry, capped_trend. cbn [keyword current_interest average_interest
    trend_direction rising_queries].
  rewrite nonempty_take, take_take. reflexivity.
Qed.

Lemma add_each_map {A B} (f : B -> string) (g : A -> B) (l : list A) : forall ctx,
  add_each f ctx (map g l) = add_each (fun x => f (g x)) ctx l.
Proof.
  induction l as [|x l IH]; intros ctx; [reflexivity|]. cbn [map]. apply IH.
Qed.

Lemma add_each_ext {A} (f g : A -> string) (l : list A) :
  (forall x, f x = g x) -> forall ctx, add_each f ctx l = add_each g ctx l.
Proof.
  intros Hfg. induction l as [|x l IH]; intros ctx; [reflexivity|].
  unfold add_each in *. cbn [fold_left]. rewrite Hfg. apply IH.
Qed.

(** X9. The context shows at most ten videos, ten questions and five
    rising queries a trend: whatever a snapshot holds beyond these is never
    read, the text is that of the snapshot cut to them.  Trends and errors
    are not cut. *)
Theorem to_prompt_context_capped (d : CollectedData) :
  to_prompt_context (capped d) = to_prompt_context d.
Proof.
  unfold to_prompt_context, capped, header.
  cbn [DataCollector.topic DataCollector.platform collected_at youtube_videos
       trends serp_questions errors].
  rewrite !nonempty_take, nonempty_map, !take_take.
  rewrite add_each_map.
  rewrite (add_each_ext (fun x => trend_entry (capped_trend x)) trend_entry
             (trends d) trend_entry_capped).
  reflexivity.
Qed.

End QuestionFacts.

(** ** The crew and the endpoint *)

Module CrewFacts.
Import Py DataCollector SmartScriptCrew AgentRoutes Routes Samples MoreSpec.
Import CollectedDataFacts AgentRoutesFacts.

Section WithBuiltins.
Context `{!Builtins}.

(** *** When the crew is started *)

Lemma writing_task_without_video platform d :
  youtube_videos d = [] -> _create_writing_task platform d = inl AttributeError.
Proof. intros Hv. unfold _create_writing_task. rewrite Hv. reflexivity. Qed.

Lemma writing_task_with_video platform d :
  youtube_videos d <> [] -> exists t, _create_writing_task platform d = inr t.
Proof.
  intros Hv. unfold _create_writing_task.
  destruct (youtube_videos d); [congruence|]. eexists. reflexivity.
Qed.

Lemma has_data_of_video d : youtube_videos d <> [] -> has_data d = true.
Proof. unfold has_data, py_or. destruct (youtube_videos d); [congruence|reflexivity]. Qed.

Lemma run_without_video kickoff self w topic platform :
  let d := collect_all self w topic platform in
  has_data d = true -> youtube_videos d = [] ->
  run kickoff self w topic platform =
    (Raised AttributeError, [Built (_create_analysis_task d)]).
Proof.
  cbv zeta. intros Hd Hv. unfold run. rewrite Hd. cbn [negb].
  rewrite (writing_task_without_video platform _ Hv). reflexivity.
Qed.

(** X10. [run] starts the crew exactly when the snapshot holds at least
    one YouTube video.  Trends or questions alone pass the test of
    [has_data], but then building the writing task reads the view count of
    a video that is not there: [run] raises [AttributeError] after the
    analysis task was built, and no crew is started. *)
Theorem run_kicks_off_iff_video kickoff self w topic platform :
  let d := collect_all self w topic platform in
  let r := run kickoff self w topic platform in
  ((exists tasks, In (KickedOff tasks) (snd r)) <-> youtube_videos d <> []) /\
  (has_data d = true -> youtube_videos d = [] ->
   r = (Raised AttributeError, [Built (_create_analysis_task d)])).
Proof.
  cbv zeta. split; [|apply run_without_video].
  split.
  - intros [tasks Hin] Hv. revert Hin. unfold run.
    destruct (negb (has_data _)); [intros []|].
    rewrite (writing_task_without_video platform _ Hv).
    intros [Hb|[]]. discriminate Hb.
  - intros Hv. unfold run. rewrite (has_data_of_video _ Hv). cbn [negb].
    destruct (writing_task_with_video platform _ Hv) as [t ->].
    eexists. destruct (kickoff _); cbn [snd]; right; right; left; reflexivity.
Qed.

(** *** The platform of the writing task *)

(** X11. The text for the platform is chosen by the platform in lower
    case, the duration line of the expected output by the platform as it
    was given.  A platform that is youtube up to capitals gets the
    long-form text of youtube together with the duration line of an unknown
    platform. *)
Theorem writing_task_platform_case platform d v vs :
  youtube_videos d = v :: vs ->
  lower platform = "youtube" -> platform <> "youtube" ->
  exists metrics views interest n,
    _create_writing_task platform d =
      inr (WritingTask platform "youtube" metrics views interest n "appropriate").
Proof.
  intros Hv Hl Hp. unfold _create_writing_task, spec_of, duration_of.
  rewrite Hv, Hl. cbn [head].
  assert (Hy : str_eqb platform "youtube" = false).
  { unfold str_eqb. apply bool_decide_eq_false. exact Hp. }
  assert (Hi : str_eqb platform "instagram" = false).
  { unfold str_eqb. apply bool_decide_eq_false. intros ->. discriminate Hl. }
  rewrite Hy, Hi. do 4 eexists. reflexivity.
Qed.

(** *** The endpoint *)

Section Endpoint.
Variable kickoff : list Task -> res string.
Variable new_crew : res unit.
Variable parse_outputs : string -> res (option json * option json).

(** X12. When nothing could be collected the endpoint answers with an
    ordinary response, not an HTTP error: [success] is false, the data is
    the failure dictionary of [run] with the errors of the collection, and
    the message is the one of that dictionary. *)
Theorem generate_smart_script_reports_missing_data w topic platform :
  new_crew = inr () ->
  has_data (collect_all (init w) w topic platform) = false ->
  generate_smart_script kickoff new_crew parse_outputs w topic platform =
    inl {| success := false;
           data := FailureDict "Could not collect real data"
                     (errors (collect_all (init w) w topic platform))
                     "API data collection failed. Check your API keys.";
           message := "API data collection failed. Check your API keys." |}.
Proof.
  intros Hc Hd. unfold generate_smart_script, smart_script_try.
  rewrite Hc. cbn [mbind res_bind]. unfold run. rewrite Hd. reflexivity.
Qed.

(** X13. When the collection brought trends or questions but no video,
    the endpoint raises the HTTP error that [handle_crew_error] makes of the
    [AttributeError]: the data that was collected is not reported, and what
    the crew would have answered plays no part. *)
Theorem generate_smart_script_needs_video w topic platform :
  new_crew = inr () ->
  has_data (collect_all (init w) w topic platform) = true ->
  youtube_videos (collect_all (init w) w topic platform) = [] ->
  generate_smart_script kickoff new_crew parse_outputs w topic platform = inr (handle_crew_error AttributeError).
Proof.
  intros Hc Hd Hv. unfold generate_smart_script, smart_script_try.
  rewrite Hc. cbn [mbind res_bind].
  rewrite (run_without_video kickoff (init w) w topic platform Hd Hv). reflexivity.
Qed.

(** X14. Every answer of the endpoint is of one of three kinds: the
    failure response, when nothing was collected; a response with
    [success] true, which needs at least one collected video and carries
    the counts of the snapshot; or an HTTP error with status 503 or 500. *)
Theorem generate_smart_script_answers w topic platform :
  let d := collect_all (init w) w topic platform in
  match generate_smart_script kickoff new_crew parse_outputs w topic platform with
  | inl {| success := false; data := FailureDict _ es _ |} =>
      has_data d = false /\ es = errors d
  | inl {| success := true; data := ScriptDict videos trends questions es _ _ _ |} =>
      youtube_videos d <> [] /\
      videos = Z.of_nat (length (youtube_videos d)) /\
      trends = Z.of_nat (length (DataCollector.trends d)) /\
      questions = Z.of_nat (length (serp_questions d)) /\
      es = errors d
  | inl _ => False
  | inr h => status_code h = 503 \/ status_code h = 500
  end.
Proof.
  cbv zeta. unfold generate_smart_script, smart_script_try.
  assert (Hst : forall e, status_code (handle_crew_error e) = 503 \/
                          status_code (handle_crew_error e) = 500).
  { intros e. unfold handle_crew_error.
    destruct (handle_error_str_statuses (exn_str e)) as [[H503 _]|Hg];
      [left; exact H503|right; rewrite Hg; reflexivity]. }
  destruct new_crew as [e|[]]; cbn [mbind res_bind]; [apply Hst|].
  unfold run.
  destruct (has_data (collect_all (init w) w topic platform)) eqn:Hd; cbn [negb fst].
  - destruct (youtube_videos (collect_all (init w) w topic platform)) as [|v vs] eqn:Hv.
    + rewrite (writing_task_without_video platform _ Hv). cbn [fst]. apply Hst.
    + destruct (writing_task_with_video platform
                  (collect_all (init w) w topic platform)) as [t ->].
      { rewrite Hv. discriminate. }
      destruct (kickoff _) as [e|result]; cbn [fst]; [apply Hst|].
      destruct (parse_outputs result) as [e|outputs];
        cbn [mbind res_bind mret res_ret]; [apply Hst|].
      split; [discriminate|repeat split].
  - cbn [mret res_ret]. split; reflexivity.
Qed.

End Endpoint.

(** *** The environment check *)

(** X15. [validate_environment] sorts the three variables, in their
    order, into those that are missing and those that are present; a
    variable set to the empty string counts as missing.  The check is valid
    exactly when none is missing, and this is when the health check says
    [ok]; otherwise it says [degraded]. *)
Theorem validate_environment_partition (getenv : string -> option string) :
  let s := validate_environment getenv in
  let h := detailed_health_check getenv in
  missing s = filter (fun k => is_set (getenv k) = false) required_vars /\
  present s = filter (fun k => is_set (getenv k) = true) required_vars /\
  (valid s = true <-> missing s = []) /\
  (valid s = true <-> forall k, In k required_vars -> is_set (getenv k) = true) /\
  status h = (if valid s then "ok" else "degraded") /\
  environment h = s.
Proof.
  cbv zeta. unfold detailed_health_check, validate_environment, env_vars, required_vars.
  cbn [fold_left fst snd valid missing present status environment].
  rewrite !filter_cons, !filter_nil. cbn [fst snd].
  destruct (is_set (getenv "ANTHROPIC_API_KEY")) eqn:Ea,
           (is_set (getenv "YOUTUBE_API_KEY")) eqn:Ey,
           (is_set (getenv "SERP_API_KEY")) eqn:Es;
    repeat case_decide; try congruence;
    cbn [negb app length Nat.eqb map fst];
    (split; [reflexivity|]); (split; [reflexivity|]);
    (split; [split; intros; try reflexivity; discriminate|]);
    (split; [|split; reflexivity]);
    (split; [intros Hv; try discriminate Hv;
             intros k [<-|[<-|[<-|[]]]]; assumption
            |intros Hall; try reflexivity]).
  all: try (pose proof (Hall _ ltac:(left; reflexivity)); congruence).
  all: try (pose proof (Hall _ ltac:(right; left; reflexivity)); congruence).
  all: try (pose proof (Hall _ ltac:(right; right; left; reflexivity)); congruence).
Qed.

End WithBuiltins.

(** With the trends provider alone: the snapshot has data, [run] raises,
    and the endpoint answers 500. *)
Example run_trends_only :
  has_data (collect_all (init trends_only_world) trends_only_world "ai tools" "youtube")
    = true /\
  fst (run (fun _ => inr "script") (init trends_only_world) trends_only_world
           "ai tools" "youtube") = Raised AttributeError /\
  generate_smart_script (fun _ => inr "script") (inr ()) (fun _ => inr (None, None))
    trends_only_world "ai tools" "youtube" = inr generic_error.
Proof. repeat split. Qed.

Lemma writing_task_platform_case_witness :
  exists metrics views interest n,
    _create_writing_task "YouTube"
      (collect_all (init stats_world) stats_world "X" "YouTube") =
      inr (WritingTask "YouTube" "youtube" metrics views interest n "appropriate").
Proof.
  eapply (writing_task_platform_case "YouTube"
            (collect_all (init stats_world) stats_world "X" "YouTube")).
  - vm_compute. reflexivity.
  - reflexivity.
  - discriminate.
Defined.

Lemma generate_smart_script_reports_missing_data_witness :
  generate_smart_script (fun _ => inr "script") (inr ()) (fun _ => inr (None, None))
    bare_world "ai tools" "youtube" =
    inl {| success := false;
           data := FailureDict "Could not collect real data"
                     ["YOUTUBE_API_KEY not set";
                      "pytrends not installed (pip install pytrends)";
                      "SERP_API_KEY not set"]
                     "API data collection failed. Check your API keys.";
           message := "API data collection failed. Check your API keys." |}.
Proof.
  apply (@generate_smart_script_reports_missing_data sample_builtins
           (fun _ => inr "script") (inr ()) (fun _ => inr (None, None))
           bare_world "ai tools" "youtube"); reflexivity.
Defined.

Lemma generate_smart_script_needs_video_witness :
  generate_smart_script (fun _ => inr "script") (inr ()) (fun _ => inr (None, None))
    trends_only_world "ai tools" "youtube" = inr generic_error.
Proof.
  apply (@generate_smart_script_needs_video sample_builtins
           (fun _ => inr "script") (inr ()) (fun _ => inr (None, None))
           trends_only_world "ai tools" "youtube"); reflexivity.
Defined.

End CrewFacts.

(** ** The factors of the engagement estimate *)

Module FactorFacts.
Import Py B64 EngagementAnalyzer EstimateSpec RangeSpec ContextSpec.
Import ContextFacts GroundingFacts EstimateFacts.

(** *** Substrings *)

Lemma contains_unfold (needle hay : string) :
  contains needle hay =
  String.prefix needle hay
  || match hay with
     | EmptyString => false
     | String _ hay' => contains needle hay'
     end.
Proof. destruct hay; reflexivity. Qed.

Lemma prefix_app (a b : string) : String.prefix a (a +:+ b) = true.
Proof.
  induction a as [|c a IH]; [destruct b; reflexivity|].
  rewrite app_cons. cbn [String.prefix].
  destruct (ascii_dec c c); [exact IH|congruence].
Qed.

Lemma contains_of_occurs (x s : string) : occurs x s -> contains x s = true.
Proof.
  intros (pre & post & ->). induction pre as [|c pre IH].
  - rewrite contains_unfold. change (EmptyString +:+ x +:+ post) with (x +:+ post).
    rewrite prefix_app. reflexivity.
  - rewrite app_cons, contains_unfold, IH. apply orb_true_r.
Qed.

Lemma prefix_occurs (x s : string) : String.prefix x s = true -> exists post, s = x +:+ post.
Proof.
  revert s. induction x as [|c x IH]; intros s Hp.
  - exists s. reflexivity.
  - destruct s as [|c' s]; [discriminate|]. cbn [String.prefix] in Hp.
    destruct (ascii_dec c c') as [->|]; [|discriminate].
    destruct (IH s Hp) as [post ->]. exists post. rewrite app_cons. reflexivity.
Qed.

Lemma occurs_of_contains (x s : string) : contains x s = true -> occurs x s.
Proof.
  induction s as [|c s IH]; rewrite contains_unfold; intros [Hp|Hc]%orb_true_iff.
  - destruct (prefix_occurs _ _ Hp) as [post ->].
    exists EmptyString, post. reflexivity.
  - discriminate.
  - destruct (prefix_occurs _ _ Hp) as [post ->].
    exists EmptyString, post. reflexivity.
  - destruct (IH Hc) as (pre & post & ->).
    exists (String c pre), post. rewrite app_cons. reflexivity.
Qed.

Lemma contains_trans (x y s : string) :
  contains x y = true -> contains y s = true -> contains x s = true.
Proof.
  intros Hxy Hys. apply contains_of_occurs.
  eapply occurs_trans; apply occurs_of_contains; eassumption.
Qed.

(** *** The niche *)

(** X16. The words of the niche are looked for as substrings, and the
    technology words come first.  Every niche that mentions entertainment
    holds the letters of [ai] and is given the 1.3 of technology; the 1.4
    of entertainment is only ever given for comedy or gaming. *)
Theorem niche_entertainment_is_tech (niche platform : string) :
  (contains "entertainment" (lower niche) = true ->
   _get_niche_multiplier niche platform = f1_3) /\
  (_get_niche_multiplier niche platform = f1_4 ->
   contains "entertainment" (lower niche) = false /\
   (contains "comedy" (lower niche) = true \/ contains "gaming" (lower niche) = true)).
Proof.
  assert (Hai : contains "entertainment" (lower niche) = true ->
                contains "ai" (lower niche) = true).
  { apply contains_trans. reflexivity. }
  assert (Htech : contains "ai" (lower niche) = true ->
                  any_in ["ai"; "automation"; "technology"; "tech"] (lower niche) = true).
  { intros Ha. unfold any_in. cbn [existsb]. rewrite Ha. reflexivity. }
  unfold _get_niche_multiplier. cbv zeta.
  destruct (any_in ["ai"; "automation"; "technology"; "tech"] (lower niche)) eqn:Et.
  { split; [reflexivity|]. intros Hf. vm_compute in Hf. discriminate Hf. }
  assert (Hne : contains "entertainment" (lower niche) = false).
  { destruct (contains "entertainment" (lower niche)); [|reflexivity].
    symmetry. exact (Htech (Hai eq_refl)). }
  split; [rewrite Hne; discriminate|].
  destruct (any_in ["finance"; "money"; "business"; "entrepreneur"] (lower niche)).
  { intros Hf. vm_compute in Hf. discriminate Hf. }
  destruct (any_in ["fitness"; "health"; "wellness"] (lower niche)).
  { intros Hf. vm_compute in Hf. discriminate Hf. }
  destruct (any_in ["entertainment"; "comedy"; "gaming"] (lower niche)) eqn:Ee.
  - intros _. split; [exact Hne|].
    revert Ee. unfold any_in. cbn [existsb]. rewrite Hne. cbn [orb].
    rewrite orb_false_r. intros [Hc|Hg]%orb_true_iff; auto.
  - destruct (any_in ["education"; "tutorial"; "how-to"; "learning"] (lower niche)).
    { intros Hf. vm_compute in Hf. discriminate Hf. }
    destruct (any_in ["marketing"; "social media"; "content"] (lower niche));
      intros Hf; vm_compute in Hf; discriminate Hf.
Qed.

Example niche_entertainment :
  _get_niche_multiplier "Entertainment" "tiktok" = f1_3 /\
  _get_niche_multiplier "Comedy" "tiktok" = f1_4.
Proof. split; reflexivity. Qed.

(** *** The trend score *)

Lemma check_youtube_no_answer w topic key :
  no_answer w -> _check_youtube_trends w topic key = f0.
Proof.
  intros Hw. unfold _check_youtube_trends, youtube_trends_try.
  unfold mbind, res_bind, mret, res_ret.
  match goal with |- context [requests_get w ?u ?p] => specialize (Hw u p) end.
  destruct (requests_get w _ _) as [e|[status body]]; [reflexivity|].
  destruct (Z.eqb_spec status 200); [contradiction|reflexivity].
Qed.

Lemma check_google_no_answer w topic niche key :
  no_answer w -> _check_google_trends w topic niche key = f0.
Proof.
  intros Hw. unfold _check_google_trends.
  match goal with |- context [requests_get w ?u ?p] => specialize (Hw u p) end.
  destruct (requests_get w _ _) as [e|[status body]]; [reflexivity|].
  destruct (Z.eqb_spec status 200); [contradiction|reflexivity].
Qed.

(** X17. When no request is answered with status 200, whether it raises,
    times out or is refused, the trend score is the one computed from the
    keywords of the topic and the niche, with or without credentials. *)
Theorem trend_score_without_answer w topic niche :
  no_answer w -> _get_trend_score w topic niche = _keyword_trend_score topic niche.
Proof.
  intros Hw. unfold _get_trend_score.
  destruct (key_set (getenv w "YOUTUBE_API_KEY")) as [yk|];
    destruct (key_set (getenv w "SERP_API_KEY")) as [sk|];
    rewrite ?(check_youtube_no_answer w topic _ Hw),
            ?(check_google_no_answer w topic niche _ Hw);
    reflexivity.
Qed.

Lemma trend_score_without_answer_witness :
  _get_trend_score forbidden "new ai hack" "gaming" = f1_3.
Proof.
  rewrite (trend_score_without_answer forbidden "new ai hack" "gaming").
  - reflexivity.
  - intros url params. simpl. lia.
Defined.

(** X18. The trend score lies between 0.95 and 1.3.  The value below 1
    comes from the YouTube search alone: without a YouTube credential the
    score is at least 1. *)
Theorem trend_score_range w topic niche :
  let s := _get_trend_score w topic niche in
  leb f0_95 s = true /\ leb s f1_3 = true /\
  (key_set (getenv w "YOUTUBE_API_KEY") = None -> leb f1_0 s = true).
Proof.
  cbv zeta. split; [|split].
  - pose proof (trend_score_in w topic niche) as Hin. unfold trend_scores in Hin.
    cbn [In] in Hin.
    destruct Hin as [<-|[<-|[<-|[<-|[<-|[<-|[]]]]]]]; reflexivity.
  - pose proof (trend_score_in w topic niche) as Hin. unfold trend_scores in Hin.
    cbn [In] in Hin.
    destruct Hin as [<-|[<-|[<-|[<-|[<-|[<-|[]]]]]]]; reflexivity.
  - intros Hk. unfold _get_trend_score. rewrite Hk.
    assert (Hkw : leb f1_0 (_keyword_trend_score topic niche) = true).
    { unfold _keyword_trend_score.
      repeat match goal with |- context [if ?b then _ else _] => destruct b end;
        reflexivity. }
    destruct (key_set (getenv w "SERP_API_KEY")) as [sk|]; [|exact Hkw].
    destruct (positive_score _) eqn:Es; [|exact Hkw].
    revert Es. unfold _check_google_trends.
    destruct (requests_get w _ _) as [e|[status body]]; [discriminate|].
    destruct (status =? 200); [reflexivity|discriminate].
Qed.

(** *** The quality score *)

(** X19. The quality score is at least 1 and stays below 1.6: the cap of
    the last line never changes it, the score is the product of the
    bonuses that apply; and without a duration only the hook and the
    visuals count. *)
Theorem quality_score_range (has_hook has_visuals : bool) (duration platform : string) :
  let q := _calculate_quality_score has_hook has_visuals duration platform in
  leb f1_0 q = true /\ ltb q f1_6 = true /\
  exists bonus,
    q = uncapped_quality has_hook has_visuals bonus /\
    (duration = EmptyString -> bonus = false).
Proof.
  cbv zeta.
  assert (Hcap : forall bonus,
             quality_of has_hook has_visuals bonus =
             uncapped_quality has_hook has_visuals bonus).
  { intros bonus. destruct has_hook, has_visuals, bonus; vm_compute; reflexivity. }
  assert (Hex : exists bonus,
             _calculate_quality_score has_hook has_visuals duration platform =
               quality_of has_hook has_visuals bonus /\
             (duration = EmptyString -> bonus = false)).
  { unfold _calculate_quality_score, quality_of.
    destruct (str_eqb duration EmptyString) eqn:Ed; cbn [negb].
    - exists false. split; reflexivity.
    - assert (Hne : duration = EmptyString -> true = false).
      { intros ->. revert Ed. unfold str_eqb. rewrite bool_decide_eq_true_2 by reflexivity.
        discriminate. }
      assert (Hne' : duration = EmptyString -> false = false) by reflexivity.
      destruct (existsb _ _).
      + destruct (_ || _); [exists true|exists false]; split; auto.
      + destruct (contains "youtube" _); [|exists false; split; auto].
        destruct (_ || _); [exists true|exists false]; split; auto. }
  destruct Hex as (bonus & Hq & Hd). rewrite Hq.
  split; [|split].
  - destruct has_hook, has_visuals, bonus; vm_compute; reflexivity.
  - destruct has_hook, has_visuals, bonus; vm_compute; reflexivity.
  - exists bonus. split; [apply Hcap|exact Hd].
Qed.

(** *** The range shown *)

Lemma all_range_ok :
  forallb (fun b => forallb (fun n => forallb (fun t => forallb (fun q =>
    range_ok b n t q) qualities) trend_scores) niche_multipliers) baselines = true.
Proof. vm_compute. reflexivity. Qed.

Lemma range_ok_in (b n t q : float) :
  In b baselines -> In n niche_multipliers -> In t trend_scores -> In q qualities ->
  range_ok b n t q = true.
Proof.
  intros Hb Hn Ht Hq. pose proof all_range_ok as H.
  rewrite forallb_forall in H. specialize (H b Hb).
  rewrite forallb_forall in H. specialize (H n Hn).
  rewrite forallb_forall in H. specialize (H t Ht).
  rewrite forallb_forall in H. exact (H q Hq).
Qed.

(** X20. For every input the product of the four factors is above 0.5, so
    that the lower end of the clamp never applies and the rate is the
    smaller of the product and 15.0.  The two bounds shown are always
    apart, the lower one at least 0.7 and the upper one at most 17.2: the
    upper bound is not held to the 15.0 of the rate. *)
Theorem estimate_range (w : World) (topic platform niche : string)
    (has_hook has_visuals : bool) (video_duration : string) :
  let e := estimate w topic platform niche has_hook has_visuals video_duration in
  estimated_rate e =
    py_min (mul (mul (mul (baseline e) (niche_multiplier e)) (trend_score e))
                (quality_score e)) f15_0 /\
  ltb f0_5 (estimated_rate e) = true /\
  ltb (lower_bound e) (upper_bound e) = true /\
  leb (lit 7 1) (lower_bound e) = true /\
  leb (upper_bound e) (lit 172 1) = true.
Proof.
  cbv zeta.
  set (e := estimate w topic platform niche has_hook has_visuals video_duration).
  pose proof (range_ok_in (baseline e) (niche_multiplier e) (trend_score e)
                (quality_score e) (baseline_in platform)
                (niche_multiplier_in niche platform) (trend_score_in w topic niche)
                (quality_score_in has_hook has_visuals video_duration platform)) as Hok.
  unfold range_ok in Hok. cbv zeta in Hok.
  apply andb_true_iff in Hok as [Hok Hup].
  apply andb_true_iff in Hok as [Hok Hlow].
  apply andb_true_iff in Hok as [Hrate Hapart].
  assert (Hr : estimated_rate e =
               py_min (mul (mul (mul (baseline e) (niche_multiplier e)) (trend_score e))
                           (quality_score e)) f15_0).
  { change (estimated_rate e)
      with (py_max f0_5 (py_min (mul (mul (mul (baseline e) (niche_multiplier e))
                                          (trend_score e)) (quality_score e)) f15_0)).
    unfold py_max at 1. rewrite Hrate. reflexivity. }
  split; [exact Hr|]. split; [rewrite Hr; exact Hrate|].
  split; [exact Hapart|]. split; [exact Hlow|exact Hup].
Qed.

Example estimate_upper_above_rate :
  let e := estimate offline "new ai hack" "tiktok" "gaming" true true "30 seconds" in
  estimated_rate e = f15_0 /\ upper_bound e = lit 172 1 /\
  ltb f15_0 (upper_bound e) = true.
Proof. repeat split; vm_compute; reflexivity. Qed.

End FactorFacts.

